(** * IndGo backend: roster generation, duty lifecycle and PIREP review

    A shallow embedding of the flight-duty core of the IndGo virtual-airline
    server.  The repository holds several revisions of the same Express
    server; two of them are embedded here:

    - [Tuned]: the revision whose header reads "Fully Merged, Updated &
      Performance Tuned" (src/unnamed/part_001: rank gating, roster
      multipliers, colon-format durations);
    - [ServerJs]: src/server.js, an earlier revision of the same handlers.

    Conventions of the embedding:
    - a JavaScript [Number] holding hours is an exact rational ([Q]): the
      rounding of doubles is not modelled, and an integer too large for a
      double stands for the [Infinity] the code computes (see [Js.number]);
      the one place where the code produces and tests [NaN] (the duration
      parser and the row filter) uses [Js.number], rationals plus [NaN];
    - a [Date] is its epoch value in milliseconds ([Z]);
    - a MongoDB collection is a finite map from [_id] to document;
    - a handler is a function from the store (and the request) to a response
      and the new store; a handler that throws yields [ServerError] and the
      store as it was when the exception was raised;
    - [Math.random] is an oracle: the stream of values it returns is an input;
    - a roster or a report is written through its Mongoose schema: the
      setters of the schema are applied ([castRoster], [castPirep]), fields
      the schema does not declare are dropped, and a document its
      validators refuse ([validRoster], [validPirep]) makes the write
      throw; a document read from the store is one its schema admits. *)

From stdpp Require Import gmap strings list fin_maps pretty.
From Stdlib Require Import Ascii QArith Qround Lqa.

Local Open Scope string_scope.
Local Open Scope list_scope.
Local Open Scope Q_scope.

(** ** JavaScript primitives used by the server *)

Module Js.

(** [Number] as far as the duration parser needs it: [NaN], or the exact
    value.  A run of digits worth 2^1024 - 2^970 or more is [Infinity] to
    [parseInt]; the embedding keeps the integer.  Like [Infinity] it is
    above zero and above every ceiling hours are compared with, and a leg
    that long never enters a roster, so no sum contains it. *)
Inductive number : Type :=
| NaN
| Finite (q : Q).

Definition isNaN (n : number) : bool :=
  match n with NaN => true | Finite _ => false end.

(** [a > b] on rationals. *)
Definition gtb (a b : Q) : bool := negb (Qle_bool a b).

(** [a >= b] on rationals. *)
Definition geb (a b : Q) : bool := Qle_bool b a.

(** White space as [String.prototype.trim] and the regexp class [\s] see it
    (code units below 128). *)
Definition isWhiteSpace (c : ascii) : bool :=
  let n := nat_of_ascii c in
  ((9 <=? n) && (n <=? 13) || (n =? 32))%nat.

Definition isDigit (c : ascii) : bool :=
  let n := nat_of_ascii c in ((48 <=? n) && (n <=? 57))%nat.

Definition isUpper (c : ascii) : bool :=
  let n := nat_of_ascii c in ((65 <=? n) && (n <=? 90))%nat.

Definition isLower (c : ascii) : bool :=
  let n := nat_of_ascii c in ((97 <=? n) && (n <=? 122))%nat.

Definition upperChar (c : ascii) : ascii :=
  if isLower c then ascii_of_nat (nat_of_ascii c - 32) else c.

Definition lowerChar (c : ascii) : ascii :=
  if isUpper c then ascii_of_nat (nat_of_ascii c + 32) else c.

Fixpoint mapChars (f : ascii -> ascii) (s : string) : string :=
  match s with
  | EmptyString => EmptyString
  | String c s' => String (f c) (mapChars f s')
  end.

Definition toUpperCase : string -> string := mapChars upperChar.
Definition toLowerCase : string -> string := mapChars lowerChar.

Fixpoint trimStart (s : string) : string :=
  match s with
  | EmptyString => EmptyString
  | String c s' => if isWhiteSpace c then trimStart s' else s
  end.

Fixpoint trimEnd (s : string) : string :=
  match s with
  | EmptyString => EmptyString
  | String c s' =>
      match trimEnd s' with
      | EmptyString => if isWhiteSpace c then EmptyString else String c EmptyString
      | t => String c t
      end
  end.

Definition trim (s : string) : string := trimEnd (trimStart s).

Fixpoint startsWith (p s : string) : bool :=
  match p, s with
  | EmptyString, _ => true
  | String a p', String b s' => Ascii.eqb a b && startsWith p' s'
  | String _ _, EmptyString => false
  end.

(** [s.includes(p)] *)
Fixpoint includes (s p : string) : bool :=
  startsWith p s ||
  match s with
  | EmptyString => false
  | String _ s' => includes s' p
  end.

(** [s.split(sep)] for a one-character separator. *)
Fixpoint split (sep : ascii) (s : string) : list string :=
  match s with
  | EmptyString => [EmptyString]
  | String c s' =>
      if Ascii.eqb c sep then EmptyString :: split sep s'
      else match split sep s' with
           | h :: t => String c h :: t
           | [] => [String c EmptyString]
           end
  end.

(** The longest prefix of decimal digits, and what follows it. *)
Fixpoint spanDigits (s : string) : string * string :=
  match s with
  | EmptyString => (EmptyString, EmptyString)
  | String c s' =>
      if isDigit c then let '(d, r) := spanDigits s' in (String c d, r)
      else (EmptyString, s)
  end.

Definition digitValue (c : ascii) : Z := Z.of_nat (nat_of_ascii c - 48).

Fixpoint decimalValue (acc : Z) (digits : string) : Z :=
  match digits with
  | EmptyString => acc
  | String c s' => decimalValue (10 * acc + digitValue c)%Z s'
  end.

(** [parseInt(s, 10)]: leading white space, an optional sign, then the
    longest run of digits; [None] stands for [NaN]. *)
Definition parseInt (s : string) : option Z :=
  let t := trimStart s in
  let '(negative, body) :=
    match t with
    | String "-"%char r => (true, r)
    | String "+"%char r => (false, r)
    | _ => (false, t)
    end in
  match fst (spanDigits body) with
  | EmptyString => None
  | ds => Some (if negative then (- decimalValue 0 ds)%Z else decimalValue 0 ds)
  end.

(** One attempt of the regexp [(\d+)\s*u] at the start of [s], for a unit
    letter [u]; the result is capture group 1.  Both quantifiers are
    greedy, and giving back a digit or a blank can never help: the next
    code unit would be a digit or a blank, not [u]. *)
Definition matchDigitsUnitHere (u : ascii) (s : string) : option string :=
  let '(ds, r) := spanDigits s in
  match ds with
  | EmptyString => None
  | _ =>
      match trimStart r with
      | String c _ => if Ascii.eqb c u then Some ds else None
      | EmptyString => None
      end
  end.

(** [s.match(/(\d+)\s*u/)]: the leftmost position where the regexp matches. *)
Fixpoint matchDigitsUnit (u : ascii) (s : string) : option string :=
  match matchDigitsUnitHere u s with
  | Some ds => Some ds
  | None =>
      match s with
      | EmptyString => None
      | String _ s' => matchDigitsUnit u s'
      end
  end.

(** [s.match(/^\s*([A-Z]{4})/)], capture group 1. *)
Definition matchIcao (s : string) : option string :=
  match trimStart s with
  | String a (String b (String c (String d _))) =>
      if isUpper a && isUpper b && isUpper c && isUpper d
      then Some (String a (String b (String c (String d EmptyString))))
      else None
  | _ => None
  end.

(** [new RegExp('(p1|p2|...)', 'i').test(s)] for literal alternatives. *)
Definition testAnyIgnoreCase (alternatives : list string) (s : string) : bool :=
  existsb (fun p => includes (toUpperCase s) (toUpperCase p)) alternatives.

(** [Array.prototype.indexOf] on strings, [-1] when absent. *)
Fixpoint indexOfFrom (i : Z) (xs : list string) (x : string) : Z :=
  match xs with
  | [] => (-1)%Z
  | y :: ys => if String.eqb y x then i else indexOfFrom (i + 1)%Z ys x
  end.

Definition indexOf (xs : list string) (x : string) : Z := indexOfFrom 0 xs x.

(** [Array.prototype.includes] on strings. *)
Definition arrayIncludes (xs : list string) (x : string) : bool :=
  existsb (fun y => String.eqb y x) xs.

(** [Math.floor] *)
Definition floor (q : Q) : Z := Qfloor q.

(** [Math.ceil] *)
Definition ceil (q : Q) : Z := Qceiling q.

(** [q.toFixed(2)] read back by [parseFloat]: the nearest multiple of
    one hundredth (halves go up). *)
Definition toFixed2 (q : Q) : Q := inject_Z (Qfloor (q * 100 + (1 # 2))) / 100.

End Js.

(** ** Data model (the Mongoose schemas) *)

(** [ObjectId] *)
Definition Id : Type := positive.

Inductive DutyStatus : Type := ON_REST | ON_DUTY.

Inductive PirepStatus : Type := PENDING | APPROVED | REJECTED.

#[global] Instance DutyStatus_eq_dec : EqDecision DutyStatus.
Proof. solve_decision. Defined.

#[global] Instance PirepStatus_eq_dec : EqDecision PirepStatus.
Proof. solve_decision. Defined.

Module Leg.
(** A leg as the sheet reader builds it and as a roster embeds it.
    [rankUnlock] and [operator] are absent ([None]) on legs read back from
    a roster document whose schema does not declare them. *)
Record t : Type := mk {
  flightNumber : string;
  departure : string;
  arrival : string;
  aircraft : string;
  flightTime : Q;
  rankUnlock : option string;
  operator : option string
}.
End Leg.

Module Roster.
Record t : Type := mk {
  name : string;
  hub : string;
  legs : list Leg.t;
  totalFlightTime : Q;
  multiplier : Q;
  isAvailable : bool;
  isGenerated : bool;
  createdBy : option Id
}.
End Roster.

Module User.
Record t : Type := mk {
  name : string;
  callsign : option string;
  rank : string;
  flightHours : Q;
  dutyStatus : DutyStatus;
  currentRoster : option Id;
  lastDutyStart : option Z;
  lastDutyOff : option Z;
  dailyFlightHours : Q;
  monthlyFlightHours : Q;
  lastHourReset : Z;
  lastKnownAirport : string;
  lastDutyAirport : option string
}.
End User.

Module Pirep.
(** [rosterLeg] is [Some (rosterId, flightNumber)] for a report filed
    against a roster leg. *)
Record t : Type := mk {
  pilot : Id;
  flightNumber : string;
  departure : string;
  arrival : string;
  aircraft : string;
  flightTime : Q;
  remarks : option string;
  status : PirepStatus;
  reviewedBy : option Id;
  rejectionReason : option string;
  reviewedAt : option Z;
  verificationImageUrl : option string;
  isMultiplierEligible : bool;
  rosterLeg : option (Id * string)
}.
End Pirep.

(** The three collections the duty core reads and writes. *)
Record Store : Type := mkStore {
  users : gmap Id User.t;
  rosters : gmap Id Roster.t;
  pireps : gmap Id Pirep.t
}.

(** What a handler answers: the HTTP status and the payload that matters. *)
Inductive Response : Type :=
| ServerError                                     (* 500 *)
| RosterNotFound                                  (* 404 *)
| AlreadyOnDuty                                   (* 400 *)
| CrewRestRequired (minutes : Z)                  (* 403 *)
| MonthlyLimitExceeded                            (* 403 *)
| DailyLimitExceeded                              (* 403 *)
| RosterAboveRank (leg : Leg.t) (required : string) (* 403 *)
| DutyStarted (roster : Roster.t)                 (* 200 *)
| NotOnDuty                                       (* 400 *)
| NoRosterAssigned                                (* 400 *)
| LegsIncomplete (filed total : nat)              (* 400 *)
| DutyCompleted                                   (* 200 *)
| ImageRequired                                   (* 400 *)
| DetailsMissing                                  (* 400 *)
| PilotNotFound                                   (* 404 *)
| OnDutyWithoutRoster                             (* 400 *)
| NoMatchingLeg                                   (* 400 *)
| LegAboveRank (required : string)                (* 403 *)
| AlreadyFiled                                    (* 400 *)
| AircraftAboveRank (required : string)           (* 403 *)
| PirepSubmitted (pirepId : Id)                   (* 201 *)
| PirepNotFound                                   (* 404 *)
| AlreadyReviewed (was : PirepStatus)             (* 400 *)
| PilotProfileNotFound                            (* 404 *)
| PirepApproved (awarded : Q) (multiplierApplied : Q) (promotion : option string) (* 200 *)
| ReasonRequired                                  (* 400 *)
| PirepRejected.                                  (* 200 *)

Definition httpStatus (r : Response) : Z :=
  match r with
  | ServerError => 500
  | RosterNotFound | PilotNotFound | PirepNotFound | PilotProfileNotFound => 404
  | CrewRestRequired _ | MonthlyLimitExceeded | DailyLimitExceeded
  | RosterAboveRank _ _ | LegAboveRank _ | AircraftAboveRank _ => 403
  | DutyStarted _ | DutyCompleted | PirepApproved _ _ _ | PirepRejected => 200
  | PirepSubmitted _ => 201
  | _ => 400
  end.

(** A request is accepted when the answer is a 2xx. *)
Definition accepted (r : Response) : bool := (httpStatus r <? 300)%Z.

(** ** Rank engine *)

Module RankEngine.
Section WithTiers.

(** The tier list, lowest first, and the hours each tier asks for. *)
Variable pilotRanks : list string.
Variable rankThresholds : list (string * Q).

(** [rankThresholds[rankName]], [None] for [undefined]. *)
Fixpoint threshold (table : list (string * Q)) (rankName : string) : option Q :=
  match table with
  | [] => None
  | (r, h) :: rest => if String.eqb r rankName then Some h else threshold rest rankName
  end.

(** [currentHours >= rankThresholds[rankName]]; false against [undefined]. *)
Definition reaches (currentHours : Q) (rankName : string) : bool :=
  match threshold rankThresholds rankName with
  | Some h => Js.geb currentHours h
  | None => false
  end.

(** The loop [for (i = pilotRanks.length - 1; i >= 0; i--)] over the tiers
    from the highest down, leaving [newRank] as it was when no tier is
    reached. *)
Fixpoint scanFromTop (highestFirst : list string) (currentHours : Q) (newRank : string) : string :=
  match highestFirst with
  | [] => newRank
  | rankName :: lower =>
      if reaches currentHours rankName then rankName
      else scanFromTop lower currentHours newRank
  end.

Definition setRank (pilot : User.t) (r : string) : User.t :=
  User.mk (User.name pilot) (User.callsign pilot) r (User.flightHours pilot)
    (User.dutyStatus pilot) (User.currentRoster pilot) (User.lastDutyStart pilot)
    (User.lastDutyOff pilot) (User.dailyFlightHours pilot)
    (User.monthlyFlightHours pilot) (User.lastHourReset pilot)
    (User.lastKnownAirport pilot) (User.lastDutyAirport pilot).

(** The promotion helper: the pilot after the call, and [Some rank] for
    [{ promoted: true, rank }], [None] for [{ promoted: false }]. *)
Definition checkAndApplyRankUpdate (pilot : User.t) : User.t * option string :=
  let currentHours := User.flightHours pilot in
  let currentRank := User.rank pilot in
  let newRank := scanFromTop (rev pilotRanks) currentHours currentRank in
  if negb (String.eqb newRank currentRank)
  then (setRank pilot newRank, Some newRank)
  else (pilot, None).

End WithTiers.
End RankEngine.

(** ** FTPL constants (identical in both revisions) *)

Definition MIN_REST_PERIOD : Z := 8 * 60 * 60 * 1000.
Definition MAX_DUTY_PERIOD : Z := 14 * 60 * 60 * 1000.
Definition MAX_DAILY_FLIGHT_HOURS : Q := 10.
Definition MAX_MONTHLY_FLIGHT_HOURS : Q := 100.

(** ** Sheet ingestion *)

(** One configured sheet URL after the fetch: [rows] is [None] when
    [axios.get] or the CSV parser threw, otherwise the parsed grid. *)
Record Sheet : Type := mkSheet {
  isCodeshare : bool;
  rows : option (list (list string))
}.

Inductive Column : Type :=
| ColFlightNumber | ColDeparture | ColArrival | ColAircraft | ColFlightTime
| ColRankUnlock | ColOperator.

#[global] Instance Column_eq_dec : EqDecision Column.
Proof. solve_decision. Defined.

(** [columnMap]: a JavaScript object from canonical key to column index,
    kept in insertion order. *)
Definition ColumnMap : Type := list (Column * nat).

Fixpoint setColumn (m : ColumnMap) (k : Column) (i : nat) : ColumnMap :=
  match m with
  | [] => [(k, i)]
  | (k', j) :: rest =>
      if decide (k' = k) then (k, i) :: rest else (k', j) :: setColumn rest k i
  end.

Fixpoint column (m : ColumnMap) (k : Column) : option nat :=
  match m with
  | [] => None
  | (k', j) :: rest => if decide (k' = k) then Some j else column rest k
  end.

(** [row[columnMap.key]], [None] for [undefined]. *)
Definition cell (row : list string) (m : ColumnMap) (k : Column) : option string :=
  match column m k with
  | Some i => row !! i
  | None => None
  end.

(** Truthiness of a possibly undefined string. *)
Definition truthy (s : option string) : bool :=
  match s with
  | Some s' => negb (String.eqb s' "")
  | None => false
  end.

(** [extractIcao] (identical in both revisions) *)
Definition extractIcao (text : option string) : option string :=
  match text with
  | None => None
  | Some t => if String.eqb t "" then None else Js.matchIcao t
  end.

(** ** Roster synthesizer: what both revisions share *)

(** [Math.random] as an oracle: [stream g n] is what the [n]-th call returns. *)
Record Random : Type := mkRandom {
  calls : nat;
  stream : nat -> Q
}.

(** Code that draws random numbers and may throw ([None]). *)
Definition Gen (A : Type) : Type := Random -> option (A * Random).

#[global] Instance Gen_ret : MRet Gen := fun A x g => Some (x, g).

#[global] Instance Gen_bind : MBind Gen := fun A B f m g =>
  match m g with
  | Some (a, g') => f a g'
  | None => None
  end.

Definition Math_random : Gen Q :=
  fun g => Some (stream g (calls g), mkRandom (S (calls g)) (stream g)).

(** A [TypeError] raised while building rosters. *)
Definition throw {A : Type} : Gen A := fun _ => None.

(** [legsByDeparture]: an object keyed by departure code.  The codes are
    four capital letters, so [Object.keys] lists them in insertion order. *)
Definition LegsByDeparture : Type := list (string * list Leg.t).

(** One step of the [reduce] that groups the legs. *)
Fixpoint pushLeg (acc : LegsByDeparture) (leg : Leg.t) : LegsByDeparture :=
  match acc with
  | [] => [(Leg.departure leg, [leg])]
  | (airport, ls) :: rest =>
      if String.eqb airport (Leg.departure leg) then (airport, ls ++ [leg]) :: rest
      else (airport, ls) :: pushLeg rest leg
  end.

Definition groupByDeparture (allLegs : list Leg.t) : LegsByDeparture :=
  fold_left pushLeg allLegs [].

(** [legsByDeparture[airport] || []] *)
Fixpoint legsFrom (legsByDeparture : LegsByDeparture) (airport : string) : list Leg.t :=
  match legsByDeparture with
  | [] => []
  | (a, ls) :: rest => if String.eqb a airport then ls else legsFrom rest airport
  end.

(** The variables of one roster under construction. *)
Record Draft : Type := mkDraft {
  rosterLegs : list Leg.t;
  currentAirport : string;
  totalTime : Q;
  usedFlightNumbers : gset string
}.

(** The loop [for (let j = 0; j < legCount; j++)], with [remaining]
    iterations to go; both [break]s leave the draft as it stands. *)
Fixpoint pickLegs (legsByDeparture : LegsByDeparture) (remaining : nat) (d : Draft) : Gen Draft :=
  match remaining with
  | O => mret d
  | S remaining' =>
      let possibleNextLegs :=
        filter (fun l => Leg.flightNumber l ∉ usedFlightNumbers d)
               (legsFrom legsByDeparture (currentAirport d)) in
      if (length possibleNextLegs =? 0)%nat then mret d else
      r ← Math_random;
      let k := Js.floor (r * inject_Z (Z.of_nat (length possibleNextLegs))) in
      match (if (k <? 0)%Z then None else possibleNextLegs !! Z.to_nat k) with
      | None => throw
      | Some nextLeg =>
          if Js.gtb (totalTime d + Leg.flightTime nextLeg) MAX_DAILY_FLIGHT_HOURS
          then mret d
          else pickLegs legsByDeparture remaining'
                 (mkDraft (rosterLegs d ++ [nextLeg])
                          (Leg.arrival nextLeg)
                          (totalTime d + Leg.flightTime nextLeg)
                          ({[Leg.flightNumber nextLeg]} ∪ usedFlightNumbers d))
      end
  end.

(** One pass of the per-airport loop body up to the test on the number of
    legs: draw [legCount] in 2..4, then pick legs. *)
Definition buildDraft (legsByDeparture : LegsByDeparture) (departureAirport : string) : Gen Draft :=
  r ← Math_random;
  let legCount := (Js.floor (r * 3) + 2)%Z in
  pickLegs legsByDeparture (Z.to_nat legCount) (mkDraft [] departureAirport 0 ∅).

(** [Roster.deleteMany({ isGenerated: true })] *)
Definition deleteGenerated (m : gmap Id Roster.t) : gmap Id Roster.t :=
  filter (fun kv => Roster.isGenerated kv.2 = false) m.

(** What [RosterSchema] makes of a leg: [trim] on the four strings,
    [uppercase] on the two airport codes, and no [rankUnlock] or
    [operator], which the schema does not declare. *)
Definition castLeg (l : Leg.t) : Leg.t :=
  Leg.mk (Js.trim (Leg.flightNumber l))
         (Js.toUpperCase (Js.trim (Leg.departure l)))
         (Js.toUpperCase (Js.trim (Leg.arrival l)))
         (Js.trim (Leg.aircraft l))
         (Leg.flightTime l) None None.

(** What [RosterSchema] makes of a roster. *)
Definition castRoster (r : Roster.t) : Roster.t :=
  Roster.mk (Js.trim (Roster.name r)) (Js.toUpperCase (Js.trim (Roster.hub r)))
            (map castLeg (Roster.legs r)) (Roster.totalFlightTime r)
            (Roster.multiplier r) (Roster.isAvailable r) (Roster.isGenerated r)
            (Roster.createdBy r).

(** The validators of a leg: the four strings [required], the flight time
    [min: 0.1]. *)
Definition validLeg (l : Leg.t) : bool :=
  negb (String.eqb (Leg.flightNumber l) "") && negb (String.eqb (Leg.departure l) "")
  && negb (String.eqb (Leg.arrival l) "") && negb (String.eqb (Leg.aircraft l) "")
  && Qle_bool 0.1 (Leg.flightTime l).

(** The validators of [RosterSchema], on the document after casting:
    [name] and [hub] required, every leg valid, [totalFlightTime] with
    [min: 0], [multiplier] with [min: 1] and [max: 2] (server.js declares
    no multiplier; the embedding leaves the field at 1 there). *)
Definition validRoster (r : Roster.t) : bool :=
  negb (String.eqb (Roster.name r) "") && negb (String.eqb (Roster.hub r) "")
  && forallb validLeg (Roster.legs r)
  && Qle_bool 0 (Roster.totalFlightTime r)
  && Qle_bool 1 (Roster.multiplier r) && Qle_bool (Roster.multiplier r) 2.

(** Saving one new document under a fresh [_id]. *)
Definition insertOne (m : gmap Id Roster.t) (r : Roster.t) : gmap Id Roster.t :=
  <[fresh (dom m) := r]> m.

(** The writes of an [insertMany] whose documents all passed validation. *)
Definition insertAll (docs : list Roster.t) (m : gmap Id Roster.t) : gmap Id Roster.t :=
  fold_left insertOne docs m.

(** [Roster.insertMany(docs)]: every document is cast and validated before
    anything is sent to the database; one invalid document makes the call
    throw ([None]) with nothing written. *)
Definition insertMany (docs : list Roster.t) (m : gmap Id Roster.t)
  : option (gmap Id Roster.t) :=
  let cast := map castRoster docs in
  if forallb validRoster cast then Some (insertAll cast m) else None.

(** How a generation run ends: it returns [{ created, legsFound }] or throws. *)
Inductive GenerationOutcome : Type :=
| GenerationDone (created legsFound : nat)
| GenerationThrew.

(** The tail of the generator:
    [if (generatedRosters.length > 0) { deleteMany; insertMany }] and the
    return.  When [insertMany] throws, [deleteMany] has already run. *)
Definition saveGenerated (generatedRosters : list Roster.t) (legsFound : nat) (st : Store)
  : GenerationOutcome * Store :=
  if (0 <? length generatedRosters)%nat then
    let deleted := deleteGenerated (rosters st) in
    match insertMany generatedRosters deleted with
    | Some saved =>
        (GenerationDone (length generatedRosters) legsFound,
         mkStore (users st) saved (pireps st))
    | None => (GenerationThrew, mkStore (users st) deleted (pireps st))
    end
  else (GenerationDone (length generatedRosters) legsFound, st).

(** ** Duty lifecycle: what both revisions share *)

Definition putUser (st : Store) (id : Id) (u : User.t) : Store :=
  mkStore (<[id := u]> (users st)) (rosters st) (pireps st).

Definition putPirep (st : Store) (id : Id) (p : Pirep.t) : Store :=
  mkStore (users st) (rosters st) (<[id := p]> (pireps st)).

(** The crew-rest test of start-duty; [Some] is the denial. *)
Definition restDenial (user : User.t) (now : Z) : option Response :=
  match User.lastDutyOff user with
  | Some lastDutyOff =>
      if (now - lastDutyOff <? MIN_REST_PERIOD)%Z
      then let timeToRest :=
             Js.ceil (inject_Z (MIN_REST_PERIOD - (now - lastDutyOff)) / inject_Z (60 * 1000)) in
           Some (CrewRestRequired timeToRest)
      else None
  | None => None
  end.

(** The monthly reset of start-duty.  [oneMonthAgo] is the clock reading
    moved back one calendar month. *)
Definition monthlyReset (user : User.t) (now oneMonthAgo : Z) : User.t :=
  if (User.lastHourReset user <? oneMonthAgo)%Z
  then User.mk (User.name user) (User.callsign user) (User.rank user)
         (User.flightHours user) (User.dutyStatus user) (User.currentRoster user)
         (User.lastDutyStart user) (User.lastDutyOff user) (User.dailyFlightHours user)
         0 now (User.lastKnownAirport user) (User.lastDutyAirport user)
  else user.

(** The two quota tests of start-duty, on the user after the reset. *)
Definition quotaDenial (user : User.t) (roster : Roster.t) : option Response :=
  if Js.gtb (User.monthlyFlightHours user + Roster.totalFlightTime roster)
            MAX_MONTHLY_FLIGHT_HOURS
  then Some MonthlyLimitExceeded
  else if Js.gtb (User.dailyFlightHours user + Roster.totalFlightTime roster)
                 MAX_DAILY_FLIGHT_HOURS
  then Some DailyLimitExceeded
  else None.

(** The assignments that put the user on duty. *)
Definition goOnDuty (user : User.t) (rosterId : Id) (now : Z) : User.t :=
  User.mk (User.name user) (User.callsign user) (User.rank user)
    (User.flightHours user) ON_DUTY (Some rosterId) (Some now)
    (User.lastDutyOff user) (User.dailyFlightHours user)
    (User.monthlyFlightHours user) (User.lastHourReset user)
    (User.lastKnownAirport user) (User.lastDutyAirport user).

(** The filter of the end-duty count: this pilot's reports on this roster
    that are approved or pending. *)
Definition countsTowards (userId rosterId : Id) (p : Pirep.t) : bool :=
  bool_decide (Pirep.pilot p = userId)
  && bool_decide (fst <$> Pirep.rosterLeg p = Some rosterId)
  && (bool_decide (Pirep.status p = APPROVED) || bool_decide (Pirep.status p = PENDING)).

Definition filedPireps (st : Store) (userId rosterId : Id) : nat :=
  size (filter (fun kv => countsTowards userId rosterId kv.2 = true) (pireps st)).

(** The assignments that end the duty. *)
Definition goOffDuty (user : User.t) (roster : Roster.t) (now : Z) : User.t :=
  User.mk (User.name user) (User.callsign user) (User.rank user)
    (User.flightHours user) ON_REST None None (Some now) 0
    (User.monthlyFlightHours user) (User.lastHourReset user)
    (User.lastKnownAirport user)
    (match last (Roster.legs roster) with
     | Some finalLeg => Some (Leg.arrival finalLeg)
     | None => User.lastDutyAirport user
     end).

(** [POST /api/duty/end] (the same text in both revisions).  [populate]
    leaves [currentRoster] null when the roster document is gone. *)
Definition endDuty (userId : Id) (now : Z) (st : Store) : Response * Store :=
  match users st !! userId with
  | None => (ServerError, st)
  | Some user =>
      if bool_decide (User.dutyStatus user ≠ ON_DUTY) then (NotOnDuty, st) else
      match User.currentRoster user with
      | None => (NoRosterAssigned, st)
      | Some rosterId =>
          match rosters st !! rosterId with
          | None => (NoRosterAssigned, st)
          | Some roster =>
              let filed := filedPireps st userId rosterId in
              if (filed <? length (Roster.legs roster))%nat
              then (LegsIncomplete filed (length (Roster.legs roster)), st)
              else (DutyCompleted, putUser st userId (goOffDuty user roster now))
          end
      end
  end.

(** The leg of the roster a filed flight names, compared without regard
    to case. *)
Definition matchesLeg (flightNumber departure arrival : string) (l : Leg.t) : bool :=
  String.eqb (Js.toUpperCase (Leg.flightNumber l)) (Js.toUpperCase flightNumber)
  && String.eqb (Js.toUpperCase (Leg.departure l)) (Js.toUpperCase departure)
  && String.eqb (Js.toUpperCase (Leg.arrival l)) (Js.toUpperCase arrival).

(** The query of the duplicate-leg guard:
    [{ pilot, 'rosterLeg.rosterId': roster._id, 'rosterLeg.flightNumber': flightNumber }]. *)
Definition isExistingPirep (userId rosterId : Id) (flightNumber : string) (p : Pirep.t) : bool :=
  bool_decide (Pirep.pilot p = userId)
  && match Pirep.rosterLeg p with
     | Some (rid, fn) => bool_decide (rid = rosterId) && String.eqb fn flightNumber
     | None => false
     end.

(** [Pirep.findOne(query)] as far as the guard uses it: is there a match. *)
Definition existingPirep (st : Store) (userId rosterId : Id) (flightNumber : string) : bool :=
  bool_decide (map_Exists (fun _ p => isExistingPirep userId rosterId flightNumber p = true)
                          (pireps st)).

(** The body of a flight report as the client sends it; [req_flightTime] is
    the number [parseFloat] reads from the field, 0 for a field left out,
    and [req_file] the location of the uploaded image. *)
Record PirepRequest : Type := mkPirepRequest {
  req_flightNumber : string;
  req_departure : string;
  req_arrival : string;
  req_aircraft : string;
  req_flightTime : Q;
  req_remarks : option string;
  req_file : option string
}.

(** [!flightNumber || !departure || !arrival || !aircraft || !flightTime] *)
Definition detailsMissing (req : PirepRequest) : bool :=
  String.eqb (req_flightNumber req) "" || String.eqb (req_departure req) ""
  || String.eqb (req_arrival req) "" || String.eqb (req_aircraft req) ""
  || Qeq_bool (req_flightTime req) 0.

(** What [PirepSchema] makes of a report: [uppercase] and [trim] on the two
    airport codes, [trim] on the remarks. *)
Definition castPirep (p : Pirep.t) : Pirep.t :=
  Pirep.mk (Pirep.pilot p) (Pirep.flightNumber p)
    (Js.toUpperCase (Js.trim (Pirep.departure p)))
    (Js.toUpperCase (Js.trim (Pirep.arrival p)))
    (Pirep.aircraft p) (Pirep.flightTime p) (Js.trim <$> Pirep.remarks p)
    (Pirep.status p) (Pirep.reviewedBy p) (Pirep.rejectionReason p) (Pirep.reviewedAt p)
    (Pirep.verificationImageUrl p) (Pirep.isMultiplierEligible p) (Pirep.rosterLeg p).

(** The validators both revisions of [PirepSchema] share, on the document
    after casting: the four strings [required], [flightTime] with
    [min: 0.1]. *)
Definition validPirep (p : Pirep.t) : bool :=
  negb (String.eqb (Pirep.flightNumber p) "") && negb (String.eqb (Pirep.departure p) "")
  && negb (String.eqb (Pirep.arrival p) "") && negb (String.eqb (Pirep.aircraft p) "")
  && Qle_bool 0.1 (Pirep.flightTime p).

(** [new Pirep(newPirepData).save()] and the answer that follows.
    [requiredMeta] tells whether the fields a revision's schema requires
    beyond the shared ones are there; when validation fails [save] throws
    and the handler's [catch] answers 500. *)
Definition savePirep (st : Store) (newPirepData : Pirep.t) (requiredMeta : bool)
  : Response * Store :=
  let newPirep := castPirep newPirepData in
  if validPirep newPirep && requiredMeta then
    let newId := fresh (dom (pireps st)) in
    (PirepSubmitted newId, putPirep st newId newPirep)
  else (ServerError, st).

(** ** The tuned revision (src/unnamed/part_001): ranks and ingestion *)

Module Tuned.

Definition pilotRanks : list string :=
  [ "IndGo Cadet"; "Skyline Observer"; "Route Explorer"; "Skyline Officer";
    "Command Captain"; "Elite Captain"; "Blue Eagle"; "Line Instructor";
    "Chief Flight Instructor"; "IndGo SkyMaster"; "Blue Legacy Commander" ].

Definition rankThresholds : list (string * Q) :=
  [ ("IndGo Cadet", 0); ("Skyline Observer", 50); ("Route Explorer", 100);
    ("Skyline Officer", 180); ("Command Captain", 300); ("Elite Captain", 500);
    ("Blue Eagle", 750); ("Line Instructor", 1000);
    ("Chief Flight Instructor", 1400); ("IndGo SkyMaster", 1800);
    ("Blue Legacy Commander", 2300) ].

(** [rankIndex]: the place of [String(r || '').trim()] in [pilotRanks]. *)
Definition rankIndex (r : string) : Z :=
  let i := Js.indexOf pilotRanks (Js.trim r) in
  if (i >=? 0)%Z then i else (-1)%Z.

Definition canFlyLeg (userRank legRank : string) : bool :=
  let ui := rankIndex userRank in
  let li := rankIndex legRank in
  (ui >=? 0)%Z && (li >=? 0)%Z && (li <=? ui)%Z.

(** The alternatives of the aircraft-to-rank regexps, in the order the
    code tests them. *)
Definition aircraftPatterns : list (list string) :=
  [ ["Q400"; "A320"; "B738"]; ["A321"; "B737"]; ["A330"; "B38M"];
    ["787-8"; "777-200LR"]; ["787-9"; "777-300ER"]; ["A350"];
    ["A380"; "747"; "744"]; ["INSTRUCTOR"]; ["CHIEF"]; ["SKYMASTER"];
    ["COMMANDER"] ].

Definition deduceRankFromAircraft (acStr : option string) : string :=
  let s := Js.toUpperCase (default "" acStr) in
  if String.eqb s "" then "Unknown" else
  let has := fun pat => Js.testAnyIgnoreCase pat s in
  if has ["Q400"; "A320"; "B738"] then "IndGo Cadet" else
  if has ["A321"; "B737"] then "Skyline Observer" else
  if has ["A330"; "B38M"] then "Route Explorer" else
  if has ["787-8"; "777-200LR"] then "Skyline Officer" else
  if has ["787-9"; "777-300ER"] then "Command Captain" else
  if has ["A350"] then "Elite Captain" else
  if has ["A380"; "747"; "744"] then "Blue Eagle" else
  if has ["INSTRUCTOR"] then "Line Instructor" else
  if has ["CHIEF"] then "Chief Flight Instructor" else
  if has ["SKYMASTER"] then "IndGo SkyMaster" else
  if has ["COMMANDER"] then "Blue Legacy Commander" else
  "Unknown".

Definition getLegRequiredRank (leg : Leg.t) : string :=
  match Leg.rankUnlock leg with
  | Some r =>
      if negb (String.eqb r "") && Js.arrayIncludes pilotRanks r then r
      else deduceRankFromAircraft (Some (Leg.aircraft leg))
  | None => deduceRankFromAircraft (Some (Leg.aircraft leg))
  end.

Definition checkAndApplyRankUpdate : User.t -> User.t * option string :=
  RankEngine.checkAndApplyRankUpdate pilotRanks rankThresholds.

(** The colon branch of [convertTimeToDecimal]: [Some] when it returns. *)
Definition colonFormat (trimmedStr : string) : option Q :=
  if Js.includes trimmedStr ":" then
    let parts := Js.split ":" trimmedStr in
    if (length parts =? 2)%nat || (length parts =? 3)%nat then
      match Js.parseInt (nth 0 parts ""), Js.parseInt (nth 1 parts "") with
      | Some hours, Some minutes => Some (inject_Z hours + inject_Z minutes / 60)
      | _, _ => None
      end
    else None
  else None.

(** [convertTimeToDecimal].  A capture group of the two regexps is a run
    of digits, so [parseInt] of it is never [NaN]. *)
Definition convertTimeToDecimal (timeStr : option string) : Js.number :=
  if negb (truthy timeStr) then Js.NaN else
  let trimmedStr := Js.trim (default "" timeStr) in
  match colonFormat trimmedStr with
  | Some t => Js.Finite t
  | None =>
      let hourMatch := Js.matchDigitsUnit "h" trimmedStr in
      let minMatch := Js.matchDigitsUnit "m" trimmedStr in
      match hourMatch, minMatch with
      | None, None => Js.NaN
      | _, _ =>
          let totalHours := 0 in
          let totalHours :=
            match hourMatch with
            | Some h => totalHours + inject_Z (default 0%Z (Js.parseInt h))
            | None => totalHours
            end in
          let totalHours :=
            match minMatch with
            | Some m => totalHours + inject_Z (default 0%Z (Js.parseInt m)) / 60
            | None => totalHours
            end in
          Js.Finite totalHours
      end
  end.

Definition headerAliasesBase : list (Column * list string) :=
  [ (ColFlightNumber, ["Flight No."; "Flight Number"; "Callsign"]);
    (ColDeparture, ["Departure ICAO"; "Departure"; "Origin"; "From"]);
    (ColArrival, ["Arrival ICAO"; "Arrival"; "Destination"; "To"]);
    (ColAircraft, ["Aircraft(s)"; "Aircraft"; "Plane"]);
    (ColFlightTime, ["Avg. Flight Time"; "Flight Time"; "Duration"]) ].

Definition headerAliasesCodeshare : list (Column * list string) :=
  headerAliasesBase ++
  [ (ColRankUnlock, ["Rank Unlock"; "Rank"; "Rank Required"; "Unlock Rank"]);
    (ColOperator, ["Operator"; "Airline"; "Carrier"; "Virtual Airline"]) ].

(** The inner [for (const key of canonicalKeys)] with its [break]: the
    first canonical key one of whose aliases is the header cell. *)
Fixpoint keyOfHeader (headerAliases : list (Column * list string)) (trimmedHeader : string)
  : option Column :=
  match headerAliases with
  | [] => None
  | (key, aliases) :: rest =>
      if existsb (fun a => String.eqb (Js.toLowerCase a) trimmedHeader) aliases
      then Some key
      else keyOfHeader rest trimmedHeader
  end.

(** [row.forEach((headerCell, index) => ...)] filling [tempMap]. *)
Fixpoint mapHeaderCells (headerAliases : list (Column * list string))
    (cells : list string) (index : nat) (tempMap : ColumnMap) : ColumnMap :=
  match cells with
  | [] => tempMap
  | headerCell :: more =>
      let trimmedHeader := Js.toLowerCase (Js.trim headerCell) in
      let tempMap' :=
        if String.eqb trimmedHeader "" then tempMap
        else match keyOfHeader headerAliases trimmedHeader with
             | Some key => setColumn tempMap key index
             | None => tempMap
             end in
      mapHeaderCells headerAliases more (S index) tempMap'
  end.

(** The scan for the header row: its index and its column map. *)
Fixpoint findHeaderRow (headerAliases : list (Column * list string))
    (allRows : list (list string)) (i : nat) : option (nat * ColumnMap) :=
  match allRows with
  | [] => None
  | row :: later =>
      let tempMap := mapHeaderCells headerAliases row 0 [] in
      if (length tempMap =? length headerAliases)%nat then Some (i, tempMap)
      else findHeaderRow headerAliases later (S i)
  end.

(** The body of [dataRows.map(row => ...)]: the leg, or [None] for [null].
    The test [!isNaN(flightTime) && flightTime > 0] is the match on
    [Js.Finite ft] together with [ft > 0]. *)
Definition legOfRow (codeshare : bool) (columnMap : ColumnMap) (row : list string)
  : option Leg.t :=
  let departureIcao := extractIcao (cell row columnMap ColDeparture) in
  let arrivalIcao := extractIcao (cell row columnMap ColArrival) in
  let flightTime := convertTimeToDecimal (cell row columnMap ColFlightTime) in
  let flightNumber := Js.trim <$> cell row columnMap ColFlightNumber in
  let aircraft := Js.trim <$> cell row columnMap ColAircraft in
  let fromColumn k := Some (Js.trim (default "" (cell row columnMap k))) in
  let rankUnlock :=
    if codeshare then Js.trim <$> cell row columnMap ColRankUnlock
    else match column columnMap ColRankUnlock with
         | Some _ => fromColumn ColRankUnlock
         | None => Some (deduceRankFromAircraft aircraft)
         end in
  let operator :=
    if codeshare then Js.trim <$> cell row columnMap ColOperator
    else match column columnMap ColOperator with
         | Some _ => fromColumn ColOperator
         | None => Some "IndGo Air Virtual"
         end in
  if codeshare && negb (truthy rankUnlock && truthy operator) then None else
  match departureIcao, arrivalIcao, flightTime with
  | Some dep, Some arr, Js.Finite ft =>
      if truthy flightNumber && truthy aircraft && Js.gtb ft 0
         && truthy rankUnlock && truthy operator
      then Some (Leg.mk (default "" flightNumber) dep arr (default "" aircraft) ft
                        rankUnlock operator)
      else None
  | _, _, _ => None
  end.

(** What one sheet contributes to [allLegs]; nothing when the fetch threw,
    the grid is empty or no header row is found. *)
Definition legsFromSheet (sheet : Sheet) : list Leg.t :=
  let headerAliases := if isCodeshare sheet then headerAliasesCodeshare else headerAliasesBase in
  match rows sheet with
  | None => []
  | Some allRows =>
      match findHeaderRow headerAliases allRows 0 with
      | None => []
      | Some (headerRowIndex, columnMap) =>
          let dataRows := drop (S headerRowIndex) allRows in
          omap (legOfRow (isCodeshare sheet) columnMap) dataRows
      end
  end.

(** [allLegs] after the loop over the configured URLs. *)
Definition ingest (sheets : list Sheet) : list Leg.t :=
  concat (map legsFromSheet sheets).

(** *** Roster generation *)

Definition rosterCountPerAirport : nat := 3.

(** One pass of [for (let i = 0; i < rosterCountPerAirport; i++)]: the
    roster pushed to [generatedRosters], if any. *)
Definition rosterAttempt (legsByDeparture : LegsByDeparture) (departureAirport : string)
    (i : nat) : Gen (option Roster.t) :=
  d ← buildDraft legsByDeparture departureAirport;
  if (2 <=? length (rosterLegs d))%nat then
    r ← Math_random;
    let randomMultiplier := Js.toFixed2 (1.1 + r * 0.4) in
    mret (Some (Roster.mk
                  (String.append departureAirport
                     (String.append " Sector Duty #" (pretty (i + 1)%nat)))
                  departureAirport (rosterLegs d) (totalTime d) randomMultiplier
                  true true None))
  else mret None.

Fixpoint attempts (legsByDeparture : LegsByDeparture) (departureAirport : string)
    (i count : nat) : Gen (list Roster.t) :=
  match count with
  | O => mret []
  | S count' =>
      r ← rosterAttempt legsByDeparture departureAirport i;
      rest ← attempts legsByDeparture departureAirport (S i) count';
      mret (match r with Some x => x :: rest | None => rest end)
  end.

(** [for (const departureAirport of allDepartureAirports)] *)
Fixpoint forAirports (legsByDeparture : LegsByDeparture) (airports : list string)
  : Gen (list Roster.t) :=
  match airports with
  | [] => mret []
  | departureAirport :: more =>
      here ← attempts legsByDeparture departureAirport 0 rosterCountPerAirport;
      rest ← forAirports legsByDeparture more;
      mret (here ++ rest)
  end.

(** [generatedRosters] for a leg pool. *)
Definition buildRosters (allLegs : list Leg.t) : Gen (list Roster.t) :=
  let legsByDeparture := groupByDeparture allLegs in
  forAirports legsByDeparture (map fst legsByDeparture).

(** [generateRostersFromGoogleSheet], from the fetched sheets on. *)
Definition generateRostersFromGoogleSheet (sheets : list Sheet) (g : Random) (st : Store)
  : GenerationOutcome * Store :=
  if (length sheets =? 0)%nat then (GenerationDone 0 0, st) else
  let allLegs := ingest sheets in
  if (length allLegs =? 0)%nat then (GenerationDone 0 (length allLegs), st) else
  match buildRosters allLegs g with
  | None => (GenerationThrew, st)
  | Some (generatedRosters, _) => saveGenerated generatedRosters (length allLegs) st
  end.

(** *** PIREP workflow *)

(** The two fields [PirepSchema] of this revision requires beyond the
    shared ones, [rankUnlock] and [operator] (both with [trim]). *)
Definition requiredMeta (rankUnlock operator : option string) : bool :=
  truthy (Js.trim <$> rankUnlock) && truthy (Js.trim <$> operator).

(** [POST /api/pireps].  Only the off-roster branch sets [rankUnlock] and
    [operator]; on duty [newPirepData] has neither, so [save] throws. *)
Definition filePirep (userId : Id) (req : PirepRequest) (st : Store) : Response * Store :=
  match req_file req with
  | None => (ImageRequired, st)
  | Some _ =>
  if detailsMissing req then (DetailsMissing, st) else
  match users st !! userId with
  | None => (PilotNotFound, st)
  | Some pilot =>
      let newPirepData := fun eligible rosterLeg =>
        Pirep.mk userId (req_flightNumber req) (req_departure req) (req_arrival req)
          (req_aircraft req) (req_flightTime req) (req_remarks req) PENDING
          None None None (req_file req) eligible rosterLeg in
      if bool_decide (User.dutyStatus pilot = ON_DUTY) then
        match User.currentRoster pilot with
        | None => (OnDutyWithoutRoster, st)
        | Some rosterId =>
            match rosters st !! rosterId with
            | None => (ServerError, st)
            | Some roster =>
                match List.find (matchesLeg (req_flightNumber req) (req_departure req)
                                            (req_arrival req)) (Roster.legs roster) with
                | None => (NoMatchingLeg, st)
                | Some leg =>
                    let requiredRank := getLegRequiredRank leg in
                    if negb (canFlyLeg (User.rank pilot) requiredRank)
                    then (LegAboveRank requiredRank, st)
                    else if existingPirep st userId rosterId (req_flightNumber req)
                    then (AlreadyFiled, st)
                    else
                      match last (Roster.legs roster) with
                      | None => (ServerError, st)
                      | Some lastLegInRoster =>
                          let eligible :=
                            String.eqb (Js.toUpperCase (Leg.flightNumber lastLegInRoster))
                                       (Js.toUpperCase (req_flightNumber req)) in
                          savePirep st
                            (newPirepData eligible (Some (rosterId, req_flightNumber req)))
                            (requiredMeta None None)
                      end
                end
            end
        end
      else
        let neededRank := deduceRankFromAircraft (Some (req_aircraft req)) in
        if negb (canFlyLeg (User.rank pilot) neededRank)
        then (AircraftAboveRank neededRank, st)
        else savePirep st (newPirepData false None)
               (requiredMeta (Some neededRank) (Some "IndGo Air Virtual"))
  end
  end.

(** [hoursToAdd] and [multiplierApplied] of the approval. *)
Definition awardedHours (pirep : Pirep.t) (st : Store) : Q * Q :=
  match Pirep.isMultiplierEligible pirep, Pirep.rosterLeg pirep with
  | true, Some (rosterId, _) =>
      match rosters st !! rosterId with
      | Some roster =>
          if Js.gtb (Roster.multiplier roster) 1
          then (Pirep.flightTime pirep * Roster.multiplier roster, Roster.multiplier roster)
          else (Pirep.flightTime pirep, 1)
      | None => (Pirep.flightTime pirep, 1)
      end
  | _, _ => (Pirep.flightTime pirep, 1)
  end.

(** The four assignments to the pilot before the promotion check. *)
Definition creditHours (pilot : User.t) (hoursToAdd : Q) (arrival : string) : User.t :=
  User.mk (User.name pilot) (User.callsign pilot) (User.rank pilot)
    (User.flightHours pilot + hoursToAdd) (User.dutyStatus pilot)
    (User.currentRoster pilot) (User.lastDutyStart pilot) (User.lastDutyOff pilot)
    (User.dailyFlightHours pilot + hoursToAdd)
    (User.monthlyFlightHours pilot + hoursToAdd) (User.lastHourReset pilot)
    arrival (User.lastDutyAirport pilot).

Definition markReviewed (pirep : Pirep.t) (verdict : PirepStatus) (reason : option string)
    (reviewer : Id) (now : Z) : Pirep.t :=
  Pirep.mk (Pirep.pilot pirep) (Pirep.flightNumber pirep) (Pirep.departure pirep)
    (Pirep.arrival pirep) (Pirep.aircraft pirep) (Pirep.flightTime pirep)
    (Pirep.remarks pirep) verdict (Some reviewer) reason (Some now) None
    (Pirep.isMultiplierEligible pirep) (Pirep.rosterLeg pirep).

(** [PUT /api/pireps/:pirepId/approve] *)
Definition approvePirep (reviewer pirepId : Id) (now : Z) (st : Store) : Response * Store :=
  match pireps st !! pirepId with
  | None => (PirepNotFound, st)
  | Some pirep =>
      if bool_decide (Pirep.status pirep ≠ PENDING)
      then (AlreadyReviewed (Pirep.status pirep), st) else
      match users st !! Pirep.pilot pirep with
      | None => (PilotProfileNotFound, st)
      | Some pilot =>
          let '(hoursToAdd, multiplierApplied) := awardedHours pirep st in
          let pilot1 := creditHours pilot hoursToAdd (Pirep.arrival pirep) in
          let '(pilot2, promotion) := checkAndApplyRankUpdate pilot1 in
          let pirep' := markReviewed pirep APPROVED (Pirep.rejectionReason pirep) reviewer now in
          (PirepApproved hoursToAdd multiplierApplied promotion,
           putPirep (putUser st (Pirep.pilot pirep) pilot2) pirepId pirep')
      end
  end.

(** [PUT /api/pireps/:pirepId/reject]; an absent or empty [reason] is
    the empty string. *)
Definition rejectPirep (reviewer pirepId : Id) (reason : string) (now : Z) (st : Store)
  : Response * Store :=
  if String.eqb reason "" then (ReasonRequired, st) else
  match pireps st !! pirepId with
  | None => (PirepNotFound, st)
  | Some pirep =>
      if bool_decide (Pirep.status pirep ≠ PENDING)
      then (AlreadyReviewed (Pirep.status pirep), st)
      else (PirepRejected,
            putPirep st pirepId (markReviewed pirep REJECTED (Some reason) reviewer now))
  end.

(** *** Duty lifecycle *)

(** [POST /api/duty/start].  The handler reads the clock several times
    within one request; the readings are taken as one instant [now]. *)
Definition startDuty (userId rosterId : Id) (now oneMonthAgo : Z) (st : Store)
  : Response * Store :=
  match rosters st !! rosterId with
  | None => (RosterNotFound, st)
  | Some roster =>
      match users st !! userId with
      | None => (ServerError, st)
      | Some user =>
          if bool_decide (User.dutyStatus user = ON_DUTY) then (AlreadyOnDuty, st) else
          match restDenial user now with
          | Some denial => (denial, st)
          | None =>
              let user := monthlyReset user now oneMonthAgo in
              match quotaDenial user roster with
              | Some denial => (denial, st)
              | None =>
                  match List.find (fun l => negb (canFlyLeg (User.rank user) (getLegRequiredRank l)))
                                  (Roster.legs roster) with
                  | Some overRankLeg =>
                      (RosterAboveRank overRankLeg (getLegRequiredRank overRankLeg), st)
                  | None =>
                      (DutyStarted roster, putUser st userId (goOnDuty user rosterId now))
                  end
              end
          end
      end
  end.

End Tuned.


(** ** The earlier revision (src/server.js) *)

Module ServerJs.

Definition ROSTER_HUBS : list string := ["VIDP"; "VABB"; "VOBL"; "VECC"; "VOMM"].

Definition pilotRanks : list string :=
  [ "Cadet"; "Second Officer"; "First Officer";
    "Senior First Officer"; "Captain"; "Senior Captain" ].

Definition rankThresholds : list (string * Q) :=
  [ ("Cadet", 0); ("Second Officer", 10); ("First Officer", 50);
    ("Senior First Officer", 150); ("Captain", 400); ("Senior Captain", 1000) ].

Definition checkAndApplyRankUpdate : User.t -> User.t * option string :=
  RankEngine.checkAndApplyRankUpdate pilotRanks rankThresholds.

(** The duration parser of this revision knows the letter format only and
    starts from zero. *)
Definition convertTimeToDecimal (timeStr : option string) : Js.number :=
  if negb (truthy timeStr) then Js.NaN else
  let s := default "" timeStr in
  let totalHours := 0 in
  let hourMatch := Js.matchDigitsUnit "h" s in
  let minMatch := Js.matchDigitsUnit "m" s in
  let totalHours :=
    match hourMatch with
    | Some h => totalHours + inject_Z (default 0%Z (Js.parseInt h))
    | None => totalHours
    end in
  let totalHours :=
    match minMatch with
    | Some m => totalHours + inject_Z (default 0%Z (Js.parseInt m)) / 60
    | None => totalHours
    end in
  Js.Finite totalHours.

(** The body of [allRows.map(row => ...)] together with the filter that
    follows it: the leg, or [None] for a row the filter drops.  The keys of
    this revision's column map are the header texts Callsign, Origin,
    Destination, Aircraft and Flight Time; it reads no rank tag and no
    operator. *)
Definition legOfRow (columnMap : ColumnMap) (row : list string) : option Leg.t :=
  let flightTimeDecimal := convertTimeToDecimal (cell row columnMap ColFlightTime) in
  let flightNumber := Js.trim <$> cell row columnMap ColFlightNumber in
  let departure := extractIcao (cell row columnMap ColDeparture) in
  let arrival := extractIcao (cell row columnMap ColArrival) in
  let aircraft := Js.trim <$> cell row columnMap ColAircraft in
  match departure, arrival, flightTimeDecimal with
  | Some dep, Some arr, Js.Finite ft =>
      if truthy flightNumber && truthy aircraft && Js.gtb ft 0
      then Some (Leg.mk (default "" flightNumber) dep arr (default "" aircraft) ft None None)
      else None
  | _, _, _ => None
  end.

(** [legsByDeparture[hub]] is defined. *)
Definition hasDepartures (legsByDeparture : LegsByDeparture) (hub : string) : bool :=
  existsb (fun kv => String.eqb (fst kv) hub) legsByDeparture.

(** One pass of [for (let i = 0; i < 5; i++)].  The roster schema of this
    revision has no multiplier; the field is left at 1. *)
Definition rosterAttempt (legsByDeparture : LegsByDeparture) (hub : string) (i : nat)
  : Gen (option Roster.t) :=
  d ← buildDraft legsByDeparture hub;
  if (2 <=? length (rosterLegs d))%nat then
    mret (Some (Roster.mk
                  (String.append hub (String.append " Sector Duty #" (pretty (i + 1)%nat)))
                  hub (rosterLegs d) (totalTime d) 1 true true None))
  else mret None.

Fixpoint attempts (legsByDeparture : LegsByDeparture) (hub : string) (i count : nat)
  : Gen (list Roster.t) :=
  match count with
  | O => mret []
  | S count' =>
      r ← rosterAttempt legsByDeparture hub i;
      rest ← attempts legsByDeparture hub (S i) count';
      mret (match r with Some x => x :: rest | None => rest end)
  end.

(** [for (const hub of ROSTER_HUBS)] *)
Fixpoint forHubs (legsByDeparture : LegsByDeparture) (hubs : list string)
  : Gen (list Roster.t) :=
  match hubs with
  | [] => mret []
  | hub :: more =>
      here ← (if hasDepartures legsByDeparture hub
              then attempts legsByDeparture hub 0 5 else mret []);
      rest ← forHubs legsByDeparture more;
      mret (here ++ rest)
  end.

Definition buildRosters (allLegs : list Leg.t) : Gen (list Roster.t) :=
  forHubs (groupByDeparture allLegs) ROSTER_HUBS.

(** [generateRostersFromGoogleSheet] from [allLegs] on; the [catch] of
    this revision rethrows. *)
Definition generateRostersFromLegs (allLegs : list Leg.t) (g : Random) (st : Store)
  : GenerationOutcome * Store :=
  if (length allLegs =? 0)%nat then (GenerationDone 0 0, st) else
  match buildRosters allLegs g with
  | None => (GenerationThrew, st)
  | Some (generatedRosters, _) => saveGenerated generatedRosters (length allLegs) st
  end.

(** [POST /api/pireps] *)
Definition filePirep (userId : Id) (req : PirepRequest) (st : Store) : Response * Store :=
  if detailsMissing req then (DetailsMissing, st) else
  match users st !! userId with
  | None => (PilotNotFound, st)
  | Some pilot =>
      let newPirepData := fun rosterLeg =>
        Pirep.mk userId (req_flightNumber req) (req_departure req) (req_arrival req)
          (req_aircraft req) (req_flightTime req) (req_remarks req) PENDING
          None None None None false rosterLeg in
      if bool_decide (User.dutyStatus pilot = ON_DUTY) then
        match User.currentRoster pilot with
        | None => (OnDutyWithoutRoster, st)
        | Some rosterId =>
            match rosters st !! rosterId with
            | None => (ServerError, st)
            | Some roster =>
                match List.find (matchesLeg (req_flightNumber req) (req_departure req)
                                            (req_arrival req)) (Roster.legs roster) with
                | None => (NoMatchingLeg, st)
                | Some leg =>
                    if existingPirep st userId rosterId (req_flightNumber req)
                    then (AlreadyFiled, st)
                    else savePirep st (newPirepData (Some (rosterId, req_flightNumber req)))
                           true
                end
            end
        end
      else savePirep st (newPirepData None) true
  end.

Definition creditHours (pilot : User.t) (hours : Q) (arrival : string) : User.t :=
  User.mk (User.name pilot) (User.callsign pilot) (User.rank pilot)
    (User.flightHours pilot + hours) (User.dutyStatus pilot)
    (User.currentRoster pilot) (User.lastDutyStart pilot) (User.lastDutyOff pilot)
    (User.dailyFlightHours pilot + hours)
    (User.monthlyFlightHours pilot + hours) (User.lastHourReset pilot)
    arrival (User.lastDutyAirport pilot).

(** The fields a review writes; this revision keeps no image reference. *)
Definition markReviewed (pirep : Pirep.t) (verdict : PirepStatus) (reason : option string)
    (reviewer : Id) (now : Z) : Pirep.t :=
  Pirep.mk (Pirep.pilot pirep) (Pirep.flightNumber pirep) (Pirep.departure pirep)
    (Pirep.arrival pirep) (Pirep.aircraft pirep) (Pirep.flightTime pirep)
    (Pirep.remarks pirep) verdict (Some reviewer) reason (Some now)
    (Pirep.verificationImageUrl pirep)
    (Pirep.isMultiplierEligible pirep) (Pirep.rosterLeg pirep).

(** [PUT /api/pireps/:pirepId/approve] *)
Definition approvePirep (reviewer pirepId : Id) (now : Z) (st : Store) : Response * Store :=
  match pireps st !! pirepId with
  | None => (PirepNotFound, st)
  | Some pirep =>
      if bool_decide (Pirep.status pirep ≠ PENDING)
      then (AlreadyReviewed (Pirep.status pirep), st) else
      match users st !! Pirep.pilot pirep with
      | None => (PilotProfileNotFound, st)
      | Some pilot =>
          let pilot1 := creditHours pilot (Pirep.flightTime pirep) (Pirep.arrival pirep) in
          let '(pilot2, promotion) := checkAndApplyRankUpdate pilot1 in
          let pirep' := markReviewed pirep APPROVED (Pirep.rejectionReason pirep) reviewer now in
          (PirepApproved (Pirep.flightTime pirep) 1 promotion,
           putPirep (putUser st (Pirep.pilot pirep) pilot2) pirepId pirep')
      end
  end.

(** [PUT /api/pireps/:pirepId/reject].  [findByIdAndUpdate] with
    [{ new: false }] writes the four fields and hands back the document
    as it was before the write; the status test comes after it. *)
Definition rejectPirep (reviewer pirepId : Id) (reason : string) (now : Z) (st : Store)
  : Response * Store :=
  if String.eqb reason "" then (ReasonRequired, st) else
  match pireps st !! pirepId with
  | None => (PirepNotFound, st)
  | Some pirep =>
      let st' := putPirep st pirepId (markReviewed pirep REJECTED (Some reason) reviewer now) in
      if bool_decide (Pirep.status pirep ≠ PENDING)
      then (AlreadyReviewed (Pirep.status pirep), st')
      else (PirepRejected, st')
  end.

(** [POST /api/duty/start] *)
Definition startDuty (userId rosterId : Id) (now oneMonthAgo : Z) (st : Store)
  : Response * Store :=
  match rosters st !! rosterId with
  | None => (RosterNotFound, st)
  | Some roster =>
      match users st !! userId with
      | None => (ServerError, st)
      | Some user =>
          if bool_decide (User.dutyStatus user = ON_DUTY) then (AlreadyOnDuty, st) else
          match restDenial user now with
          | Some denial => (denial, st)
          | None =>
              let user := monthlyReset user now oneMonthAgo in
              match quotaDenial user roster with
              | Some denial => (denial, st)
              | None =>
                  (DutyStarted roster, putUser st userId (goOnDuty user rosterId now))
              end
          end
      end
  end.

End ServerJs.

(** ** Vocabulary of the properties *)

(** A parsed duration that is the number [q] of hours. *)
Definition isHours (n : Js.number) (q : Q) : Prop :=
  match n with
  | Js.Finite x => x == q
  | Js.NaN => False
  end.

(** [sum(leg.flightTime)] over a roster's legs. *)
Fixpoint sumFlightTime (legs : list Leg.t) : Q :=
  match legs with
  | [] => 0
  | l :: rest => Leg.flightTime l + sumFlightTime rest
  end.

(** Consecutive legs meet: [legs[i].arrival == legs[i+1].departure]. *)
Definition connected (legs : list Leg.t) : Prop :=
  forall (i : nat) (a b : Leg.t),
    legs !! i = Some a -> legs !! S i = Some b -> Leg.arrival a = Leg.departure b.

(** The four conditions on a generated roster. *)
Definition wellFormedRoster (r : Roster.t) : Prop :=
  (2 <= length (Roster.legs r))%nat
  /\ connected (Roster.legs r)
  /\ Roster.totalFlightTime r == sumFlightTime (Roster.legs r)
  /\ Roster.totalFlightTime r <= MAX_DAILY_FLIGHT_HOURS.

(** A report counts for end-duty: it is this pilot's, linked to this roster,
    and pending or approved. *)
Definition filedFor (userId rosterId : Id) (p : Pirep.t) : Prop :=
  Pirep.pilot p = userId
  /\ fst <$> Pirep.rosterLeg p = Some rosterId
  /\ (Pirep.status p = PENDING \/ Pirep.status p = APPROVED).

#[global] Instance filedFor_dec userId rosterId p : Decision (filedFor userId rosterId p).
Proof. unfold filedFor. apply _. Defined.

(** The monthly hours the quota test of start-duty reads. *)
Definition monthlyInEffect (user : User.t) (now oneMonthAgo : Z) : Q :=
  User.monthlyFlightHours (monthlyReset user now oneMonthAgo).

(** The generated rosters of a collection, as a collection. *)
Definition generatedOf (m : gmap Id Roster.t) : gmap Id Roster.t :=
  filter (fun kv => Roster.isGenerated kv.2 = true) m.

(** The three totals of [after] are those of [before] plus [hours]. *)
Definition credited (before after : User.t) (hours : Q) : Prop :=
  User.flightHours after == User.flightHours before + hours
  /\ User.monthlyFlightHours after == User.monthlyFlightHours before + hours
  /\ User.dailyFlightHours after == User.dailyFlightHours before + hours.

(** A denial: the answer is no 2xx and the store is as before. *)
Definition denied (st : Store) (result : Response * Store) : Prop :=
  accepted result.1 = false /\ result.2 = st.

(** [after] holds the manual rosters of [before], each under its id and
    unchanged, and no other manual roster. *)
Definition manualUntouched (before after : gmap Id Roster.t) : Prop :=
  forall (id : Id) (r : Roster.t),
    Roster.isGenerated r = false -> (after !! id = Some r <-> before !! id = Some r).

(** The generated rosters of [after] are exactly the list [new]. *)
Definition generatedAre (after : gmap Id Roster.t) (new : list Roster.t) : Prop :=
  (forall r, (exists id, after !! id = Some r /\ Roster.isGenerated r = true) <-> r ∈ new)
  /\ size (generatedOf after) = length new.

(** What a generation run owes the roster collection when it built the
    list [new]: manual rosters untouched, generated ones replaced by [new]. *)
Definition replacedBy (before after : gmap Id Roster.t) (new : list Roster.t) : Prop :=
  manualUntouched before after /\ generatedAre after new.

(** [r] is one of the rosters a builder returns on a leg pool. *)
Definition producedBy (build : list Leg.t -> Gen (list Roster.t)) (allLegs : list Leg.t)
    (g : Random) (r : Roster.t) : Prop :=
  exists rs g', build allLegs g = Some (rs, g') /\ r ∈ rs.

(** Every bucket of [legsByDeparture] holds legs leaving its airport. *)
Definition wellLabelled (legsByDeparture : LegsByDeparture) : Prop :=
  Forall (fun kv => Forall (fun l => Leg.departure l = kv.1) kv.2) legsByDeparture.

(** The loop invariant of the roster under construction. *)
Definition draftOk (d : Draft) : Prop :=
  connected (rosterLegs d)
  /\ (forall l, last (rosterLegs d) = Some l -> Leg.arrival l = currentAirport d)
  /\ totalTime d == sumFlightTime (rosterLegs d)
  /\ totalTime d <= MAX_DAILY_FLIGHT_HOURS.

(** What a roster of either builder owes: the four conditions, and the
    [isGenerated] flag. *)
Definition builtRoster (r : Roster.t) : Prop :=
  wellFormedRoster r /\ Roster.isGenerated r = true.

(** What a generation run over the pool [allLegs] owes the store: users and
    reports untouched; manual rosters untouched; when it built a non-empty
    list that the roster schema accepts, the generated rosters replaced by
    that list as the schema casts it; when the schema refuses one of the
    rosters built, the generated rosters deleted and nothing put in their
    place; and nothing changed when it created no roster or threw while
    building. *)
Definition replacementContract (build : list Leg.t -> Gen (list Roster.t))
    (allLegs : list Leg.t) (g : Random) (st : Store) (run : GenerationOutcome * Store) : Prop :=
  users run.2 = users st /\ pireps run.2 = pireps st
  /\ manualUntouched (rosters st) (rosters run.2)
  /\ (forall new g', build allLegs g = Some (new, g') -> (0 < length new)%nat ->
        if forallb validRoster (map castRoster new)
        then run.1 = GenerationDone (length new) (length allLegs)
             /\ generatedAre (rosters run.2) (map castRoster new)
        else run.1 = GenerationThrew
             /\ rosters run.2 = deleteGenerated (rosters st))
  /\ (forall legsFound, run.1 = GenerationDone 0 legsFound -> run.2 = st)
  /\ (build allLegs g = None -> run.2 = st).

(** The oracle behaves like [Math.random]: every value lies in [0, 1). *)
Definition fair (g : Random) : Prop :=
  forall n : nat, 0 <= stream g n /\ stream g n < 1.

(** A pilot record whose rank is a tier the hours have reached. *)
Definition rankEarned (u : User.t) : Prop :=
  User.rank u ∈ Tuned.pilotRanks
  /\ RankEngine.reaches Tuned.rankThresholds (User.flightHours u) (User.rank u) = true.

(** *** Scenarios used to exercise the theorems *)

Module Scenario.

Definition leg1 : Leg.t := Leg.mk "6E101" "VIDP" "VABB" "A320" 2 None None.
Definition leg2 : Leg.t := Leg.mk "6E102" "VABB" "VIDP" "A320" 3 None None.
Definition oddLeg : Leg.t := Leg.mk "6E900" "VIDP" "VABB" "Cessna 172" 1 None None.

(** A two-leg roster in the style of the spec's scenario: 2.0 h and
    3.0 h, multiplier 1.2. *)
Definition duty : Roster.t :=
  Roster.mk "VIDP Sector Duty #1" "VIDP" [leg1; leg2] 5 1.2 true true None.

Definition manual : Roster.t :=
  Roster.mk "Charter" "VIDP" [leg1; leg2] 5 1.3 true false (Some 9%positive).

Definition oddDuty : Roster.t :=
  Roster.mk "Odd" "VIDP" [oddLeg; leg2] 4 1.2 true false (Some 9%positive).

Definition cadet : User.t :=
  User.mk "Asha" None "IndGo Cadet" 0 ON_REST None None None 0 0 0%Z "VIDP" None.

(** A pilot whose rank staff set by hand, above what the hours give. *)
Definition senior : User.t :=
  User.mk "Ravi" None "Blue Legacy Commander" 0 ON_REST None None None 0 0 0%Z "VIDP" None.

Definition onDuty : User.t :=
  User.mk "Asha" None "IndGo Cadet" 0 ON_DUTY (Some 5%positive) (Some 0%Z) None 0 0 0%Z
          "VIDP" None.

(** A pilot at the boundaries: off duty exactly eight hours ago, 95
    monthly and 5 daily hours before a 5-hour roster. *)
Definition rested : User.t :=
  User.mk "Asha" None "IndGo Cadet" 95 ON_REST None None (Some 0%Z) 5 95 0%Z "VIDP" None.

Definition report (fn : string) (hours : Q) (s : PirepStatus) (eligible : bool)
    (link : option (Id * string)) : Pirep.t :=
  Pirep.mk 1%positive fn "VIDP" "VABB" "A320" hours None s None None None None eligible link.

Definition routes : Sheet :=
  mkSheet false
    (Some [ ["IndGo routes"];
            ["Callsign"; "Origin"; "Destination"; "Aircraft"; "Duration"];
            ["6E101"; "VIDP Delhi"; "VABB Mumbai"; "A320"; "2:00"];
            ["6E102"; "VABB Mumbai"; "VIDP Delhi"; "A320"; "3h"] ]).

(** A sheet whose only route leads nowhere: no roster of two legs exists. *)
Definition deadEnd : Sheet :=
  mkSheet false
    (Some [ ["Callsign"; "Origin"; "Destination"; "Aircraft"; "Duration"];
            ["6E101"; "VIDP"; "VABB"; "A320"; "2:00"] ]).

(** Two routes that connect, one of them a five-minute hop: the reader
    keeps both rows, the roster schema refuses the hop. *)
Definition shortHop : Sheet :=
  mkSheet false
    (Some [ ["Callsign"; "Origin"; "Destination"; "Aircraft"; "Duration"];
            ["6E201"; "VIDP"; "VABB"; "A320"; "0:05"];
            ["6E202"; "VABB"; "VIDP"; "A320"; "1:00"] ]).

Definition zeros : Random := mkRandom 0 (fun _ => 0).

Definition columns : ColumnMap :=
  [ (ColFlightNumber, 0%nat); (ColDeparture, 1%nat); (ColArrival, 2%nat);
    (ColAircraft, 3%nat); (ColFlightTime, 4%nat) ].

Definition bareRow : list string := ["6E101"; "VIDP"; "VABB"; "A320"; "90"].

(** What the generator makes of [routes] with the oracle [zeros]. *)
Definition generated : list Roster.t :=
  Eval vm_compute in
    default [] (fst <$> Tuned.buildRosters (Tuned.ingest [routes]) zeros).

Definition generatedByServerJs : list Roster.t :=
  Eval vm_compute in
    default [] (fst <$> ServerJs.buildRosters (Tuned.ingest [routes]) zeros).

Definition first (rs : list Roster.t) : Roster.t := default duty (head rs).

(** A store that holds one generated and one manual roster. *)
Definition hangar : Store := mkStore ∅ {[5%positive := duty; 6%positive := manual]} ∅.

End Scenario.

(** ** Roster and user administration (src/unnamed/part_001) *)

Module Admin.

(** What the administration handlers answer. *)
Inductive Reply : Type :=
| Failed                          (* 500 *)
| InvalidRank                     (* 400 *)
| UserNotFound                    (* 404 *)
| RankUpdated                     (* 200 *)
| RosterFieldsRequired            (* 400 *)
| RosterCreated (rosterId : Id)   (* 201 *)
| RosterMissing                   (* 404 *)
| RosterDeleted                   (* 200 *)
| OwnAccount                      (* 400 *)
| UserDeleted.                    (* 200 *)

(** The [action] of an [AdminLog] entry a handler saves. *)
Inductive LogAction : Type := ROLE_UPDATE | USER_DELETE | ROSTER_CREATE | ROSTER_DELETE.

(** [PUT /api/users/:userId/rank] *)
Definition updateRank (userId : Id) (newRank : string) (st : Store) : Reply * Store :=
  if String.eqb newRank "" || negb (Js.arrayIncludes Tuned.pilotRanks newRank)
  then (InvalidRank, st) else
  match users st !! userId with
  | None => (UserNotFound, st)
  | Some user => (RankUpdated, putUser st userId (RankEngine.setRank user newRank))
  end.

(** The body of [legs.map(l => ...)] in [POST /api/rosters]: the defaults
    for [operator] and [rankUnlock]. *)
Definition finishLeg (l : Leg.t) : Leg.t :=
  let aircraft := Leg.aircraft l in
  let operator :=
    match Leg.operator l with
    | Some o => if String.eqb (Js.trim o) "" then "IndGo Air Virtual" else Js.trim o
    | None => "IndGo Air Virtual"
    end in
  let rankUnlock :=
    match Leg.rankUnlock l with
    | Some r =>
        if String.eqb (Js.trim r) "" then Tuned.deduceRankFromAircraft (Some aircraft)
        else Js.trim r
    | None => Tuned.deduceRankFromAircraft (Some aircraft)
    end in
  Leg.mk (Leg.flightNumber l) (Leg.departure l) (Leg.arrival l) (Leg.aircraft l)
         (Leg.flightTime l) (Some rankUnlock) (Some operator).

(** [finishedLegs.reduce((s, L) => s + (Number(L.flightTime) || 0), 0)] *)
Definition reduceFlightTime (finishedLegs : list Leg.t) : Q :=
  fold_left (fun s L => s + Leg.flightTime L) finishedLegs 0.

(** The body of [POST /api/rosters]; [totalFlightTime] is [Some] when the
    field is a number. *)
Record RosterRequest : Type := mkRosterRequest {
  new_name : string;
  new_hub : string;
  new_legs : list Leg.t;
  new_totalFlightTime : option Q
}.

(** [POST /api/rosters].  The schema defaults make the roster available
    and not generated; [save] casts the document (which drops the
    [operator] and [rankUnlock] just filled in) and validates it, and a
    validation error ends in the [catch]: 500, nothing written, no log. *)
Definition createRoster (admin : Id) (req : RosterRequest) (st : Store)
  : Gen (Reply * Store * list LogAction) :=
  if String.eqb (new_name req) "" || String.eqb (new_hub req) ""
     || (length (new_legs req) =? 0)%nat
  then mret (RosterFieldsRequired, st, []) else
  let finishedLegs := map finishLeg (new_legs req) in
  let computedTFT :=
    match new_totalFlightTime req with
    | Some t => if Js.gtb t 0 then t else reduceFlightTime finishedLegs
    | None => reduceFlightTime finishedLegs
    end in
  r ← Math_random;
  let randomMultiplier := Js.toFixed2 (1.1 + r * 0.4) in
  let newRoster :=
    castRoster (Roster.mk (new_name req) (new_hub req) finishedLegs computedTFT
                          randomMultiplier true false (Some admin)) in
  if validRoster newRoster then
    let newId := fresh (dom (rosters st)) in
    mret (RosterCreated newId,
          mkStore (users st) (<[newId := newRoster]> (rosters st)) (pireps st),
          [ROSTER_CREATE])
  else mret (Failed, st, []).

(** [DELETE /api/rosters/:rosterId] *)
Definition deleteRoster (rosterId : Id) (st : Store) : Reply * Store * list LogAction :=
  match rosters st !! rosterId with
  | None => (RosterMissing, st, [])
  | Some _ =>
      (RosterDeleted, mkStore (users st) (delete rosterId (rosters st)) (pireps st),
       [ROSTER_DELETE])
  end.

(** The rank filter of both roster listings. *)
Definition withinRank (rank : string) (r : Roster.t) : bool :=
  (0 <? length (Roster.legs r))%nat
  && forallb (fun l => Tuned.canFlyLeg rank (Tuned.getLegRequiredRank l)) (Roster.legs r).

(** The query [{ isAvailable: true, 'legs.0.departure': { $in: locations } }]. *)
Definition departsFrom (locations : list string) (r : Roster.t) : bool :=
  Roster.isAvailable r
  && match head (Roster.legs r) with
     | Some l => Js.arrayIncludes locations (Leg.departure l)
     | None => false
     end.

(** [searchLocations] of [GET /api/rosters/my-rosters]. *)
Definition searchLocations (user : User.t) : list string :=
  let fromDutyLocation :=
    match User.lastDutyAirport user with
    | Some a => if String.eqb a "" then [] else [a]
    | None => []
    end in
  let fromPirepLocation :=
    if String.eqb (User.lastKnownAirport user) "" then [] else [User.lastKnownAirport user] in
  match fromDutyLocation ++ fromPirepLocation with
  | [] => ["VIDP"]
  | found => found
  end.

(** [GET /api/rosters/my-rosters]: the rosters of the answer, as a
    collection ([None] for the 404); the order of the answer, by creation
    date, is not part of the embedding. *)
Definition myRosters (userId : Id) (st : Store) : option (gmap Id Roster.t) :=
  match users st !! userId with
  | None => None
  | Some user =>
      Some (filter (fun kv => departsFrom (searchLocations user) kv.2 = true
                              /\ withinRank (User.rank user) kv.2 = true)
                   (rosters st))
  end.

(** [GET /api/rosters] for a pilot (not the manager's [all=true] view). *)
Definition availableRosters (userId : Id) (st : Store) : option (gmap Id Roster.t) :=
  match users st !! userId with
  | None => None
  | Some user =>
      let departureIcao :=
        if String.eqb (User.lastKnownAirport user) "" then "VIDP"
        else User.lastKnownAirport user in
      Some (filter (fun kv => departsFrom [departureIcao] kv.2 = true
                              /\ withinRank (User.rank user) kv.2 = true)
                   (rosters st))
  end.

(** The [findOneAndDelete] hook of the user schema, on the collections of
    the embedding: the reports the user filed go with the user. *)
Definition cascadeDelete (userId : Id) (st : Store) : Store :=
  mkStore (delete userId (users st)) (rosters st)
          (filter (fun kv => Pirep.pilot kv.2 <> userId) (pireps st)).

(** [DELETE /api/users/:userId] *)
Definition deleteUser (admin userId : Id) (st : Store) : Reply * Store * list LogAction :=
  if bool_decide (admin = userId) then (OwnAccount, st, []) else
  match users st !! userId with
  | None => (UserNotFound, st, [])
  | Some _ => (UserDeleted, cascadeDelete userId st, [USER_DELETE])
  end.

End Admin.

(** ** Vocabulary of the further properties *)

(** Four capital letters. *)
Definition isIcao (code : string) : bool :=
  match code with
  | String a (String b (String c (String d EmptyString))) =>
      Js.isUpper a && Js.isUpper b && Js.isUpper c && Js.isUpper d
  | _ => false
  end.

(** What the sheet reader promises of a leg it lets through. *)
Definition ingestedOk (l : Leg.t) : Prop :=
  0 < Leg.flightTime l
  /\ Leg.flightNumber l <> "" /\ Leg.aircraft l <> ""
  /\ isIcao (Leg.departure l) = true /\ isIcao (Leg.arrival l) = true
  /\ truthy (Leg.rankUnlock l) = true /\ truthy (Leg.operator l) = true.

(** A row that does not qualify as the header row of a sheet. *)
Definition notHeader (headerAliases : list (Column * list string)) (row : list string) : Prop :=
  length (Tuned.mapHeaderCells headerAliases row 0 []) <> length headerAliases.

(** A sheet that contributes nothing: its fetch threw, or it has no
    header row. *)
Definition unusable (sheet : Sheet) : Prop :=
  rows sheet = None
  \/ exists allRows,
       rows sheet = Some allRows
       /\ Tuned.findHeaderRow
            (if isCodeshare sheet then Tuned.headerAliasesCodeshare else Tuned.headerAliasesBase)
            allRows 0 = None.

(** The code unit [c] occurs in [s]. *)
Fixpoint occurs (c : ascii) (s : string) : bool :=
  match s with
  | EmptyString => false
  | String x s' => Ascii.eqb x c || occurs c s'
  end.

(** A non-empty run of decimal digits. *)
Definition isDigits (s : string) : bool :=
  negb (String.eqb s "") && String.eqb (Js.spanDigits s).1 s.

(** The part of the pick loop's invariant that concerns where the legs
    come from: no flight number twice, [usedFlightNumbers] holds exactly the
    flight numbers picked, every leg is one of [pool], and the chain
    starts at [start]. *)
Definition draftFrom (pool : list Leg.t) (start : string) (d : Draft) : Prop :=
  NoDup (Leg.flightNumber <$> rosterLegs d)
  /\ (forall fn, fn ∈ usedFlightNumbers d <-> fn ∈ Leg.flightNumber <$> rosterLegs d)
  /\ Forall (fun l => l ∈ pool) (rosterLegs d)
  /\ match head (rosterLegs d) with
     | Some l => Leg.departure l = start
     | None => currentAirport d = start
     end.

(** A roster made of legs of [pool], each flight number once, leaving
    from its hub. *)
Definition drawnFrom (pool : list Leg.t) (r : Roster.t) : Prop :=
  NoDup (Leg.flightNumber <$> Roster.legs r)
  /\ (forall l, l ∈ Roster.legs r -> l ∈ pool)
  /\ (exists l, head (Roster.legs r) = Some l /\ Leg.departure l = Roster.hub r).

(** The rosters of [rs] whose hub is [airport]. *)
Definition basedAt (airport : string) (rs : list Roster.t) : list Roster.t :=
  filter (fun r => Roster.hub r = airport) rs.

(** What the tuned builder's draws allow for: at most four legs, and a
    multiplier between 1.1 and 1.5. *)
Definition sized (r : Roster.t) : Prop :=
  (length (Roster.legs r) <= 4)%nat
  /\ 1.1 <= Roster.multiplier r /\ Roster.multiplier r <= 1.5.

(** Every pilot record is on duty exactly when it names a current roster. *)
Definition dutyConsistent (st : Store) : Prop :=
  forall id u, users st !! id = Some u ->
    (User.dutyStatus u = ON_DUTY <-> is_Some (User.currentRoster u)).

(** ** JavaScript primitives: facts *)

Lemma upperChar_idem (c : ascii) : Js.upperChar (Js.upperChar c) = Js.upperChar c.
Proof. destruct c as [[] [] [] [] [] [] [] []]; reflexivity. Qed.

Lemma toUpperCase_idem (s : string) : Js.toUpperCase (Js.toUpperCase s) = Js.toUpperCase s.
Proof.
  unfold Js.toUpperCase.
  induction s as [|c s IH]; simpl; [reflexivity|].
  now rewrite upperChar_idem, IH.
Qed.

Lemma gtb_false_le (a b : Q) : Js.gtb a b = false -> a <= b.
Proof.
  unfold Js.gtb. intros H. apply negb_false_iff in H. now apply Qle_bool_iff.
Qed.

Lemma gtb_true_lt (a b : Q) : Js.gtb a b = true <-> b < a.
Proof.
  unfold Js.gtb. rewrite negb_true_iff.
  split; intros H.
  - apply Qnot_le_lt. intros Hle. apply Qle_bool_iff in Hle. congruence.
  - destruct (Qle_bool a b) eqn:E; [|reflexivity].
    apply Qle_bool_iff in E. apply Qlt_not_le in H. contradiction.
Qed.

Lemma gtb_false_iff (a b : Q) : Js.gtb a b = false <-> a <= b.
Proof.
  split; [apply gtb_false_le|].
  intros H. destruct (Js.gtb a b) eqn:E; [|reflexivity].
  apply gtb_true_lt in E. apply Qlt_not_le in E. contradiction.
Qed.

(** ** The oracle monad: inversion *)

Lemma Gen_bind_inv {A B : Type} (m : Gen A) (f : A -> Gen B) (g : Random) (b : B) (g' : Random) :
  (m ≫= f) g = Some (b, g') ->
  exists a g1, m g = Some (a, g1) /\ f a g1 = Some (b, g').
Proof.
  unfold mbind, Gen_bind. destruct (m g) as [[a g1]|]; [|discriminate].
  intros H. eauto.
Qed.

Lemma Gen_ret_inv {A : Type} (x y : A) (g g' : Random) :
  mret (M := Gen) x g = Some (y, g') -> y = x /\ g' = g.
Proof. unfold mret, Gen_ret. intros H. injection H as <- <-. split; reflexivity. Qed.

Ltac gen_inv H :=
  match type of H with
  | (_ ≫= _) _ = Some _ =>
      let a := fresh "a" in let g1 := fresh "g" in
      let H1 := fresh "Hrun" in let H2 := fresh "Hrest" in
      apply Gen_bind_inv in H; destruct H as (a & g1 & H1 & H2)
  | mret _ _ = Some _ =>
      let E1 := fresh "E" in let E2 := fresh "E" in
      apply Gen_ret_inv in H; destruct H as [E1 E2]; subst
  end.

(** ** Generated rosters (C1) *)

Lemma pushLeg_wellLabelled (acc : LegsByDeparture) (leg : Leg.t) :
  wellLabelled acc -> wellLabelled (pushLeg acc leg).
Proof.
  unfold wellLabelled. induction acc as [|[airport ls] rest IH]; intros H; simpl.
  - repeat constructor.
  - inversion H as [|? ? Hhead Hrest]; subst. simpl in Hhead.
    destruct (String.eqb airport (Leg.departure leg)) eqn:E.
    + apply String.eqb_eq in E. constructor; [|exact Hrest]. simpl.
      apply Forall_app. split; [exact Hhead|]. constructor; [now symmetry|constructor].
    + constructor; [exact Hhead|]. apply IH, Hrest.
Qed.

Lemma groupByDeparture_wellLabelled (allLegs : list Leg.t) :
  wellLabelled (groupByDeparture allLegs).
Proof.
  unfold groupByDeparture.
  assert (H : forall acc, wellLabelled acc -> wellLabelled (fold_left pushLeg allLegs acc)).
  { induction allLegs as [|l rest IH]; intros acc Hacc; simpl; [exact Hacc|].
    apply IH, pushLeg_wellLabelled, Hacc. }
  apply H. constructor.
Qed.

Lemma legsFrom_departure (legsByDeparture : LegsByDeparture) (airport : string) (l : Leg.t) :
  wellLabelled legsByDeparture ->
  l ∈ legsFrom legsByDeparture airport ->
  Leg.departure l = airport.
Proof.
  unfold wellLabelled. induction legsByDeparture as [|[a ls] rest IH]; intros H Hin; simpl in *.
  - inversion Hin.
  - inversion H as [|? ? Hhead Hrest]; subst. simpl in Hhead.
    destruct (String.eqb a airport) eqn:E.
    + apply String.eqb_eq in E. subst a.
      rewrite Forall_forall in Hhead. now apply Hhead.
    + now apply IH.
Qed.

Lemma sumFlightTime_snoc (legs : list Leg.t) (x : Leg.t) :
  sumFlightTime (legs ++ [x]) == sumFlightTime legs + Leg.flightTime x.
Proof.
  induction legs as [|l legs IH]; simpl.
  - ring.
  - rewrite IH. ring.
Qed.

Lemma connected_snoc (legs : list Leg.t) (x : Leg.t) :
  connected legs ->
  (forall l, last legs = Some l -> Leg.arrival l = Leg.departure x) ->
  connected (legs ++ [x]).
Proof.
  intros Hc Hlast i a b Ha Hb.
  apply lookup_snoc_Some in Hb. destruct Hb as [[Hlt Hb]|[Hlen Hb]].
  - rewrite lookup_app_l in Ha by lia. exact (Hc i a b Ha Hb).
  - subst b. rewrite lookup_app_l in Ha by lia.
    apply Hlast. rewrite last_lookup, <- Hlen. exact Ha.
Qed.

Lemma draftOk_initial (airport : string) : draftOk (mkDraft [] airport 0 ∅).
Proof.
  unfold draftOk. simpl. split; [|split; [|split]].
  - intros i a b Ha. inversion Ha.
  - intros l Hl. inversion Hl.
  - reflexivity.
  - vm_compute. discriminate.
Qed.

Lemma pickLegs_ok (legsByDeparture : LegsByDeparture) (remaining : nat) :
  wellLabelled legsByDeparture ->
  forall (d : Draft) (g : Random) (d' : Draft) (g' : Random),
    draftOk d ->
    pickLegs legsByDeparture remaining d g = Some (d', g') ->
    draftOk d'.
Proof.
  intros Hwl. induction remaining as [|n IH]; intros d g d' g' Hok Hrun; simpl in Hrun.
  - gen_inv Hrun. exact Hok.
  - destruct (length _ =? 0)%nat; [gen_inv Hrun; exact Hok|].
    gen_inv Hrun. clear Hrun0.
    destruct (if (_ <? 0)%Z then None else _) as [nextLeg|] eqn:Hpick; [|discriminate].
    destruct (Js.gtb _ MAX_DAILY_FLIGHT_HOURS) eqn:Hcap; [gen_inv Hrest; exact Hok|].
    refine (IH _ _ _ _ _ Hrest).
    assert (Hdep : Leg.departure nextLeg = currentAirport d).
    { destruct (_ <? 0)%Z; [discriminate|].
      apply list_elem_of_lookup_2, list_elem_of_filter in Hpick.
      destruct Hpick as [_ Hin]. exact (legsFrom_departure _ _ _ Hwl Hin). }
    destruct Hok as (Hc & Hlast & Hsum & Hmax).
    unfold draftOk. simpl. split; [|split; [|split]].
    + apply connected_snoc; [exact Hc|]. intros l Hl. rewrite Hdep. now apply Hlast.
    + intros l Hl. rewrite last_snoc in Hl. now injection Hl as <-.
    + rewrite sumFlightTime_snoc, Hsum. reflexivity.
    + now apply gtb_false_le.
Qed.

Lemma buildDraft_ok (legsByDeparture : LegsByDeparture) (airport : string)
    (g : Random) (d : Draft) (g' : Random) :
  wellLabelled legsByDeparture ->
  buildDraft legsByDeparture airport g = Some (d, g') ->
  draftOk d.
Proof.
  intros Hwl Hrun. unfold buildDraft in Hrun. gen_inv Hrun.
  exact (pickLegs_ok _ _ Hwl _ _ _ _ (draftOk_initial airport) Hrest).
Qed.

Lemma wellFormed_of_draft (d : Draft) (r : Roster.t) :
  draftOk d ->
  (2 <= length (rosterLegs d))%nat ->
  Roster.legs r = rosterLegs d ->
  Roster.totalFlightTime r = totalTime d ->
  wellFormedRoster r.
Proof.
  intros (Hc & _ & Hsum & Hmax) Hlen Hlegs Htotal.
  unfold wellFormedRoster. rewrite Hlegs, Htotal. repeat split; assumption.
Qed.

Lemma Tuned_rosterAttempt_built (legsByDeparture : LegsByDeparture) (airport : string)
    (i : nat) (g : Random) (r : Roster.t) (g' : Random) :
  wellLabelled legsByDeparture ->
  Tuned.rosterAttempt legsByDeparture airport i g = Some (Some r, g') ->
  builtRoster r.
Proof.
  intros Hwl Hrun. unfold Tuned.rosterAttempt in Hrun. gen_inv Hrun.
  pose proof (buildDraft_ok _ _ _ _ _ Hwl Hrun0) as Hok.
  destruct (2 <=? length (rosterLegs a))%nat eqn:Hlen.
  - apply Nat.leb_le in Hlen. gen_inv Hrest.
    apply Gen_ret_inv in Hrest0. destruct Hrest0 as [E _]. injection E as ->.
    split; [|reflexivity].
    now apply (wellFormed_of_draft a).
  - apply Gen_ret_inv in Hrest. destruct Hrest as [E _]. discriminate E.
Qed.

Lemma ServerJs_rosterAttempt_built (legsByDeparture : LegsByDeparture) (hub : string)
    (i : nat) (g : Random) (r : Roster.t) (g' : Random) :
  wellLabelled legsByDeparture ->
  ServerJs.rosterAttempt legsByDeparture hub i g = Some (Some r, g') ->
  builtRoster r.
Proof.
  intros Hwl Hrun. unfold ServerJs.rosterAttempt in Hrun. gen_inv Hrun.
  pose proof (buildDraft_ok _ _ _ _ _ Hwl Hrun0) as Hok.
  destruct (2 <=? length (rosterLegs a))%nat eqn:Hlen.
  - apply Nat.leb_le in Hlen.
    apply Gen_ret_inv in Hrest. destruct Hrest as [E _]. injection E as ->.
    split; [|reflexivity].
    now apply (wellFormed_of_draft a).
  - apply Gen_ret_inv in Hrest. destruct Hrest as [E _]. discriminate E.
Qed.

Lemma Tuned_attempts_built (legsByDeparture : LegsByDeparture) (airport : string) :
  wellLabelled legsByDeparture ->
  forall (count i : nat) (g : Random) (rs : list Roster.t) (g' : Random),
    Tuned.attempts legsByDeparture airport i count g = Some (rs, g') ->
    Forall builtRoster rs.
Proof.
  intros Hwl. induction count as [|n IH]; intros i g rs g' Hrun; simpl in Hrun.
  - apply Gen_ret_inv in Hrun. destruct Hrun as [-> _]. constructor.
  - gen_inv Hrun. gen_inv Hrest.
    apply Gen_ret_inv in Hrest0. destruct Hrest0 as [-> _].
    pose proof (IH _ _ _ _ Hrun) as Hall.
    destruct a as [r|]; [|exact Hall].
    constructor; [|exact Hall].
    exact (Tuned_rosterAttempt_built _ _ _ _ _ _ Hwl Hrun0).
Qed.

Lemma ServerJs_attempts_built (legsByDeparture : LegsByDeparture) (hub : string) :
  wellLabelled legsByDeparture ->
  forall (count i : nat) (g : Random) (rs : list Roster.t) (g' : Random),
    ServerJs.attempts legsByDeparture hub i count g = Some (rs, g') ->
    Forall builtRoster rs.
Proof.
  intros Hwl. induction count as [|n IH]; intros i g rs g' Hrun; simpl in Hrun.
  - apply Gen_ret_inv in Hrun. destruct Hrun as [-> _]. constructor.
  - gen_inv Hrun. gen_inv Hrest.
    apply Gen_ret_inv in Hrest0. destruct Hrest0 as [-> _].
    pose proof (IH _ _ _ _ Hrun) as Hall.
    destruct a as [r|]; [|exact Hall].
    constructor; [|exact Hall].
    exact (ServerJs_rosterAttempt_built _ _ _ _ _ _ Hwl Hrun0).
Qed.

Lemma Tuned_forAirports_built (legsByDeparture : LegsByDeparture) :
  wellLabelled legsByDeparture ->
  forall (airports : list string) (g : Random) (rs : list Roster.t) (g' : Random),
    Tuned.forAirports legsByDeparture airports g = Some (rs, g') ->
    Forall builtRoster rs.
Proof.
  intros Hwl. induction airports as [|a more IH]; intros g rs g' Hrun;
    cbn [Tuned.forAirports] in Hrun.
  - apply Gen_ret_inv in Hrun. destruct Hrun as [-> _]. constructor.
  - gen_inv Hrun. gen_inv Hrest.
    apply Gen_ret_inv in Hrest0. destruct Hrest0 as [-> _].
    apply Forall_app. split.
    + exact (Tuned_attempts_built _ _ Hwl _ _ _ _ _ Hrun0).
    + exact (IH _ _ _ Hrun).
Qed.

Lemma ServerJs_forHubs_built (legsByDeparture : LegsByDeparture) :
  wellLabelled legsByDeparture ->
  forall (hubs : list string) (g : Random) (rs : list Roster.t) (g' : Random),
    ServerJs.forHubs legsByDeparture hubs g = Some (rs, g') ->
    Forall builtRoster rs.
Proof.
  intros Hwl. induction hubs as [|h more IH]; intros g rs g' Hrun;
    cbn [ServerJs.forHubs] in Hrun.
  - apply Gen_ret_inv in Hrun. destruct Hrun as [-> _]. constructor.
  - gen_inv Hrun. gen_inv Hrest.
    apply Gen_ret_inv in Hrest0. destruct Hrest0 as [-> _].
    apply Forall_app. split.
    + destruct (ServerJs.hasDepartures legsByDeparture h).
      * exact (ServerJs_attempts_built _ _ Hwl _ _ _ _ _ Hrun0).
      * apply Gen_ret_inv in Hrun0. destruct Hrun0 as [-> _]. constructor.
    + exact (IH _ _ _ Hrun).
Qed.

Lemma Tuned_buildRosters_built (allLegs : list Leg.t) (g : Random)
    (rs : list Roster.t) (g' : Random) :
  Tuned.buildRosters allLegs g = Some (rs, g') -> Forall builtRoster rs.
Proof.
  apply Tuned_forAirports_built, groupByDeparture_wellLabelled.
Qed.

Lemma ServerJs_buildRosters_built (allLegs : list Leg.t) (g : Random)
    (rs : list Roster.t) (g' : Random) :
  ServerJs.buildRosters allLegs g = Some (rs, g') -> Forall builtRoster rs.
Proof.
  apply ServerJs_forHubs_built, groupByDeparture_wellLabelled.
Qed.

(** C1.  Every roster either revision's builder returns, for any leg pool
    and any values of the random oracle, has at least two legs, has each
    leg arrive where the next departs, stores as [totalFlightTime] the sum
    of its legs' flight times, and keeps that total within the daily
    ceiling of 10 hours. *)
Theorem C1_generated_rosters_are_well_formed (allLegs : list Leg.t) (g : Random)
    (r : Roster.t) :
  producedBy Tuned.buildRosters allLegs g r \/ producedBy ServerJs.buildRosters allLegs g r ->
  (2 <= length (Roster.legs r))%nat
  /\ connected (Roster.legs r)
  /\ Roster.totalFlightTime r == sumFlightTime (Roster.legs r)
  /\ Roster.totalFlightTime r <= MAX_DAILY_FLIGHT_HOURS.
Proof.
  intros [(rs & g' & Hrun & Hin)|(rs & g' & Hrun & Hin)].
  - pose proof (Tuned_buildRosters_built _ _ _ _ Hrun) as Hall.
    rewrite Forall_forall in Hall. exact (proj1 (Hall r Hin)).
  - pose proof (ServerJs_buildRosters_built _ _ _ _ Hrun) as Hall.
    rewrite Forall_forall in Hall. exact (proj1 (Hall r Hin)).
Qed.

Lemma C1_generated_rosters_are_well_formed_witness :
  let r := Scenario.first Scenario.generated in
  let r' := Scenario.first Scenario.generatedByServerJs in
  producedBy Tuned.buildRosters (Tuned.ingest [Scenario.routes]) Scenario.zeros r
  /\ producedBy ServerJs.buildRosters (Tuned.ingest [Scenario.routes]) Scenario.zeros r'
  /\ length (Roster.legs r) = 2%nat
  /\ Roster.totalFlightTime r <= MAX_DAILY_FLIGHT_HOURS
  /\ Roster.totalFlightTime r' == sumFlightTime (Roster.legs r').
Proof.
  intros r r'.
  assert (Hp : producedBy Tuned.buildRosters (Tuned.ingest [Scenario.routes]) Scenario.zeros r).
  { exists Scenario.generated. eexists. split; [vm_compute; reflexivity|].
    apply list_elem_of_here. }
  assert (Hp' : producedBy ServerJs.buildRosters (Tuned.ingest [Scenario.routes])
                  Scenario.zeros r').
  { exists Scenario.generatedByServerJs. eexists. split; [vm_compute; reflexivity|].
    apply list_elem_of_here. }
  split; [exact Hp|]. split; [exact Hp'|]. split; [reflexivity|]. split.
  - exact (proj2 (proj2 (proj2
      (C1_generated_rosters_are_well_formed _ _ r (or_introl Hp))))).
  - exact (proj1 (proj2 (proj2
      (C1_generated_rosters_are_well_formed _ _ r' (or_intror Hp'))))).
Defined.

(** ** Hours awarded on approval (C2) *)

Lemma checkAndApplyRankUpdate_keeps_hours (ranks : list string) (table : list (string * Q))
    (pilot : User.t) :
  let pilot' := (RankEngine.checkAndApplyRankUpdate ranks table pilot).1 in
  User.flightHours pilot' = User.flightHours pilot
  /\ User.monthlyFlightHours pilot' = User.monthlyFlightHours pilot
  /\ User.dailyFlightHours pilot' = User.dailyFlightHours pilot.
Proof.
  unfold RankEngine.checkAndApplyRankUpdate.
  destruct (negb _); simpl; repeat split; reflexivity.
Qed.

Lemma approve_credits_awarded (reviewer pirepId : Id) (now : Z) (st : Store)
    (pirep : Pirep.t) (pilot : User.t) :
  pireps st !! pirepId = Some pirep ->
  Pirep.status pirep = PENDING ->
  users st !! Pirep.pilot pirep = Some pilot ->
  exists pilot',
    users (Tuned.approvePirep reviewer pirepId now st).2 !! Pirep.pilot pirep = Some pilot'
    /\ credited pilot pilot' (Tuned.awardedHours pirep st).1.
Proof.
  intros Hp Hs Hu. unfold Tuned.approvePirep. rewrite Hp.
  rewrite bool_decide_eq_false_2 by (rewrite Hs; intros H; now apply H).
  rewrite Hu.
  destruct (Tuned.awardedHours pirep st) as [hoursToAdd multiplierApplied].
  pose proof (checkAndApplyRankUpdate_keeps_hours Tuned.pilotRanks Tuned.rankThresholds
                (Tuned.creditHours pilot hoursToAdd (Pirep.arrival pirep))) as Hk.
  unfold Tuned.checkAndApplyRankUpdate.
  destruct (RankEngine.checkAndApplyRankUpdate _ _ _) as [pilot2 promotion].
  simpl in Hk. destruct Hk as (Hf & Hm & Hd).
  exists pilot2. split.
  - simpl. apply lookup_insert_eq.
  - unfold credited. rewrite Hf, Hm, Hd. simpl. repeat split; reflexivity.
Qed.

(** C2.  Approving a pending report credits the pilot's cumulative, monthly
    and daily hours alike: with [claimedHours * roster.multiplier] when the
    report is multiplier-eligible and its roster is still in the store (a
    roster's multiplier is at least 1, as its schema demands), and with
    exactly [claimedHours] when the report is not eligible or its roster
    is gone. *)
Theorem C2_awarded_hours (reviewer pirepId : Id) (now : Z) (st : Store)
    (pirep : Pirep.t) (pilot : User.t) :
  pireps st !! pirepId = Some pirep ->
  Pirep.status pirep = PENDING ->
  users st !! Pirep.pilot pirep = Some pilot ->
  exists pilot',
    users (Tuned.approvePirep reviewer pirepId now st).2 !! Pirep.pilot pirep = Some pilot'
    /\ (forall (rosterId : Id) (fn : string) (roster : Roster.t),
          Pirep.isMultiplierEligible pirep = true ->
          Pirep.rosterLeg pirep = Some (rosterId, fn) ->
          rosters st !! rosterId = Some roster ->
          1 <= Roster.multiplier roster ->
          credited pilot pilot' (Pirep.flightTime pirep * Roster.multiplier roster))
    /\ (Pirep.isMultiplierEligible pirep = false
        \/ (forall (rosterId : Id) (fn : string),
              Pirep.rosterLeg pirep = Some (rosterId, fn) -> rosters st !! rosterId = None) ->
        credited pilot pilot' (Pirep.flightTime pirep)).
Proof.
  intros Hp Hs Hu.
  destruct (approve_credits_awarded reviewer pirepId now st pirep pilot Hp Hs Hu)
    as (pilot' & Hlook & Hc).
  exists pilot'. split; [exact Hlook|]. split.
  - intros rosterId fn roster He Hl Hr Hm.
    unfold Tuned.awardedHours in Hc. rewrite He, Hl, Hr in Hc.
    destruct (Js.gtb (Roster.multiplier roster) 1) eqn:Hg; [exact Hc|].
    apply gtb_false_le in Hg.
    assert (Hone : Roster.multiplier roster == 1) by (apply Qle_antisym; assumption).
    unfold credited in *. simpl in Hc. rewrite Hone, Qmult_1_r. exact Hc.
  - intros Hno. unfold Tuned.awardedHours in Hc.
    destruct Hno as [He|Hgone].
    + rewrite He in Hc. exact Hc.
    + destruct (Pirep.isMultiplierEligible pirep); [|exact Hc].
      destruct (Pirep.rosterLeg pirep) as [[rosterId fn]|]; [|exact Hc].
      rewrite (Hgone rosterId fn eq_refl) in Hc. exact Hc.
Qed.

(** The scenario of the spec: legs of 2.0 h and 3.0 h, multiplier 1.2; the
    report on the final leg, claimed at 3.0 h, is worth 3.6 h. *)
Lemma C2_awarded_hours_witness :
  let final := Scenario.report "6E102" 3 PENDING true (Some (5%positive, "6E102")) in
  let st := mkStore {[1%positive := Scenario.cadet]} {[5%positive := Scenario.duty]}
                    {[7%positive := final]} in
  exists pilot',
    users (Tuned.approvePirep 2%positive 7%positive 1000%Z st).2 !! 1%positive = Some pilot'
    /\ credited Scenario.cadet pilot' 3.6.
Proof.
  intros final st.
  destruct (C2_awarded_hours 2%positive 7%positive 1000%Z st final Scenario.cadet
              eq_refl eq_refl eq_refl) as (pilot' & Hlook & Hyes & _).
  exists pilot'. split; [exact Hlook|].
  assert (Hm : 1 <= Roster.multiplier Scenario.duty) by (vm_compute; discriminate).
  pose proof (Hyes 5%positive "6E102" Scenario.duty eq_refl eq_refl eq_refl Hm) as Hc.
  unfold credited in *. destruct Hc as (H1 & H2 & H3).
  assert (E : Pirep.flightTime final * Roster.multiplier Scenario.duty == 3.6)
    by (vm_compute; reflexivity).
  rewrite E in H1, H2, H3. repeat split; assumption.
Defined.

(** ** Promotion on approval (C3) *)

(** C3.  The claim fails on the code.  A pilot whose rank is "Blue Legacy
    Commander" (tier 10, set through the rank endpoint) with 0 flight
    hours has a pending one-hour report approved: the promotion helper
    rewrites the rank to "IndGo Cadet" (tier 0) and reports it as a
    promotion. *)
Theorem C3_approval_lowers_a_hand_set_rank :
  let st := mkStore {[1%positive := Scenario.senior]} ∅
                    {[7%positive := Scenario.report "6E101" 1 PENDING false None]} in
  let '(answer, st') := Tuned.approvePirep 2%positive 7%positive 1000%Z st in
  Tuned.rankIndex (User.rank Scenario.senior) = 10%Z
  /\ answer = PirepApproved 1 1 (Some "IndGo Cadet")
  /\ (Tuned.rankIndex ∘ User.rank) <$> users st' !! 1%positive = Some 0%Z.
Proof. vm_compute. repeat split; reflexivity. Qed.

(** The same helper in the earlier revision: a hand-set "Senior Captain"
    with no hours becomes a "Cadet" on the first approval. *)
Lemma ServerJs_approval_lowers_a_hand_set_rank :
  (ServerJs.checkAndApplyRankUpdate
     (User.mk "Ravi" None "Senior Captain" 1 ON_REST None None None 0 0 0%Z "VIDP" None)).2
  = Some "Cadet".
Proof. reflexivity. Qed.

(** ** When approval does not lower a rank *)

Section RankScan.

Variable table : list (string * Q).

(** The scan from the top returns a tier placed at or above every tier of
    the list that the hours reach. *)
Lemma scanFromTop_highest (ranks : list string) (hours : Q) (current : string)
    (i : nat) (x : string) :
  ranks !! i = Some x ->
  RankEngine.reaches table hours x = true ->
  exists (j : nat),
    ranks !! j = Some (RankEngine.scanFromTop table (rev ranks) hours current)
    /\ (i <= j)%nat
    /\ RankEngine.reaches table hours
         (RankEngine.scanFromTop table (rev ranks) hours current) = true.
Proof.
  revert i. induction ranks as [|top init IH] using rev_ind; intros i Hi Hx.
  - inversion Hi.
  - rewrite rev_unit. cbn [RankEngine.scanFromTop].
    destruct (RankEngine.reaches table hours top) eqn:Htop.
    + exists (length init). split; [apply list_lookup_middle; reflexivity|].
      split; [|exact Htop].
      apply lookup_lt_Some in Hi. rewrite length_app in Hi. simpl in Hi. lia.
    + apply lookup_snoc_Some in Hi. destruct Hi as [[Hlt Hi]|[_ Hi]].
      * destruct (IH i Hi Hx) as (j & Hj & Hij & Hr).
        exists j. split; [|split; assumption].
        rewrite lookup_app_l; [exact Hj|]. now apply lookup_lt_Some in Hj.
      * subst x. congruence.
Qed.

Lemma indexOfFrom_lookup (ranks : list string) (x : string) (i : nat) (base : Z) :
  NoDup ranks -> ranks !! i = Some x ->
  Js.indexOfFrom base ranks x = (base + Z.of_nat i)%Z.
Proof.
  revert i base. induction ranks as [|y ys IH]; intros i base Hnd Hi; [inversion Hi|].
  apply NoDup_cons in Hnd. destruct Hnd as [Hy Hnd]. simpl.
  destruct i as [|i]; simpl in Hi.
  - injection Hi as ->. rewrite String.eqb_refl. lia.
  - destruct (String.eqb y x) eqn:E.
    + apply String.eqb_eq in E. subst y. apply list_elem_of_lookup_2 in Hi. contradiction.
    + rewrite (IH i (base + 1)%Z Hnd Hi). lia.
Qed.

End RankScan.

Lemma Tuned_rankIndex_lookup (i : nat) (x : string) :
  Tuned.pilotRanks !! i = Some x -> Tuned.rankIndex x = Z.of_nat i.
Proof.
  intros Hi. unfold Tuned.rankIndex.
  assert (Htrim : Js.trim x = x).
  { do 11 (destruct i as [|i]; [injection Hi as <-; reflexivity|]). inversion Hi. }
  assert (Hnd : NoDup Tuned.pilotRanks)
    by (apply (bool_decide_unpack _); vm_compute; exact I).
  rewrite Htrim. unfold Js.indexOf.
  rewrite (indexOfFrom_lookup Tuned.pilotRanks x i 0 Hnd Hi).
  rewrite Z.geb_leb, (proj2 (Z.leb_le _ _)) by lia. lia.
Qed.

Lemma reaches_more_hours (table : list (string * Q)) (h h' : Q) (r : string) :
  h <= h' -> RankEngine.reaches table h r = true -> RankEngine.reaches table h' r = true.
Proof.
  unfold RankEngine.reaches, Js.geb. intros Hle.
  destruct (RankEngine.threshold table r) as [t|]; [|discriminate].
  rewrite !Qle_bool_iff. intros Ht. now apply Qle_trans with h.
Qed.

Lemma checkAndApplyRankUpdate_rank (ranks : list string) (table : list (string * Q))
    (u : User.t) :
  User.rank (RankEngine.checkAndApplyRankUpdate ranks table u).1
  = RankEngine.scanFromTop table (rev ranks) (User.flightHours u) (User.rank u).
Proof.
  unfold RankEngine.checkAndApplyRankUpdate.
  destruct (String.eqb _ (User.rank u)) eqn:E; [|reflexivity].
  apply String.eqb_eq in E. symmetry. exact E.
Qed.

(** For a pilot whose rank the hours have reached, the promotion helper
    never lowers the tier, and the rank it leaves is again one the hours
    have reached. *)
Lemma Tuned_rank_update_when_earned (u : User.t) :
  rankEarned u ->
  let u' := (Tuned.checkAndApplyRankUpdate u).1 in
  (Tuned.rankIndex (User.rank u) <= Tuned.rankIndex (User.rank u'))%Z /\ rankEarned u'.
Proof.
  intros [Hin Hreach] u'.
  apply list_elem_of_lookup_1 in Hin. destruct Hin as [i Hi].
  destruct (scanFromTop_highest Tuned.rankThresholds Tuned.pilotRanks (User.flightHours u)
              (User.rank u) i (User.rank u) Hi Hreach) as (j & Hj & Hij & Hr).
  pose proof (checkAndApplyRankUpdate_rank Tuned.pilotRanks Tuned.rankThresholds u) as Hrank.
  destruct (checkAndApplyRankUpdate_keeps_hours Tuned.pilotRanks Tuned.rankThresholds u)
    as (Hhours & _ & _).
  fold (Tuned.checkAndApplyRankUpdate u) in Hrank, Hhours. fold u' in Hrank, Hhours.
  rewrite <- Hrank in Hj, Hr.
  rewrite (Tuned_rankIndex_lookup i _ Hi), (Tuned_rankIndex_lookup j _ Hj).
  split; [lia|]. split; [exact (list_elem_of_lookup_2 _ _ _ Hj)|].
  rewrite Hhours. exact Hr.
Qed.

Lemma awardedHours_nonneg (pirep : Pirep.t) (st : Store) :
  0 <= Pirep.flightTime pirep -> 0 <= (Tuned.awardedHours pirep st).1.
Proof.
  intros H. unfold Tuned.awardedHours.
  destruct (Pirep.isMultiplierEligible pirep); [|exact H].
  destruct (Pirep.rosterLeg pirep) as [[rosterId fn]|]; [|exact H].
  destruct (rosters st !! rosterId) as [roster|]; [|exact H].
  destruct (Js.gtb (Roster.multiplier roster) 1) eqn:E; [|exact H].
  apply gtb_true_lt in E. simpl. apply Qmult_le_0_compat; [exact H|].
  apply Qlt_le_weak. now apply Qlt_trans with 1.
Qed.

(** Along approvals of reports with non-negative hours, a rank the hours
    have reached never goes down and stays reached: the monotonicity C3
    asks for holds from such a state, and only from such a state. *)
Lemma Tuned_approval_keeps_earned_rank (reviewer pirepId : Id) (now : Z) (st : Store)
    (pirep : Pirep.t) (pilot : User.t) :
  pireps st !! pirepId = Some pirep ->
  Pirep.status pirep = PENDING ->
  users st !! Pirep.pilot pirep = Some pilot ->
  rankEarned pilot ->
  0 <= Pirep.flightTime pirep ->
  exists pilot',
    users (Tuned.approvePirep reviewer pirepId now st).2 !! Pirep.pilot pirep = Some pilot'
    /\ (Tuned.rankIndex (User.rank pilot) <= Tuned.rankIndex (User.rank pilot'))%Z
    /\ rankEarned pilot'.
Proof.
  intros Hp Hs Hu [Hin Hreach] Hft.
  pose proof (awardedHours_nonneg pirep st Hft) as Hh.
  unfold Tuned.approvePirep. rewrite Hp.
  rewrite bool_decide_eq_false_2 by (rewrite Hs; intros H; now apply H).
  rewrite Hu.
  destruct (Tuned.awardedHours pirep st) as [hoursToAdd multiplierApplied]. simpl in Hh.
  assert (He : rankEarned (Tuned.creditHours pilot hoursToAdd (Pirep.arrival pirep))).
  { split; [exact Hin|]. simpl.
    apply (reaches_more_hours _ (User.flightHours pilot)); [|exact Hreach].
    rewrite <- (Qplus_0_r (User.flightHours pilot)) at 1.
    apply Qplus_le_r. exact Hh. }
  pose proof (Tuned_rank_update_when_earned _ He) as Hup.
  destruct (Tuned.checkAndApplyRankUpdate _) as [pilot2 promotion].
  exists pilot2. split; [simpl; apply lookup_insert_eq|]. exact Hup.
Qed.

(** ** Start-duty limits (C4) *)

Lemma find_none_of_all {A : Type} (f : A -> bool) (l : list A) :
  (forall x, x ∈ l -> f x = false) -> List.find f l = None.
Proof.
  induction l as [|y l IH]; intros H; simpl; [reflexivity|].
  rewrite (H y) by apply list_elem_of_here.
  apply IH. intros x Hx. apply H. now apply list_elem_of_further.
Qed.

Lemma restDenial_early (user : User.t) (now off : Z) :
  User.lastDutyOff user = Some off ->
  (now - off < MIN_REST_PERIOD)%Z ->
  exists minutes, restDenial user now = Some (CrewRestRequired minutes).
Proof.
  intros Hoff Hlt. unfold restDenial. rewrite Hoff.
  apply Z.ltb_lt in Hlt. rewrite Hlt. eauto.
Qed.

Lemma restDenial_rested (user : User.t) (now : Z) :
  (forall off, User.lastDutyOff user = Some off -> (MIN_REST_PERIOD <= now - off)%Z) ->
  restDenial user now = None.
Proof.
  intros H. unfold restDenial.
  destruct (User.lastDutyOff user) as [off|]; [|reflexivity].
  specialize (H off eq_refl). apply Z.ltb_ge in H. now rewrite H.
Qed.

Lemma quotaDenial_monthly (user : User.t) (roster : Roster.t) :
  MAX_MONTHLY_FLIGHT_HOURS < User.monthlyFlightHours user + Roster.totalFlightTime roster ->
  quotaDenial user roster = Some MonthlyLimitExceeded.
Proof.
  intros H. unfold quotaDenial. apply gtb_true_lt in H. now rewrite H.
Qed.

Lemma quotaDenial_some (user : User.t) (roster : Roster.t) :
  MAX_MONTHLY_FLIGHT_HOURS < User.monthlyFlightHours user + Roster.totalFlightTime roster
  \/ MAX_DAILY_FLIGHT_HOURS < User.dailyFlightHours user + Roster.totalFlightTime roster ->
  exists d, quotaDenial user roster = Some d /\ accepted d = false.
Proof.
  intros H. unfold quotaDenial.
  destruct (Js.gtb _ MAX_MONTHLY_FLIGHT_HOURS) eqn:Em; [eauto|].
  destruct H as [H|H].
  - apply gtb_true_lt in H. congruence.
  - apply gtb_true_lt in H. rewrite H. eauto.
Qed.

Lemma quotaDenial_within (user : User.t) (roster : Roster.t) :
  User.monthlyFlightHours user + Roster.totalFlightTime roster <= MAX_MONTHLY_FLIGHT_HOURS ->
  User.dailyFlightHours user + Roster.totalFlightTime roster <= MAX_DAILY_FLIGHT_HOURS ->
  quotaDenial user roster = None.
Proof.
  intros Hm Hd. unfold quotaDenial.
  apply gtb_false_iff in Hm. apply gtb_false_iff in Hd. now rewrite Hm, Hd.
Qed.

Lemma monthlyReset_daily (user : User.t) (now oneMonthAgo : Z) :
  User.dailyFlightHours (monthlyReset user now oneMonthAgo) = User.dailyFlightHours user
  /\ User.rank (monthlyReset user now oneMonthAgo) = User.rank user.
Proof. unfold monthlyReset. destruct (_ <? _)%Z; split; reflexivity. Qed.

(** Both start-duty handlers deny a request the shared tests deny. *)
Lemma startDuty_denied_by_tests (userId rosterId : Id) (now oneMonthAgo : Z) (st : Store)
    (user : User.t) (roster : Roster.t) :
  users st !! userId = Some user ->
  rosters st !! rosterId = Some roster ->
  (exists d, restDenial user now = Some d /\ accepted d = false)
  \/ (exists d, quotaDenial (monthlyReset user now oneMonthAgo) roster = Some d
                /\ accepted d = false) ->
  denied st (Tuned.startDuty userId rosterId now oneMonthAgo st)
  /\ denied st (ServerJs.startDuty userId rosterId now oneMonthAgo st).
Proof.
  intros Hu Hr H. unfold denied, Tuned.startDuty, ServerJs.startDuty.
  rewrite Hu, Hr.
  case_bool_decide; [repeat split; reflexivity|].
  destruct H as [(d & Hd & Ha)|(d & Hd & Ha)].
  - rewrite Hd. simpl. repeat split; assumption.
  - destruct (restDenial user now) as [d'|] eqn:Hrest.
    + unfold restDenial in Hrest.
      destruct (User.lastDutyOff user); [|discriminate].
      destruct (_ <? _)%Z; [|discriminate].
      injection Hrest as <-. repeat split; reflexivity.
    + rewrite Hd. simpl. repeat split; assumption.
Qed.

(** C4.  For a user and a roster in the store, in both revisions:
    start-duty is denied while less than [MIN_REST_PERIOD] (8 h) has passed
    since [lastDutyOff]; it is denied when the monthly hours in effect
    (after the monthly reset of the same request) plus the roster's total
    exceed 100, or the daily hours plus the total exceed 10; and a resting
    pilot is accepted once the elapsed rest is at least 8 h and both sums
    are at most their ceilings, equality included (in the tuned revision
    provided every leg is within the pilot's rank). *)
Theorem C4_start_duty_limits (userId rosterId : Id) (now oneMonthAgo : Z) (st : Store)
    (user : User.t) (roster : Roster.t) :
  users st !! userId = Some user ->
  rosters st !! rosterId = Some roster ->
  let monthly := monthlyInEffect user now oneMonthAgo in
  let daily := User.dailyFlightHours user in
  let total := Roster.totalFlightTime roster in
  let tuned := Tuned.startDuty userId rosterId now oneMonthAgo st in
  let early := ServerJs.startDuty userId rosterId now oneMonthAgo st in
  (forall off, User.lastDutyOff user = Some off -> (now - off < MIN_REST_PERIOD)%Z ->
               denied st tuned /\ denied st early)
  /\ (MAX_MONTHLY_FLIGHT_HOURS < monthly + total -> denied st tuned /\ denied st early)
  /\ (MAX_DAILY_FLIGHT_HOURS < daily + total -> denied st tuned /\ denied st early)
  /\ (User.dutyStatus user = ON_REST ->
      (forall off, User.lastDutyOff user = Some off -> (MIN_REST_PERIOD <= now - off)%Z) ->
      monthly + total <= MAX_MONTHLY_FLIGHT_HOURS ->
      daily + total <= MAX_DAILY_FLIGHT_HOURS ->
      let onDuty := goOnDuty (monthlyReset user now oneMonthAgo) rosterId now in
      early = (DutyStarted roster, putUser st userId onDuty)
      /\ ((forall l, l ∈ Roster.legs roster ->
                     Tuned.canFlyLeg (User.rank user) (Tuned.getLegRequiredRank l) = true) ->
          tuned = (DutyStarted roster, putUser st userId onDuty))).
Proof.
  intros Hu Hr monthly daily total tuned early.
  destruct (monthlyReset_daily user now oneMonthAgo) as [Hdaily Hrank].
  split; [|split; [|split]].
  - intros off Hoff Hlt.
    apply (startDuty_denied_by_tests userId rosterId now oneMonthAgo st user roster Hu Hr).
    left. destruct (restDenial_early user now off Hoff Hlt) as [m Hm]. eauto.
  - intros Hlt.
    apply (startDuty_denied_by_tests userId rosterId now oneMonthAgo st user roster Hu Hr).
    right. apply quotaDenial_some. left. exact Hlt.
  - intros Hlt.
    apply (startDuty_denied_by_tests userId rosterId now oneMonthAgo st user roster Hu Hr).
    right. apply quotaDenial_some. right. rewrite Hdaily. exact Hlt.
  - intros Hrest Hoff Hm Hd onDuty.
    subst tuned early. unfold Tuned.startDuty, ServerJs.startDuty. rewrite Hu, Hr.
    rewrite bool_decide_eq_false_2 by (rewrite Hrest; discriminate).
    rewrite (restDenial_rested user now Hoff).
    rewrite quotaDenial_within by (try rewrite Hdaily; assumption).
    split; [reflexivity|].
    intros Hfly. rewrite find_none_of_all; [reflexivity|].
    intros l Hl. rewrite Hrank, (Hfly l Hl). reflexivity.
Qed.

(** At the boundaries: off duty exactly 8 h ago, 95 + 5 = 100 monthly and
    5 + 5 = 10 daily hours. *)
Lemma C4_start_duty_limits_witness :
  let st := mkStore {[1%positive := Scenario.rested]} {[5%positive := Scenario.duty]} ∅ in
  accepted (Tuned.startDuty 1%positive 5%positive MIN_REST_PERIOD 0%Z st).1 = true
  /\ accepted (ServerJs.startDuty 1%positive 5%positive MIN_REST_PERIOD 0%Z st).1 = true
  /\ denied st (Tuned.startDuty 1%positive 5%positive (MIN_REST_PERIOD - 1) 0%Z st).
Proof.
  intros st.
  pose proof (C4_start_duty_limits 1%positive 5%positive MIN_REST_PERIOD 0%Z st
                Scenario.rested Scenario.duty eq_refl eq_refl) as (_ & _ & _ & Hok).
  pose proof (C4_start_duty_limits 1%positive 5%positive (MIN_REST_PERIOD - 1) 0%Z st
                Scenario.rested Scenario.duty eq_refl eq_refl) as (Hearly & _).
  assert (Hoff : forall off, User.lastDutyOff Scenario.rested = Some off ->
                             (MIN_REST_PERIOD <= MIN_REST_PERIOD - off)%Z).
  { intros off H. injection H as <-. vm_compute. discriminate. }
  assert (Hm : monthlyInEffect Scenario.rested MIN_REST_PERIOD 0
               + Roster.totalFlightTime Scenario.duty <= MAX_MONTHLY_FLIGHT_HOURS)
    by (vm_compute; discriminate).
  assert (Hd : User.dailyFlightHours Scenario.rested
               + Roster.totalFlightTime Scenario.duty <= MAX_DAILY_FLIGHT_HOURS)
    by (vm_compute; discriminate).
  destruct (Hok eq_refl Hoff Hm Hd) as [He Ht].
  split; [|split].
  - rewrite Ht; [reflexivity|].
    intros l Hl. apply list_elem_of_In in Hl.
    repeat (destruct Hl as [<-|Hl]; [vm_compute; reflexivity|]). destruct Hl.
  - rewrite He. reflexivity.
  - apply (Hearly 0%Z eq_refl). vm_compute. reflexivity.
Defined.

(** ** End-duty (C5) *)

Lemma countsTowards_spec (userId rosterId : Id) (p : Pirep.t) :
  countsTowards userId rosterId p = true <-> filedFor userId rosterId p.
Proof.
  unfold countsTowards, filedFor.
  rewrite !andb_true_iff, orb_true_iff, !bool_decide_eq_true. tauto.
Qed.

Lemma filedPireps_spec (st : Store) (userId rosterId : Id) :
  filedPireps st userId rosterId
  = size (filter (fun kv => filedFor userId rosterId kv.2) (pireps st)).
Proof.
  unfold filedPireps. f_equal. apply map_filter_ext.
  intros i p _. simpl. apply countsTowards_spec.
Qed.

(** C5.  For a pilot on duty whose roster is in the store, in both
    revisions (the handler text is the same): while the pilot's pending or
    approved reports linked to the roster number fewer than its legs,
    end-duty is denied with the two counts and changes nothing; once they
    number at least as many (equality included) it is accepted, and the
    pilot's record read back from the store has [lastDutyAirport] = the
    final leg's arrival, [dutyStatus] = ON_REST, no [currentRoster], no
    [lastDutyStart], [lastDutyOff] = now and [dailyFlightHours] = 0, with
    rank, total and monthly hours and last known airport as they were;
    every other user, the rosters and the reports are untouched. *)
Theorem C5_end_duty_gate (userId rosterId : Id) (now : Z) (st : Store)
    (user : User.t) (roster : Roster.t) :
  users st !! userId = Some user ->
  User.dutyStatus user = ON_DUTY ->
  User.currentRoster user = Some rosterId ->
  rosters st !! rosterId = Some roster ->
  let filed := size (filter (fun kv => filedFor userId rosterId kv.2) (pireps st)) in
  let legCount := length (Roster.legs roster) in
  ((filed < legCount)%nat ->
   endDuty userId now st = (LegsIncomplete filed legCount, st))
  /\ ((legCount <= filed)%nat ->
      exists user',
        endDuty userId now st = (DutyCompleted, putUser st userId user')
        /\ users (endDuty userId now st).2 !! userId = Some user'
        /\ (forall other, other <> userId ->
              users (endDuty userId now st).2 !! other = users st !! other)
        /\ rosters (endDuty userId now st).2 = rosters st
        /\ pireps (endDuty userId now st).2 = pireps st
        /\ (forall finalLeg, last (Roster.legs roster) = Some finalLeg ->
                             User.lastDutyAirport user' = Some (Leg.arrival finalLeg))
        /\ User.dutyStatus user' = ON_REST
        /\ User.currentRoster user' = None
        /\ User.lastDutyStart user' = None
        /\ User.lastDutyOff user' = Some now
        /\ User.dailyFlightHours user' = 0
        /\ User.rank user' = User.rank user
        /\ User.flightHours user' = User.flightHours user
        /\ User.monthlyFlightHours user' = User.monthlyFlightHours user
        /\ User.lastKnownAirport user' = User.lastKnownAirport user).
Proof.
  intros Hu Hs Hc Hr filed legCount.
  unfold endDuty. rewrite Hu.
  rewrite bool_decide_eq_false_2 by (rewrite Hs; intros H; now apply H).
  rewrite Hc, Hr, filedPireps_spec. fold filed. fold legCount.
  split.
  - intros Hlt. apply Nat.ltb_lt in Hlt. now rewrite Hlt.
  - intros Hge. apply Nat.ltb_ge in Hge. rewrite Hge.
    exists (goOffDuty user roster now).
    split; [reflexivity|].
    split; [apply lookup_insert_eq|].
    split; [intros other Hother; simpl; now apply lookup_insert_ne|].
    split; [reflexivity|]. split; [reflexivity|].
    split; [|repeat split; reflexivity].
    intros finalLeg Hlast. unfold goOffDuty. simpl. now rewrite Hlast.
Qed.

Lemma C5_end_duty_gate_witness :
  let one := Scenario.report "6E101" 2 APPROVED false (Some (5%positive, "6E101")) in
  let two := Scenario.report "6E102" 3 PENDING true (Some (5%positive, "6E102")) in
  let st1 := mkStore {[1%positive := Scenario.onDuty]} {[5%positive := Scenario.duty]}
                     {[7%positive := one]} in
  let st2 := mkStore {[1%positive := Scenario.onDuty]} {[5%positive := Scenario.duty]}
                     {[7%positive := one; 8%positive := two]} in
  endDuty 1%positive 9000%Z st1 = (LegsIncomplete 1 2, st1)
  /\ exists user',
       users (endDuty 1%positive 9000%Z st2).2 !! 1%positive = Some user'
       /\ User.dutyStatus user' = ON_REST
       /\ User.lastDutyAirport user' = Some "VIDP"
       /\ User.dailyFlightHours user' = 0.
Proof.
  intros one two st1 st2. split.
  - apply (C5_end_duty_gate 1%positive 5%positive 9000%Z st1 Scenario.onDuty Scenario.duty
             eq_refl eq_refl eq_refl eq_refl).
    vm_compute. lia.
  - destruct (C5_end_duty_gate 1%positive 5%positive 9000%Z st2 Scenario.onDuty Scenario.duty
                eq_refl eq_refl eq_refl eq_refl) as [_ Hdone].
    destruct Hdone as (user' & _ & Hread & _ & _ & _ & Hlast & Hrest & _ & _ & _ & Hd & _);
      [vm_compute; lia|].
    exists user'. split; [exact Hread|]. split; [exact Hrest|]. split; [|exact Hd].
    apply (Hlast Scenario.leg2). reflexivity.
Defined.

(** ** Duplicate-leg guard (C6) *)

(** C6.  The claim fails on the code (shown on src/server.js; the guard
    reads the same in the tuned revision).  A pilot on duty on roster 5 has
    already filed flight "6E101"; filing it again as "6e101" matches the
    roster leg (that comparison ignores case) but not the stored report
    (that query is exact), so a second report linked to the leg is
    stored. *)
Theorem C6_duplicate_in_other_case_is_stored :
  let filed := Scenario.report "6E101" 2 PENDING false (Some (5%positive, "6E101")) in
  let st := mkStore {[1%positive := Scenario.onDuty]} {[5%positive := Scenario.duty]}
                    {[7%positive := filed]} in
  let again := mkPirepRequest "6e101" "VIDP" "VABB" "A320" 2 None (Some "img") in
  ServerJs.filePirep 1%positive (mkPirepRequest "6E101" "VIDP" "VABB" "A320" 2 None (Some "img")) st
    = (AlreadyFiled, st)
  /\ exists newId,
       (ServerJs.filePirep 1%positive again st).1 = PirepSubmitted newId
       /\ Pirep.rosterLeg <$> pireps (ServerJs.filePirep 1%positive again st).2 !! newId
          = Some (Some (5%positive, "6e101")).
Proof.
  split; [vm_compute; reflexivity|].
  exists 8%positive. vm_compute. repeat split; reflexivity.
Qed.

(** ** The duplicate-leg guard when the spelling is the same *)

Lemma existingPirep_found (st : Store) (userId rosterId pid : Id) (fn : string) (p : Pirep.t) :
  pireps st !! pid = Some p ->
  Pirep.pilot p = userId ->
  Pirep.rosterLeg p = Some (rosterId, fn) ->
  existingPirep st userId rosterId fn = true.
Proof.
  intros Hp Hu Hl. unfold existingPirep. apply bool_decide_eq_true.
  exists pid, p. split; [exact Hp|].
  unfold isExistingPirep. rewrite Hl, String.eqb_refl.
  now rewrite !bool_decide_eq_true_2.
Qed.

(** A report already linked to (roster, flight number), whatever its status,
    blocks a second filing that spells the flight number the same way, in
    both revisions. *)
Lemma duplicate_same_spelling_rejected (userId rosterId pid : Id) (req : PirepRequest)
    (st : Store) (pilot : User.t) (p : Pirep.t) :
  users st !! userId = Some pilot ->
  User.dutyStatus pilot = ON_DUTY ->
  User.currentRoster pilot = Some rosterId ->
  pireps st !! pid = Some p ->
  Pirep.pilot p = userId ->
  Pirep.rosterLeg p = Some (rosterId, req_flightNumber req) ->
  denied st (ServerJs.filePirep userId req st) /\ denied st (Tuned.filePirep userId req st).
Proof.
  intros Hu Hd Hc Hp Hpu Hl.
  pose proof (existingPirep_found st userId rosterId pid _ p Hp Hpu Hl) as He.
  unfold denied. split.
  - unfold ServerJs.filePirep.
    destruct (detailsMissing req); [split; reflexivity|].
    rewrite Hu, bool_decide_eq_true_2 by exact Hd.
    rewrite Hc. destruct (rosters st !! rosterId) as [roster|]; [|split; reflexivity].
    destruct (List.find _ (Roster.legs roster)) as [leg|]; [|split; reflexivity].
    rewrite He. split; reflexivity.
  - unfold Tuned.filePirep.
    destruct (req_file req); [|split; reflexivity].
    destruct (detailsMissing req); [split; reflexivity|].
    rewrite Hu, bool_decide_eq_true_2 by exact Hd.
    rewrite Hc. destruct (rosters st !! rosterId) as [roster|]; [|split; reflexivity].
    destruct (List.find _ (Roster.legs roster)) as [leg|]; [|split; reflexivity].
    destruct (negb (Tuned.canFlyLeg _ _)); [split; reflexivity|].
    rewrite He. split; reflexivity.
Qed.

(** ** Review of an already reviewed report (C7) *)

Lemma Tuned_approve_reviewed_is_inert (reviewer pirepId : Id) (now : Z) (st : Store)
    (pirep : Pirep.t) :
  pireps st !! pirepId = Some pirep ->
  Pirep.status pirep <> PENDING ->
  Tuned.approvePirep reviewer pirepId now st = (AlreadyReviewed (Pirep.status pirep), st).
Proof.
  intros Hp Hs. unfold Tuned.approvePirep. rewrite Hp.
  now rewrite bool_decide_eq_true_2.
Qed.

Lemma Tuned_reject_reviewed_is_inert (reviewer pirepId : Id) (reason : string) (now : Z)
    (st : Store) (pirep : Pirep.t) :
  pireps st !! pirepId = Some pirep ->
  Pirep.status pirep <> PENDING ->
  (Tuned.rejectPirep reviewer pirepId reason now st).2 = st
  /\ accepted (Tuned.rejectPirep reviewer pirepId reason now st).1 = false.
Proof.
  intros Hp Hs. unfold Tuned.rejectPirep.
  destruct (String.eqb reason ""); [split; reflexivity|].
  rewrite Hp. rewrite bool_decide_eq_true_2 by exact Hs. split; reflexivity.
Qed.

Lemma ServerJs_approve_reviewed_is_inert (reviewer pirepId : Id) (now : Z) (st : Store)
    (pirep : Pirep.t) :
  pireps st !! pirepId = Some pirep ->
  Pirep.status pirep <> PENDING ->
  ServerJs.approvePirep reviewer pirepId now st = (AlreadyReviewed (Pirep.status pirep), st).
Proof.
  intros Hp Hs. unfold ServerJs.approvePirep. rewrite Hp.
  now rewrite bool_decide_eq_true_2.
Qed.

(** C7.  The claim fails on the reject handler of src/server.js.  Report 7
    was approved by reviewer 2 at time 500; reviewer 3 rejects it at time
    1000.  The answer is the conflict, yet the stored report now says
    REJECTED, with the new reason, reviewer and time, while the hours the
    approval credited stay with the pilot. *)
Theorem C7_reject_overwrites_a_reviewed_report :
  let approved :=
    Pirep.mk 1%positive "6E101" "VIDP" "VABB" "A320" 2 None APPROVED
             (Some 2%positive) None (Some 500%Z) None false None in
  let st := mkStore {[1%positive := Scenario.cadet]} ∅ {[7%positive := approved]} in
  let '(answer, st') := ServerJs.rejectPirep 3%positive 7%positive "late" 1000%Z st in
  answer = AlreadyReviewed APPROVED
  /\ users st' = users st
  /\ (fun p => (Pirep.status p, Pirep.rejectionReason p, Pirep.reviewedBy p, Pirep.reviewedAt p))
       <$> pireps st' !! 7%positive
     = Some (REJECTED, Some "late", Some 3%positive, Some 1000%Z).
Proof. vm_compute. repeat split; reflexivity. Qed.

(** ** Replacement of the generated rosters (C8) *)

Lemma insertOne_fresh (m : gmap Id Roster.t) : m !! fresh (dom m) = None.
Proof. apply not_elem_of_dom, is_fresh. Qed.

Lemma insertAll_keeps (docs : list Roster.t) (m : gmap Id Roster.t) (id : Id) (r : Roster.t) :
  m !! id = Some r -> insertAll docs m !! id = Some r.
Proof.
  revert m. induction docs as [|d docs IH]; intros m H; simpl; [exact H|].
  apply IH. unfold insertOne. rewrite lookup_insert_ne; [exact H|].
  intros E. subst id. rewrite insertOne_fresh in H. discriminate.
Qed.

Lemma insertAll_origin (docs : list Roster.t) (m : gmap Id Roster.t) (id : Id) (r : Roster.t) :
  insertAll docs m !! id = Some r -> m !! id = Some r \/ r ∈ docs.
Proof.
  revert m. induction docs as [|d docs IH]; intros m H; simpl in *; [left; exact H|].
  destruct (IH _ H) as [Hm|Hin].
  - unfold insertOne in Hm. rewrite lookup_insert in Hm. case_decide.
    + injection Hm as <-. right. apply list_elem_of_here.
    + left. exact Hm.
  - right. now apply list_elem_of_further.
Qed.

Lemma insertAll_stores (docs : list Roster.t) (m : gmap Id Roster.t) (r : Roster.t) :
  r ∈ docs -> exists id, insertAll docs m !! id = Some r.
Proof.
  revert m. induction docs as [|d docs IH]; intros m H.
  - inversion H.
  - apply elem_of_cons in H. destruct H as [->|H].
    + exists (fresh (dom m)). simpl. apply insertAll_keeps.
      unfold insertOne. apply lookup_insert_eq.
    + simpl. apply IH. exact H.
Qed.

Lemma insertAll_generated_size (docs : list Roster.t) (m : gmap Id Roster.t) :
  Forall (fun r => Roster.isGenerated r = true) docs ->
  size (generatedOf (insertAll docs m)) = (length docs + size (generatedOf m))%nat.
Proof.
  revert m. induction docs as [|d docs IH]; intros m H; simpl; [reflexivity|].
  inversion H as [|? ? Hd Hrest]; subst.
  rewrite IH by exact Hrest. unfold generatedOf, insertOne.
  rewrite map_filter_insert_True by exact Hd.
  rewrite map_size_insert_None; [lia|].
  apply map_lookup_filter_None. left. apply insertOne_fresh.
Qed.

Lemma deleteGenerated_lookup (m : gmap Id Roster.t) (id : Id) (r : Roster.t) :
  deleteGenerated m !! id = Some r <-> m !! id = Some r /\ Roster.isGenerated r = false.
Proof. unfold deleteGenerated. apply map_lookup_filter_Some. Qed.

Lemma deleteGenerated_leaves_none (m : gmap Id Roster.t) :
  size (generatedOf (deleteGenerated m)) = 0%nat.
Proof.
  apply map_size_empty_iff, map_empty. intros id.
  apply map_lookup_filter_None. right. intros r Hr.
  apply deleteGenerated_lookup in Hr. simpl. destruct Hr as [_ ->]. discriminate.
Qed.

Lemma castRoster_generated (r : Roster.t) :
  Roster.isGenerated (castRoster r) = Roster.isGenerated r.
Proof. reflexivity. Qed.

Lemma cast_all_generated (docs : list Roster.t) :
  Forall (fun r => Roster.isGenerated r = true) docs ->
  Forall (fun r => Roster.isGenerated r = true) (map castRoster docs).
Proof.
  intros H. apply Forall_forall. intros r Hr.
  apply list_elem_of_In, in_map_iff in Hr. destruct Hr as (r0 & <- & Hin).
  rewrite Forall_forall in H. apply (H r0). now apply list_elem_of_In.
Qed.

(** The tail of the generator, for a list of rosters all flagged generated. *)
Lemma saveGenerated_spec (generatedRosters : list Roster.t) (legsFound : nat) (st : Store) :
  Forall (fun r => Roster.isGenerated r = true) generatedRosters ->
  let '(outcome, st') := saveGenerated generatedRosters legsFound st in
  users st' = users st /\ pireps st' = pireps st
  /\ manualUntouched (rosters st) (rosters st')
  /\ ((0 < length generatedRosters)%nat ->
      if forallb validRoster (map castRoster generatedRosters)
      then outcome = GenerationDone (length generatedRosters) legsFound
           /\ generatedAre (rosters st') (map castRoster generatedRosters)
      else outcome = GenerationThrew /\ rosters st' = deleteGenerated (rosters st))
  /\ (length generatedRosters = 0%nat ->
      outcome = GenerationDone 0 legsFound /\ st' = st).
Proof.
  intros Hgen. apply cast_all_generated in Hgen. unfold saveGenerated, insertMany.
  destruct (0 <? length generatedRosters)%nat eqn:E.
  - apply Nat.ltb_lt in E.
    destruct (forallb validRoster (map castRoster generatedRosters)); simpl.
    + split; [reflexivity|]. split; [reflexivity|]. split; [|split; [|lia]].
      * intros id r Hr. split.
        -- intros H. apply insertAll_origin in H. destruct H as [H|H].
           ++ now apply deleteGenerated_lookup in H.
           ++ rewrite Forall_forall in Hgen. rewrite (Hgen r H) in Hr. discriminate.
        -- intros H. apply insertAll_keeps. now apply deleteGenerated_lookup.
      * intros _. split; [reflexivity|]. split.
        -- intros r. split.
           ++ intros (id & H & Hg). apply insertAll_origin in H.
              destruct H as [H|H]; [|exact H].
              apply deleteGenerated_lookup in H. destruct H as [_ H]. congruence.
           ++ intros H.
              destruct (insertAll_stores _ (deleteGenerated (rosters st)) r H) as [id Hid].
              exists id. split; [exact Hid|]. rewrite Forall_forall in Hgen. now apply Hgen.
        -- rewrite insertAll_generated_size by exact Hgen.
           rewrite deleteGenerated_leaves_none, length_map. lia.
    + split; [reflexivity|]. split; [reflexivity|]. split; [|split; [|lia]].
      * intros id r Hr. rewrite deleteGenerated_lookup. tauto.
      * intros _. split; reflexivity.
  - apply Nat.ltb_ge in E.
    split; [reflexivity|]. split; [reflexivity|].
    split; [intros id r _; reflexivity|]. split; [lia|].
    intros H0. rewrite H0. split; reflexivity.
Qed.

(** ** Replacement of the generated rosters (C8), continued *)

Lemma built_are_generated (rs : list Roster.t) :
  Forall builtRoster rs -> Forall (fun r => Roster.isGenerated r = true) rs.
Proof. intros H. eapply Forall_impl; [exact H|]. intros r [_ Hg]. exact Hg. Qed.

(** The shape both generators have from [allLegs] on. *)
Lemma generation_contract (build : list Leg.t -> Gen (list Roster.t))
    (allLegs : list Leg.t) (g : Random) (st : Store) :
  (forall rs g', build allLegs g = Some (rs, g') -> Forall builtRoster rs) ->
  (allLegs = [] -> build allLegs g = Some ([], g)) ->
  replacementContract build allLegs g st
    (if (length allLegs =? 0)%nat then (GenerationDone 0 (length allLegs), st)
     else match build allLegs g with
          | None => (GenerationThrew, st)
          | Some (generatedRosters, _) => saveGenerated generatedRosters (length allLegs) st
          end).
Proof.
  intros Hbuilt Hnil. unfold replacementContract.
  destruct (length allLegs =? 0)%nat eqn:E.
  - apply Nat.eqb_eq in E. apply length_zero_iff_nil in E.
    simpl. split; [reflexivity|]. split; [reflexivity|].
    split; [intros id r _; reflexivity|]. split; [|split].
    + intros new g' Hb Hlen. rewrite (Hnil E) in Hb. injection Hb as <- _.
      simpl in Hlen. lia.
    + intros legsFound _. reflexivity.
    + intros _. reflexivity.
  - destruct (build allLegs g) as [[generatedRosters g1]|] eqn:Hb.
    + pose proof (saveGenerated_spec generatedRosters (length allLegs) st
                    (built_are_generated _ (Hbuilt _ _ eq_refl))) as Hs.
      destruct (saveGenerated generatedRosters (length allLegs) st) as [outcome st'].
      destruct Hs as (Hu & Hp & Hm & Hnew & Hzero). simpl.
      split; [exact Hu|]. split; [exact Hp|]. split; [exact Hm|].
      split; [|split].
      * intros new g' Hn Hlen. injection Hn as <- <-. now apply Hnew.
      * intros legsFound Hd.
        destruct (Nat.eq_dec (length generatedRosters) 0%nat) as [H0|Hpos];
          [exact (proj2 (Hzero H0))|].
        specialize (Hnew ltac:(lia)).
        destruct (forallb validRoster (map castRoster generatedRosters)).
        -- destruct Hnew as [Ho _]. rewrite Ho in Hd. injection Hd as Hd _. lia.
        -- destruct Hnew as [Ho _]. rewrite Ho in Hd. discriminate.
      * intros Hnone. discriminate Hnone.
    + simpl. split; [reflexivity|]. split; [reflexivity|].
      split; [intros id r _; reflexivity|]. split; [|split].
      * intros new g' Hn. discriminate Hn.
      * intros legsFound _. reflexivity.
      * intros _. reflexivity.
Qed.

Lemma Tuned_generate_unfold (sheets : list Sheet) (g : Random) (st : Store) :
  Tuned.generateRostersFromGoogleSheet sheets g st
  = (let allLegs := Tuned.ingest sheets in
     if (length allLegs =? 0)%nat then (GenerationDone 0 (length allLegs), st)
     else match Tuned.buildRosters allLegs g with
          | None => (GenerationThrew, st)
          | Some (generatedRosters, _) => saveGenerated generatedRosters (length allLegs) st
          end).
Proof.
  unfold Tuned.generateRostersFromGoogleSheet.
  destruct sheets as [|s sheets]; reflexivity.
Qed.

Lemma ServerJs_generate_unfold (allLegs : list Leg.t) (g : Random) (st : Store) :
  ServerJs.generateRostersFromLegs allLegs g st
  = (if (length allLegs =? 0)%nat then (GenerationDone 0 (length allLegs), st)
     else match ServerJs.buildRosters allLegs g with
          | None => (GenerationThrew, st)
          | Some (generatedRosters, _) => saveGenerated generatedRosters (length allLegs) st
          end).
Proof.
  unfold ServerJs.generateRostersFromLegs.
  destruct allLegs; reflexivity.
Qed.

(** C8 as stated asks every run, also one that builds no roster, to replace
    the generated rosters by what it built.  Here the only route of the
    sheet leads nowhere: the run finds 1 leg and creates 0 rosters, and the
    generated roster of the store stays. *)
Lemma C8_nothing_built_nothing_replaced :
  let run := Tuned.generateRostersFromGoogleSheet [Scenario.deadEnd] Scenario.zeros
               Scenario.hangar in
  run.1 = GenerationDone 0 1
  /\ fst <$> Tuned.buildRosters (Tuned.ingest [Scenario.deadEnd]) Scenario.zeros = Some []
  /\ rosters run.2 !! 5%positive = Some Scenario.duty
  /\ ~ replacedBy (rosters Scenario.hangar) (rosters run.2) [].
Proof.
  assert (E : Tuned.generateRostersFromGoogleSheet [Scenario.deadEnd] Scenario.zeros
                Scenario.hangar = (GenerationDone 0 1, Scenario.hangar))
    by (vm_compute; reflexivity).
  cbv zeta. rewrite E. simpl.
  split; [reflexivity|]. split; [vm_compute; reflexivity|]. split; [reflexivity|].
  intros [_ [Hgen _]].
  assert (Hin : Scenario.duty ∈ @nil Roster.t).
  { apply Hgen. exists 5%positive. split; reflexivity. }
  inversion Hin.
Qed.

(** C8, amended.  In both revisions a generation run never touches users,
    reports or manual rosters (each manual roster stays under its id,
    unchanged, and none appears).  A run that builds at least one roster,
    all of which the roster schema accepts, leaves as generated rosters
    exactly the ones it built, as the schema casts them.  A run that
    creates no roster, or throws while building, leaves the store as it
    was.  A run that builds a roster the schema refuses (a leg shorter
    than 0.1 h, which the row filter lets through) has deleted the generated
    rosters when [insertMany] throws, and leaves none. *)
Theorem C8_generated_rosters_replaced_when_any_is_built
    (sheets : list Sheet) (allLegs : list Leg.t) (g : Random) (st : Store) :
  replacementContract Tuned.buildRosters (Tuned.ingest sheets) g st
    (Tuned.generateRostersFromGoogleSheet sheets g st)
  /\ replacementContract ServerJs.buildRosters allLegs g st
       (ServerJs.generateRostersFromLegs allLegs g st).
Proof.
  split.
  - rewrite Tuned_generate_unfold. apply generation_contract.
    + apply Tuned_buildRosters_built.
    + intros ->. reflexivity.
  - rewrite ServerJs_generate_unfold. apply generation_contract.
    + apply ServerJs_buildRosters_built.
    + intros ->. reflexivity.
Qed.

(** Two runs on a store with one generated and one manual roster: the
    sheet [routes] replaces the generated roster by six new ones; the sheet
    [shortHop], whose rosters contain a five-minute leg, deletes it and
    stores nothing.  The manual roster stays both times. *)
Lemma C8_generated_rosters_replaced_when_any_is_built_witness :
  let run := Tuned.generateRostersFromGoogleSheet [Scenario.routes] Scenario.zeros
               Scenario.hangar in
  let bad := Tuned.generateRostersFromGoogleSheet [Scenario.shortHop] Scenario.zeros
               Scenario.hangar in
  (run.1 = GenerationDone 6 2
   /\ generatedAre (rosters run.2) (map castRoster Scenario.generated)
   /\ rosters run.2 !! 6%positive = Some Scenario.manual
   /\ rosters run.2 !! 5%positive = None)
  /\ (bad.1 = GenerationThrew
      /\ rosters bad.2 = deleteGenerated (rosters Scenario.hangar)
      /\ rosters bad.2 !! 6%positive = Some Scenario.manual
      /\ rosters bad.2 !! 5%positive = None).
Proof.
  intros run bad. split.
  - destruct (C8_generated_rosters_replaced_when_any_is_built [Scenario.routes] []
                Scenario.zeros Scenario.hangar) as [(_ & _ & Hman & Hnew & _) _].
    assert (Hb : exists g', Tuned.buildRosters (Tuned.ingest [Scenario.routes]) Scenario.zeros
                            = Some (Scenario.generated, g'))
      by (eexists; vm_compute; reflexivity).
    destruct Hb as [g' Hb].
    specialize (Hnew Scenario.generated g' Hb ltac:(vm_compute; lia)).
    assert (Hv : forallb validRoster (map castRoster Scenario.generated) = true)
      by (vm_compute; reflexivity).
    rewrite Hv in Hnew. destruct Hnew as [Ho Hg].
    split; [exact Ho|]. split; [exact Hg|]. split.
    + apply Hman; reflexivity.
    + vm_compute. reflexivity.
  - destruct (C8_generated_rosters_replaced_when_any_is_built [Scenario.shortHop] []
                Scenario.zeros Scenario.hangar) as [(_ & _ & Hman & Hnew & _) _].
    assert (Hb : exists new g',
               Tuned.buildRosters (Tuned.ingest [Scenario.shortHop]) Scenario.zeros
               = Some (new, g')
               /\ (0 < length new)%nat
               /\ forallb validRoster (map castRoster new) = false).
    { eexists _, _. split; [vm_compute; reflexivity|]. split; [vm_compute; lia|].
      vm_compute. reflexivity. }
    destruct Hb as (new & g' & Hb & Hlen & Hv).
    specialize (Hnew new g' Hb Hlen). rewrite Hv in Hnew. destruct Hnew as [Ho Hd].
    split; [exact Ho|]. split; [exact Hd|]. split.
    + apply Hman; reflexivity.
    + fold bad in Hd. rewrite Hd. vm_compute. reflexivity.
Defined.

(** ** The builders return when the oracle is fair *)

Lemma Gen_bind_run {A B : Type} (m : Gen A) (f : A -> Gen B) (g : Random) (a : A) (g1 : Random) :
  m g = Some (a, g1) -> (m ≫= f) g = f a g1.
Proof. intros H. unfold mbind, Gen_bind. now rewrite H. Qed.

Lemma Math_random_run (g : Random) :
  Math_random g = Some (stream g (calls g), mkRandom (S (calls g)) (stream g)).
Proof. reflexivity. Qed.

Lemma fair_next (g : Random) : fair g -> fair (mkRandom (S (calls g)) (stream g)).
Proof. intros H n. exact (H n). Qed.

Lemma random_index_in_range (r : Q) (len : nat) :
  0 <= r -> r < 1 -> (0 < len)%nat ->
  (0 <= Js.floor (r * inject_Z (Z.of_nat len)) < Z.of_nat len)%Z.
Proof.
  intros H0 H1 Hlen. unfold Js.floor.
  assert (Hpos : 0 < inject_Z (Z.of_nat len)).
  { change (inject_Z 0 < inject_Z (Z.of_nat len)). rewrite <- Zlt_Qlt. lia. }
  split.
  - change 0%Z with (Qfloor 0). apply Qfloor_resp_le.
    apply Qmult_le_0_compat; [exact H0|]. now apply Qlt_le_weak.
  - rewrite Zlt_Qlt. eapply Qle_lt_trans; [apply Qfloor_le|].
    rewrite <- (Qmult_1_l (inject_Z (Z.of_nat len))) at 2.
    apply Qmult_lt_compat_r; assumption.
Qed.

Lemma pickLegs_returns (legsByDeparture : LegsByDeparture) (remaining : nat) :
  forall (d : Draft) (g : Random),
    fair g ->
    exists d' g', pickLegs legsByDeparture remaining d g = Some (d', g') /\ fair g'.
Proof.
  induction remaining as [|n IH]; intros d g Hfair; cbn [pickLegs].
  - exists d, g. split; [reflexivity|exact Hfair].
  - set (possibleNextLegs := filter _ _).
    destruct (length possibleNextLegs =? 0)%nat eqn:Hlen.
    + exists d, g. split; [reflexivity|exact Hfair].
    + apply Nat.eqb_neq in Hlen.
      rewrite (Gen_bind_run _ _ _ _ _ (Math_random_run g)).
      destruct (Hfair (calls g)) as [H0 H1].
      destruct (random_index_in_range _ (length possibleNextLegs) H0 H1 ltac:(lia))
        as [Hk0 Hk1].
      apply Z.ltb_ge in Hk0. rewrite Hk0.
      destruct (lookup_lt_is_Some_2 possibleNextLegs
                  (Z.to_nat (Js.floor (stream g (calls g)
                                       * inject_Z (Z.of_nat (length possibleNextLegs))))))
        as [nextLeg Hnext]; [apply Z.ltb_ge in Hk0; lia|].
      rewrite Hnext.
      destruct (Js.gtb _ MAX_DAILY_FLIGHT_HOURS).
      * eexists _, _. split; [reflexivity|]. now apply fair_next.
      * apply IH. now apply fair_next.
Qed.

Lemma buildDraft_returns (legsByDeparture : LegsByDeparture) (airport : string) (g : Random) :
  fair g ->
  exists d g', buildDraft legsByDeparture airport g = Some (d, g') /\ fair g'.
Proof.
  intros Hfair. unfold buildDraft.
  rewrite (Gen_bind_run _ _ _ _ _ (Math_random_run g)).
  apply pickLegs_returns. now apply fair_next.
Qed.

Lemma Tuned_rosterAttempt_returns (legsByDeparture : LegsByDeparture) (airport : string)
    (i : nat) (g : Random) :
  fair g ->
  exists r g', Tuned.rosterAttempt legsByDeparture airport i g = Some (r, g') /\ fair g'.
Proof.
  intros Hfair. unfold Tuned.rosterAttempt.
  destruct (buildDraft_returns legsByDeparture airport g Hfair) as (d & g1 & Hd & Hf1).
  rewrite (Gen_bind_run _ _ _ _ _ Hd).
  destruct (2 <=? length (rosterLegs d))%nat.
  - rewrite (Gen_bind_run _ _ _ _ _ (Math_random_run g1)).
    eexists _, _. split; [reflexivity|]. now apply fair_next.
  - eexists _, _. split; [reflexivity|exact Hf1].
Qed.

Lemma Tuned_attempts_returns (legsByDeparture : LegsByDeparture) (airport : string)
    (count : nat) :
  forall (i : nat) (g : Random),
    fair g ->
    exists rs g', Tuned.attempts legsByDeparture airport i count g = Some (rs, g') /\ fair g'.
Proof.
  induction count as [|n IH]; intros i g Hfair; cbn [Tuned.attempts].
  - exists [], g. split; [reflexivity|exact Hfair].
  - destruct (Tuned_rosterAttempt_returns legsByDeparture airport i g Hfair)
      as (r & g1 & Hr & Hf1).
    rewrite (Gen_bind_run _ _ _ _ _ Hr).
    destruct (IH (S i) g1 Hf1) as (rest & g2 & Hrest & Hf2).
    rewrite (Gen_bind_run _ _ _ _ _ Hrest).
    eexists _, _. split; [reflexivity|exact Hf2].
Qed.

Lemma Tuned_forAirports_returns (legsByDeparture : LegsByDeparture) (airports : list string) :
  forall g : Random,
    fair g ->
    exists rs g', Tuned.forAirports legsByDeparture airports g = Some (rs, g') /\ fair g'.
Proof.
  induction airports as [|a more IH]; intros g Hfair; cbn [Tuned.forAirports].
  - exists [], g. split; [reflexivity|exact Hfair].
  - destruct (Tuned_attempts_returns legsByDeparture a Tuned.rosterCountPerAirport 0 g Hfair)
      as (here & g1 & Hhere & Hf1).
    rewrite (Gen_bind_run _ _ _ _ _ Hhere).
    destruct (IH g1 Hf1) as (rest & g2 & Hrest & Hf2).
    rewrite (Gen_bind_run _ _ _ _ _ Hrest).
    eexists _, _. split; [reflexivity|exact Hf2].
Qed.

(** With values in [0, 1) the tuned builder returns a list of rosters for
    every leg pool. *)
Lemma Tuned_buildRosters_returns (allLegs : list Leg.t) (g : Random) :
  fair g -> exists rs g', Tuned.buildRosters allLegs g = Some (rs, g').
Proof.
  intros Hfair. unfold Tuned.buildRosters.
  destruct (Tuned_forAirports_returns (groupByDeparture allLegs)
              (map fst (groupByDeparture allLegs)) g Hfair) as (rs & g' & H & _).
  eauto.
Qed.

(** With values in [0, 1) the builder does not throw, so a run of the
    generator throws only when [insertMany] refuses a roster it built. *)
Lemma Tuned_generate_returns (sheets : list Sheet) (g : Random) (st : Store) :
  fair g ->
  (Tuned.generateRostersFromGoogleSheet sheets g st).1 = GenerationThrew ->
  exists rs g',
    Tuned.buildRosters (Tuned.ingest sheets) g = Some (rs, g')
    /\ forallb validRoster (map castRoster rs) = false.
Proof.
  intros Hfair. rewrite Tuned_generate_unfold. cbv zeta.
  destruct (length (Tuned.ingest sheets) =? 0)%nat; [discriminate|].
  destruct (Tuned_buildRosters_returns (Tuned.ingest sheets) g Hfair) as (rs & g' & Hb).
  rewrite Hb. unfold saveGenerated, insertMany.
  destruct (0 <? length rs)%nat; [|discriminate].
  destruct (forallb validRoster (map castRoster rs)) eqn:Hv; [discriminate|].
  intros _. eauto.
Qed.

(** ** Duration parsing (C9) *)

Lemma legOfRow_needs_duration (codeshare : bool) (columnMap : ColumnMap) (row : list string) :
  Tuned.convertTimeToDecimal (cell row columnMap ColFlightTime) = Js.NaN ->
  Tuned.legOfRow codeshare columnMap row = None.
Proof.
  intros H. unfold Tuned.legOfRow. rewrite H.
  destruct (codeshare && _); [reflexivity|].
  destruct (extractIcao _); [|reflexivity].
  destruct (extractIcao _); reflexivity.
Qed.

Lemma ServerJs_legOfRow_needs_positive (columnMap : ColumnMap) (row : list string) :
  isHours (ServerJs.convertTimeToDecimal (cell row columnMap ColFlightTime)) 0 ->
  ServerJs.legOfRow columnMap row = None.
Proof.
  intros H. unfold ServerJs.legOfRow.
  destruct (extractIcao _); [|reflexivity].
  destruct (extractIcao _); [|reflexivity].
  destruct (ServerJs.convertTimeToDecimal _) as [|ft]; [reflexivity|].
  simpl in H.
  assert (Hft : Js.gtb ft 0 = false) by (apply gtb_false_iff; rewrite H; apply Qle_refl).
  rewrite Hft, andb_false_r. reflexivity.
Qed.

(** C9.  Of the two revisions the claim cites, the tuned one does what it
    says: ["1:30"] is 1.5 hours, ["2h 15m"] is 2.25 hours, the bare number
    ["90"] is [NaN], and a row whose duration cell is ["90"] yields no leg,
    whatever the sheet kind and the other cells.  The parser of
    src/server.js has no colon format and starts from zero: ["1:30"] is
    0 hours, not 1.5, and ["90"] is 0 hours, not [NaN]; its row filter
    ([flightTime > 0]) then drops both rows, the one in colon format
    included. *)
Theorem C9_duration_parser :
  (isHours (Tuned.convertTimeToDecimal (Some "1:30")) 1.5
   /\ isHours (Tuned.convertTimeToDecimal (Some "2h 15m")) 2.25
   /\ Tuned.convertTimeToDecimal (Some "90") = Js.NaN
   /\ forall (codeshare : bool) (columnMap : ColumnMap) (row : list string),
        cell row columnMap ColFlightTime = Some "90" ->
        Tuned.legOfRow codeshare columnMap row = None)
  /\ (isHours (ServerJs.convertTimeToDecimal (Some "1:30")) 0
      /\ isHours (ServerJs.convertTimeToDecimal (Some "2h 15m")) 2.25
      /\ isHours (ServerJs.convertTimeToDecimal (Some "90")) 0
      /\ ServerJs.convertTimeToDecimal (Some "90") <> Js.NaN
      /\ forall (columnMap : ColumnMap) (row : list string),
           cell row columnMap ColFlightTime = Some "1:30"
           \/ cell row columnMap ColFlightTime = Some "90" ->
           ServerJs.legOfRow columnMap row = None).
Proof.
  split.
  - split; [vm_compute; reflexivity|].
    split; [vm_compute; reflexivity|].
    split; [vm_compute; reflexivity|].
    intros codeshare columnMap row H.
    apply legOfRow_needs_duration. now rewrite H.
  - split; [vm_compute; reflexivity|].
    split; [vm_compute; reflexivity|].
    split; [vm_compute; reflexivity|].
    split; [vm_compute; discriminate|].
    intros columnMap row [H|H]; apply ServerJs_legOfRow_needs_positive; rewrite H;
      vm_compute; reflexivity.
Qed.

Lemma C9_duration_parser_witness :
  let colonRow := ["6E101"; "VIDP"; "VABB"; "A320"; "1:30"] in
  cell Scenario.bareRow Scenario.columns ColFlightTime = Some "90"
  /\ Tuned.legOfRow false Scenario.columns Scenario.bareRow = None
  /\ cell colonRow Scenario.columns ColFlightTime = Some "1:30"
  /\ ServerJs.legOfRow Scenario.columns colonRow = None
  /\ is_Some (Tuned.legOfRow false Scenario.columns colonRow).
Proof.
  intros colonRow.
  destruct C9_duration_parser as [(_ & _ & _ & Htuned) (_ & _ & _ & _ & Hserver)].
  split; [reflexivity|].
  split; [exact (Htuned false Scenario.columns Scenario.bareRow eq_refl)|].
  split; [reflexivity|].
  split; [exact (Hserver Scenario.columns colonRow (or_introl eq_refl))|].
  vm_compute. eauto.
Defined.

(** ** Rank gating (C10) *)

Lemma unknown_is_no_tier : Tuned.rankIndex "Unknown" = (-1)%Z.
Proof. reflexivity. Qed.

Lemma canFlyLeg_unknown (r : string) : Tuned.canFlyLeg r "Unknown" = false.
Proof.
  unfold Tuned.canFlyLeg. rewrite unknown_is_no_tier.
  now rewrite andb_false_r.
Qed.

Lemma deduceRank_unmatched (ac : string) :
  (forall pats, pats ∈ Tuned.aircraftPatterns -> Js.testAnyIgnoreCase pats ac = false) ->
  Tuned.deduceRankFromAircraft (Some ac) = "Unknown".
Proof.
  intros H.
  assert (Hup : forall pats, pats ∈ Tuned.aircraftPatterns ->
                 Js.testAnyIgnoreCase pats (Js.toUpperCase ac) = false).
  { intros pats Hin. specialize (H pats Hin).
    unfold Js.testAnyIgnoreCase in *. now rewrite toUpperCase_idem. }
  unfold Tuned.deduceRankFromAircraft. simpl default.
  destruct (String.eqb (Js.toUpperCase ac) ""); [reflexivity|].
  cbv zeta.
  repeat (rewrite Hup by (apply list_elem_of_In; simpl; tauto)).
  reflexivity.
Qed.

Lemma requiredRank_unknown (leg : Leg.t) :
  (forall t, Leg.rankUnlock leg = Some t -> Js.arrayIncludes Tuned.pilotRanks t = false) ->
  (forall pats, pats ∈ Tuned.aircraftPatterns ->
                Js.testAnyIgnoreCase pats (Leg.aircraft leg) = false) ->
  Tuned.getLegRequiredRank leg = "Unknown".
Proof.
  intros Htag Hac. unfold Tuned.getLegRequiredRank.
  destruct (Leg.rankUnlock leg) as [t|] eqn:E.
  - rewrite (Htag t eq_refl), andb_false_r. now apply deduceRank_unmatched.
  - now apply deduceRank_unmatched.
Qed.

Lemma find_some_of_elem {A : Type} (f : A -> bool) (l : list A) (x : A) :
  x ∈ l -> f x = true -> exists y, List.find f l = Some y.
Proof.
  intros Hin Hf. induction Hin as [x l|x y l _ IH]; simpl.
  - rewrite Hf. eauto.
  - destruct (f y); eauto.
Qed.

(** C10.  A leg whose rank tag is no tier and whose aircraft matches no
    pattern of the table requires ["Unknown"]; no pilot rank can fly it,
    and start-duty on any roster that holds such a leg is denied for every
    pilot, leaving the store as it was. *)
Theorem C10_unknown_rank_blocks_everyone (r : string) (leg : Leg.t) :
  (forall t, Leg.rankUnlock leg = Some t -> Js.arrayIncludes Tuned.pilotRanks t = false) ->
  (forall pats, pats ∈ Tuned.aircraftPatterns ->
                Js.testAnyIgnoreCase pats (Leg.aircraft leg) = false) ->
  Tuned.getLegRequiredRank leg = "Unknown"
  /\ Tuned.canFlyLeg r (Tuned.getLegRequiredRank leg) = false
  /\ forall (userId rosterId : Id) (now oneMonthAgo : Z) (st : Store) (roster : Roster.t),
       rosters st !! rosterId = Some roster ->
       leg ∈ Roster.legs roster ->
       accepted (Tuned.startDuty userId rosterId now oneMonthAgo st).1 = false
       /\ (Tuned.startDuty userId rosterId now oneMonthAgo st).2 = st.
Proof.
  intros Htag Hac.
  pose proof (requiredRank_unknown leg Htag Hac) as Hreq.
  split; [exact Hreq|].
  split; [rewrite Hreq; apply canFlyLeg_unknown|].
  intros userId rosterId now oneMonthAgo st roster Hr Hin.
  unfold Tuned.startDuty. rewrite Hr.
  destruct (users st !! userId) as [user|]; [|split; reflexivity].
  case_bool_decide; [split; reflexivity|].
  destruct (restDenial user now) as [d|] eqn:Hrest.
  { unfold restDenial in Hrest.
    destruct (User.lastDutyOff user); [|discriminate].
    destruct (_ <? _)%Z; [|discriminate].
    injection Hrest as <-. split; reflexivity. }
  destruct (quotaDenial _ roster) as [d|] eqn:Hq.
  { unfold quotaDenial in Hq.
    destruct (Js.gtb _ MAX_MONTHLY_FLIGHT_HOURS); [injection Hq as <-; split; reflexivity|].
    destruct (Js.gtb _ MAX_DAILY_FLIGHT_HOURS); [injection Hq as <-; split; reflexivity|].
    discriminate. }
  destruct (find_some_of_elem
              (fun l => negb (Tuned.canFlyLeg (User.rank (monthlyReset user now oneMonthAgo))
                                              (Tuned.getLegRequiredRank l)))
              (Roster.legs roster) leg Hin) as [y Hy].
  { rewrite Hreq, canFlyLeg_unknown. reflexivity. }
  rewrite Hy. split; reflexivity.
Qed.

Lemma C10_unknown_rank_blocks_everyone_witness :
  Tuned.canFlyLeg "Blue Legacy Commander" (Tuned.getLegRequiredRank Scenario.oddLeg) = false
  /\ accepted (Tuned.startDuty 1%positive 5%positive 0%Z 0%Z
                 (mkStore {[1%positive := Scenario.senior]}
                          {[5%positive := Scenario.oddDuty]} ∅)).1 = false.
Proof.
  assert (Htag : forall t, Leg.rankUnlock Scenario.oddLeg = Some t ->
                           Js.arrayIncludes Tuned.pilotRanks t = false)
    by (intros t Ht; discriminate Ht).
  assert (Hac : forall pats, pats ∈ Tuned.aircraftPatterns ->
                  Js.testAnyIgnoreCase pats (Leg.aircraft Scenario.oddLeg) = false).
  { intros pats Hin. apply list_elem_of_In in Hin.
    repeat (destruct Hin as [<-|Hin]; [vm_compute; reflexivity|]).
    destruct Hin. }
  destruct (C10_unknown_rank_blocks_everyone "Blue Legacy Commander" Scenario.oddLeg Htag Hac)
    as (Hreq & Hfly & Hstart).
  split; [exact Hfly|].
  assert (Hin : Scenario.oddLeg ∈ Roster.legs Scenario.oddDuty)
    by (unfold Scenario.oddDuty; simpl; apply list_elem_of_here).
  exact (proj1 (Hstart 1%positive 5%positive 0%Z 0%Z
                  (mkStore {[1%positive := Scenario.senior]}
                           {[5%positive := Scenario.oddDuty]} ∅)
                  Scenario.oddDuty eq_refl Hin)).
Defined.

(** * Further properties of the code *)

(** ** Sheet reader (src/unnamed/part_001) *)

Lemma extractIcao_some (text code : string) :
  extractIcao (Some text) = Some code ->
  isIcao code = true /\ Js.startsWith code (Js.trimStart text) = true.
Proof.
  unfold extractIcao, Js.matchIcao.
  destruct (String.eqb text ""); [discriminate|].
  destruct (Js.trimStart text) as [|a [|b [|c [|d rest]]]]; try discriminate.
  destruct (Js.isUpper a && Js.isUpper b && Js.isUpper c && Js.isUpper d) eqn:E;
    [|discriminate].
  intros H. injection H as <-. split; [exact E|].
  simpl. rewrite !Ascii.eqb_refl. reflexivity.
Qed.

(** X1.  [extractIcao] answers nothing for a missing or empty cell; what it
    answers is four capital letters, and they are the first four code
    units of the cell after its leading blanks. *)
Theorem extractIcao_shape (text code : string) :
  extractIcao None = None
  /\ extractIcao (Some "") = None
  /\ (extractIcao (Some text) = Some code ->
      isIcao code = true /\ Js.startsWith code (Js.trimStart text) = true).
Proof.
  split; [reflexivity|]. split; [reflexivity|].
  apply extractIcao_some.
Qed.

Lemma extractIcao_shape_witness :
  extractIcao (Some "  VIDP Delhi") = Some "VIDP"
  /\ isIcao "VIDP" = true.
Proof.
  split; [reflexivity|].
  exact (proj1 (proj2 (proj2 (extractIcao_shape "  VIDP Delhi" "VIDP")) eq_refl)).
Defined.

Lemma truthy_nonempty (s : option string) :
  truthy s = true -> default "" s <> "".
Proof.
  destruct s as [s|]; simpl; [|discriminate].
  intros H E. subst s. discriminate H.
Qed.

Lemma legOfRow_ok (codeshare : bool) (columnMap : ColumnMap) (row : list string) (l : Leg.t) :
  Tuned.legOfRow codeshare columnMap row = Some l -> ingestedOk l.
Proof.
  unfold Tuned.legOfRow.
  destruct (codeshare && _); [discriminate|].
  destruct (extractIcao (cell row columnMap ColDeparture)) as [dep|] eqn:Hdep; [|discriminate].
  destruct (extractIcao (cell row columnMap ColArrival)) as [arr|] eqn:Harr;
    [|discriminate].
  destruct (Tuned.convertTimeToDecimal _) as [|ft]; [discriminate|].
  destruct (truthy (Js.trim <$> cell row columnMap ColFlightNumber)) eqn:Hfn;
    [|discriminate].
  destruct (truthy (Js.trim <$> cell row columnMap ColAircraft)) eqn:Hac; [|discriminate].
  destruct (Js.gtb ft 0) eqn:Hft; [|discriminate].
  simpl andb.
  match goal with |- context [truthy ?r && truthy ?o] =>
    destruct (truthy r) eqn:Hr; [|discriminate];
    destruct (truthy o) eqn:Ho; [|discriminate] end.
  intros H. injection H as <-. unfold ingestedOk. simpl.
  assert (Hicao : forall t c, extractIcao t = Some c -> isIcao c = true).
  { intros [t|] c Hc; [|discriminate]. exact (proj1 (extractIcao_some t c Hc)). }
  split; [now apply gtb_true_lt|].
  split; [now apply truthy_nonempty|].
  split; [now apply truthy_nonempty|].
  split; [exact (Hicao _ _ Hdep)|].
  split; [exact (Hicao _ _ Harr)|].
  split; assumption.
Qed.

Lemma ingest_origin (sheets : list Sheet) (l : Leg.t) :
  l ∈ Tuned.ingest sheets ->
  exists sheet columnMap row,
    sheet ∈ sheets /\ Tuned.legOfRow (isCodeshare sheet) columnMap row = Some l.
Proof.
  unfold Tuned.ingest. intros H. apply list_elem_of_In, in_concat in H.
  destruct H as (ls & Hls & Hl). apply in_map_iff in Hls.
  destruct Hls as (sheet & <- & Hsheet).
  exists sheet. unfold Tuned.legsFromSheet in Hl.
  destruct (rows sheet) as [allRows|]; [|destruct Hl].
  destruct (Tuned.findHeaderRow _ allRows 0) as [[i m]|]; [|destruct Hl].
  apply list_elem_of_In, list_elem_of_omap in Hl. destruct Hl as (row & _ & Hrow).
  exists m, row. split; [now apply list_elem_of_In|exact Hrow].
Qed.

(** X2.  Every leg the reader hands to the synthesizer, from whatever
    sheets, has a flight time above zero, a non-empty flight number and
    aircraft, four-capital-letter departure and arrival codes, and a
    non-empty rank tag and operator.  The flight time need not be a
    sensible one: the reader sets no upper bound, and the [Infinity] of an
    overlong run of digits (a large integer here, see [Js.number]) is above
    zero as well. *)
Theorem ingested_legs_are_valid (sheets : list Sheet) (l : Leg.t) :
  l ∈ Tuned.ingest sheets -> ingestedOk l.
Proof.
  intros H. destruct (ingest_origin sheets l H) as (sheet & m & row & _ & Hrow).
  exact (legOfRow_ok _ _ _ _ Hrow).
Qed.

Lemma ingested_legs_are_valid_witness :
  let l := Leg.mk "6E101" "VIDP" "VABB" "A320" (120 # 60)
                  (Some "IndGo Cadet") (Some "IndGo Air Virtual") in
  l ∈ Tuned.ingest [Scenario.deadEnd] /\ ingestedOk l.
Proof.
  intros l.
  assert (Hin : l ∈ Tuned.ingest [Scenario.deadEnd]) by (vm_compute; apply list_elem_of_here).
  split; [exact Hin|].
  exact (ingested_legs_are_valid [Scenario.deadEnd] l Hin).
Defined.

Lemma ingest_app (a b : list Sheet) :
  Tuned.ingest (a ++ b) = Tuned.ingest a ++ Tuned.ingest b.
Proof. unfold Tuned.ingest. now rewrite map_app, concat_app. Qed.

(** X3.  Sources are isolated: the legs of a list of sheets are the legs of
    each sheet in order, and a sheet whose fetch threw or that has no
    header row adds nothing and takes nothing away from the others. *)
Theorem unusable_sheet_is_skipped (before after : list Sheet) (sheet : Sheet) :
  unusable sheet ->
  Tuned.ingest (before ++ sheet :: after) = Tuned.ingest before ++ Tuned.ingest after.
Proof.
  intros Hbad. rewrite ingest_app. f_equal.
  change (sheet :: after) with ([sheet] ++ after). rewrite ingest_app.
  assert (E : Tuned.ingest [sheet] = []); [|now rewrite E].
  unfold Tuned.ingest, Tuned.legsFromSheet. simpl.
  destruct Hbad as [->|(allRows & -> & Hnone)]; [reflexivity|].
  destruct (isCodeshare sheet); rewrite Hnone; reflexivity.
Qed.

Lemma unusable_sheet_is_skipped_witness :
  Tuned.ingest ([Scenario.routes] ++ mkSheet true None :: [Scenario.deadEnd])
  = Tuned.ingest [Scenario.routes] ++ Tuned.ingest [Scenario.deadEnd].
Proof.
  apply (unusable_sheet_is_skipped [Scenario.routes] [Scenario.deadEnd] (mkSheet true None)).
  left. reflexivity.
Defined.

Lemma findHeaderRow_shift (headerAliases : list (Column * list string))
    (allRows : list (list string)) (i : nat) :
  Tuned.findHeaderRow headerAliases allRows i
  = (fun '(j, m) => ((j + i)%nat, m)) <$> Tuned.findHeaderRow headerAliases allRows 0.
Proof.
  revert i. induction allRows as [|row later IH]; intros i; simpl; [reflexivity|].
  destruct (_ =? _)%nat; [reflexivity|].
  rewrite (IH (S i)), (IH 1%nat).
  destruct (Tuned.findHeaderRow headerAliases later 0) as [[j m]|]; simpl; [|reflexivity].
  do 2 f_equal. lia.
Qed.

(** X4.  Rows above the header row (titles, notes) are ignored: putting
    rows that do not qualify as a header in front of a sheet changes
    nothing in the legs read from it. *)
Theorem rows_above_header_are_ignored (codeshare : bool) (junk rest : list (list string)) :
  Forall (notHeader (if codeshare then Tuned.headerAliasesCodeshare
                     else Tuned.headerAliasesBase)) junk ->
  Tuned.legsFromSheet (mkSheet codeshare (Some (junk ++ rest)))
  = Tuned.legsFromSheet (mkSheet codeshare (Some rest)).
Proof.
  intros Hjunk. unfold Tuned.legsFromSheet. simpl.
  set (aliases := if codeshare then _ else _) in *.
  induction Hjunk as [|row junk Hrow Hjunk IH]; [reflexivity|].
  rewrite <- IH. simpl.
  unfold notHeader in Hrow. apply Nat.eqb_neq in Hrow. rewrite Hrow.
  rewrite (findHeaderRow_shift aliases (junk ++ rest) 1).
  destruct (Tuned.findHeaderRow aliases (junk ++ rest) 0) as [[j m]|]; simpl; [|reflexivity].
  replace (j + 1)%nat with (S j) by lia. reflexivity.
Qed.

Lemma rows_above_header_are_ignored_witness :
  Tuned.legsFromSheet
    (mkSheet false (Some ([["Winter schedule"]; ["updated"; "weekly"]]
                          ++ default [] (rows Scenario.deadEnd))))
  = Tuned.legsFromSheet Scenario.deadEnd.
Proof.
  apply (rows_above_header_are_ignored false [["Winter schedule"]; ["updated"; "weekly"]]).
  repeat constructor; vm_compute; discriminate.
Defined.

Lemma column_setColumn (m : ColumnMap) (k k' : Column) (i : nat) :
  column (setColumn m k i) k' = if decide (k = k') then Some i else column m k'.
Proof.
  induction m as [|[k0 j] rest IH]; simpl.
  - destruct (decide (k = k')); reflexivity.
  - destruct (decide (k0 = k)) as [->|Hne]; simpl.
    + destruct (decide (k = k')); reflexivity.
    + rewrite IH. destruct (decide (k0 = k')) as [->|Hne'].
      * destruct (decide (k = k')); [congruence|reflexivity].
      * reflexivity.
Qed.

Lemma column_is_Some (m : ColumnMap) (k : Column) :
  is_Some (column m k) <-> k ∈ m.*1.
Proof.
  induction m as [|[k0 j] rest IH]; simpl.
  - split; [intros [x Hx]; discriminate|intros H; inversion H].
  - destruct (decide (k0 = k)) as [->|Hne].
    + split; [intros _; apply list_elem_of_here|eauto].
    + rewrite IH. rewrite elem_of_cons. split; [tauto|intros [E|H]; [congruence|exact H]].
Qed.

Lemma setColumn_keys (m : ColumnMap) (k k' : Column) (i : nat) :
  k' ∈ (setColumn m k i).*1 <-> k' = k \/ k' ∈ m.*1.
Proof.
  rewrite <- !column_is_Some, column_setColumn.
  destruct (decide (k = k')) as [->|Hne].
  - split; [left; reflexivity|eauto].
  - split; [tauto|intros [E|H]; [congruence|exact H]].
Qed.

Lemma setColumn_length (m : ColumnMap) (k : Column) (i : nat) :
  length (setColumn m k i) = if decide (k ∈ m.*1) then length m else S (length m).
Proof.
  induction m as [|[k0 j] rest IH]; simpl.
  - destruct (decide (k ∈ [])) as [H|_]; [inversion H|reflexivity].
  - destruct (decide (k0 = k)) as [->|Hne]; simpl.
    + rewrite decide_True by apply list_elem_of_here. reflexivity.
    + rewrite IH. destruct (decide (k ∈ rest.*1)) as [Hin|Hout].
      * rewrite decide_True by (now apply list_elem_of_further). reflexivity.
      * rewrite decide_False; [reflexivity|].
        rewrite elem_of_cons. intros [E|H]; [congruence|contradiction].
Qed.

Lemma setColumn_NoDup (m : ColumnMap) (k : Column) (i : nat) :
  NoDup m.*1 -> NoDup (setColumn m k i).*1.
Proof.
  induction m as [|[k0 j] rest IH]; simpl; intros Hnd.
  - apply NoDup_singleton.
  - apply NoDup_cons in Hnd. destruct Hnd as [Hk0 Hnd].
    destruct (decide (k0 = k)) as [->|Hne]; simpl.
    + apply NoDup_cons. split; assumption.
    + apply NoDup_cons. split; [|now apply IH].
      rewrite setColumn_keys. intros [E|H]; [congruence|contradiction].
Qed.

Lemma keyOfHeader_key (headerAliases : list (Column * list string)) (h : string) (k : Column) :
  Tuned.keyOfHeader headerAliases h = Some k -> k ∈ headerAliases.*1.
Proof.
  induction headerAliases as [|[k0 al] rest IH]; simpl; [discriminate|].
  destruct (existsb _ al).
  - intros H. injection H as <-. apply list_elem_of_here.
  - intros H. apply list_elem_of_further, IH, H.
Qed.

Lemma mapHeaderCells_keys (headerAliases : list (Column * list string)) (cells : list string) :
  forall (index : nat) (tempMap : ColumnMap),
    NoDup tempMap.*1 ->
    (forall k, k ∈ tempMap.*1 -> k ∈ headerAliases.*1) ->
    let m := Tuned.mapHeaderCells headerAliases cells index tempMap in
    NoDup m.*1 /\ (forall k, k ∈ m.*1 -> k ∈ headerAliases.*1).
Proof.
  induction cells as [|c more IH]; intros index tempMap Hnd Hsub; simpl; [split; assumption|].
  apply IH.
  - destruct (String.eqb _ ""); [exact Hnd|].
    destruct (Tuned.keyOfHeader headerAliases _); [now apply setColumn_NoDup|exact Hnd].
  - destruct (String.eqb _ ""); [exact Hsub|].
    destruct (Tuned.keyOfHeader headerAliases _) as [key|] eqn:E; [|exact Hsub].
    intros k Hk. apply setColumn_keys in Hk. destruct Hk as [->|Hk]; [|now apply Hsub].
    exact (keyOfHeader_key _ _ _ E).
Qed.

Lemma findHeaderRow_first (headerAliases : list (Column * list string))
    (allRows : list (list string)) :
  forall (start i : nat) (m : ColumnMap),
    Tuned.findHeaderRow headerAliases allRows start = Some (i, m) ->
    exists (k : nat) (row : list string),
      i = (start + k)%nat
      /\ allRows !! k = Some row
      /\ m = Tuned.mapHeaderCells headerAliases row 0 []
      /\ length m = length headerAliases
      /\ Forall (notHeader headerAliases) (take k allRows).
Proof.
  induction allRows as [|row later IH]; intros start i m H; simpl in H; [discriminate|].
  destruct (_ =? _)%nat eqn:E.
  - injection H as <- <-. exists 0%nat, row. apply Nat.eqb_eq in E.
    split; [lia|]. split; [reflexivity|]. split; [reflexivity|]. split; [exact E|constructor].
  - destruct (IH _ _ _ H) as (k & r & -> & Hk & Hm & Hlen & Hjunk).
    exists (S k), r. split; [lia|]. split; [exact Hk|]. split; [exact Hm|].
    split; [exact Hlen|]. simpl. constructor; [|exact Hjunk].
    unfold notHeader. now apply Nat.eqb_neq.
Qed.

Lemma mapHeaderCells_indices (headerAliases : list (Column * list string))
    (cells : list string) :
  forall (index : nat) (tempMap : ColumnMap),
    (forall k j, column tempMap k = Some j -> (j < index)%nat) ->
    forall k j,
      column (Tuned.mapHeaderCells headerAliases cells index tempMap) k = Some j ->
      (j < index + length cells)%nat.
Proof.
  induction cells as [|c more IH]; intros index tempMap Hlt k j; simpl.
  - intros H. apply Hlt in H. lia.
  - intros H. apply IH in H; [lia|].
    intros k' j' H'.
    destruct (String.eqb _ ""); [apply Hlt in H'; lia|].
    destruct (Tuned.keyOfHeader headerAliases _) as [key|]; [|apply Hlt in H'; lia].
    rewrite column_setColumn in H'.
    destruct (decide (key = k')); [injection H' as <-; lia|apply Hlt in H'; lia].
Qed.

Lemma findHeaderRow_columns (headerAliases : list (Column * list string))
    (allRows : list (list string)) (i : nat) (m : ColumnMap) :
  Tuned.findHeaderRow headerAliases allRows 0 = Some (i, m) ->
  (exists row,
      allRows !! i = Some row
      /\ m = Tuned.mapHeaderCells headerAliases row 0 []
      /\ forall k j, column m k = Some j -> (j < length row)%nat)
  /\ Forall (notHeader headerAliases) (take i allRows)
  /\ NoDup m.*1
  /\ (forall k, is_Some (column m k) <-> k ∈ headerAliases.*1).
Proof.
  intros H.
  destruct (findHeaderRow_first headerAliases allRows 0 i m H)
    as (k & row & -> & Hrow & Hm & Hlen & Hjunk).
  simpl.
  destruct (mapHeaderCells_keys headerAliases row 0 []) as [Hnd Hsub];
    [constructor|intros x Hx; inversion Hx|].
  rewrite <- Hm in Hnd, Hsub.
  split.
  { exists row. split; [exact Hrow|]. split; [exact Hm|].
    intros key j Hj. rewrite Hm in Hj.
    apply (mapHeaderCells_indices headerAliases row 0 []) in Hj; [exact Hj|].
    intros k' j' H'. discriminate H'. }
  split; [exact Hjunk|]. split; [exact Hnd|].
  intros key. rewrite column_is_Some.
  split; [apply Hsub|].
  assert (Hperm : m.*1 ≡ₚ headerAliases.*1).
  { apply submseteq_length_Permutation.
    - now apply NoDup_submseteq.
    - rewrite !length_fmap. lia. }
  intros Hin. now rewrite Hperm.
Qed.

(** X5.  The header row the reader settles on is the first row of the
    sheet that names every canonical column of the alias table.  Its
    column map holds each canonical key once, with an index inside that
    row, and holds no other key: flight number, departure, arrival,
    aircraft and flight time on every sheet, rank unlock and operator on a
    codeshare sheet and only there. *)
Theorem header_row_maps_every_column (codeshare : bool) (allRows : list (list string))
    (i : nat) (m : ColumnMap) :
  let headerAliases :=
    if codeshare then Tuned.headerAliasesCodeshare else Tuned.headerAliasesBase in
  Tuned.findHeaderRow headerAliases allRows 0 = Some (i, m) ->
  (exists row,
      allRows !! i = Some row
      /\ m = Tuned.mapHeaderCells headerAliases row 0 []
      /\ forall k j, column m k = Some j -> (j < length row)%nat)
  /\ Forall (notHeader headerAliases) (take i allRows)
  /\ NoDup m.*1
  /\ (forall k, is_Some (column m k) <-> k ∈ headerAliases.*1)
  /\ (forall k, is_Some (column m k) <->
                if codeshare then True else k <> ColRankUnlock /\ k <> ColOperator).
Proof.
  intros headerAliases H.
  destruct (findHeaderRow_columns headerAliases allRows i m H)
    as (Hrow & Hjunk & Hnd & Hcols).
  split; [exact Hrow|]. split; [exact Hjunk|]. split; [exact Hnd|].
  split; [exact Hcols|].
  intros k. rewrite Hcols. subst headerAliases.
  destruct codeshare.
  - split; [trivial|]. intros _. apply list_elem_of_In.
    destruct k; vm_compute; tauto.
  - split.
    + intros Hin. apply list_elem_of_In in Hin. vm_compute in Hin.
      split; intros ->; repeat (destruct Hin as [Hin|Hin]; [discriminate Hin|]);
        destruct Hin.
    + intros [Hr Ho]. apply list_elem_of_In.
      destruct k; vm_compute; tauto.
Qed.

Lemma header_row_maps_every_column_witness :
  exists m,
    Tuned.findHeaderRow Tuned.headerAliasesBase (default [] (rows Scenario.routes)) 0
    = Some (1%nat, m)
    /\ is_Some (column m ColFlightTime)
    /\ column m ColRankUnlock = None
    /\ NoDup m.*1.
Proof.
  eexists. split; [vm_compute; reflexivity|].
  match goal with |- is_Some (column ?m _) /\ _ =>
    destruct (header_row_maps_every_column false (default [] (rows Scenario.routes)) 1 m
                ltac:(vm_compute; reflexivity)) as (_ & _ & Hnd & _ & Hcols)
  end.
  split; [|split; [reflexivity|exact Hnd]].
  apply Hcols. split; discriminate.
Defined.

(** X6.  On a primary sheet the operator and the rank tag of every leg are
    the defaults: the operator is "IndGo Air Virtual" and the rank tag is
    the rank deduced from the leg's aircraft, "Unknown" included. *)
Theorem primary_legs_get_defaults (allRows : list (list string)) (l : Leg.t) :
  l ∈ Tuned.legsFromSheet (mkSheet false (Some allRows)) ->
  Leg.operator l = Some "IndGo Air Virtual"
  /\ Leg.rankUnlock l = Some (Tuned.deduceRankFromAircraft (Some (Leg.aircraft l))).
Proof.
  unfold Tuned.legsFromSheet. simpl.
  destruct (Tuned.findHeaderRow Tuned.headerAliasesBase allRows 0) as [[i m]|] eqn:Hh;
    [|intros H; inversion H].
  destruct (findHeaderRow_columns Tuned.headerAliasesBase allRows i m Hh)
    as (_ & _ & _ & Hcols).
  assert (Hrank : column m ColRankUnlock = None).
  { destruct (column m ColRankUnlock) eqn:E; [|reflexivity].
    assert (Hin : ColRankUnlock ∈ Tuned.headerAliasesBase.*1) by (apply Hcols; eauto).
    vm_compute in Hin. apply list_elem_of_In in Hin. simpl in Hin.
    repeat (destruct Hin as [Hin|Hin]; [discriminate Hin|]). destruct Hin. }
  assert (Hop : column m ColOperator = None).
  { destruct (column m ColOperator) eqn:E; [|reflexivity].
    assert (Hin : ColOperator ∈ Tuned.headerAliasesBase.*1) by (apply Hcols; eauto).
    vm_compute in Hin. apply list_elem_of_In in Hin. simpl in Hin.
    repeat (destruct Hin as [Hin|Hin]; [discriminate Hin|]). destruct Hin. }
  intros H. apply list_elem_of_omap in H. destruct H as (row & _ & Hrow).
  unfold Tuned.legOfRow in Hrow. rewrite Hrank, Hop in Hrow. simpl in Hrow.
  destruct (extractIcao (cell row m ColDeparture)); [|discriminate].
  destruct (extractIcao (cell row m ColArrival)); [|discriminate].
  destruct (Tuned.convertTimeToDecimal _); [discriminate|].
  destruct (truthy (Js.trim <$> cell row m ColFlightNumber) && _ && _ && _ && _);
    [|discriminate].
  injection Hrow as <-. simpl. split; [reflexivity|].
  destruct (cell row m ColAircraft); reflexivity.
Qed.

Lemma primary_legs_get_defaults_witness :
  let l := Leg.mk "6E101" "VIDP" "VABB" "A320" (120 # 60)
                  (Some "IndGo Cadet") (Some "IndGo Air Virtual") in
  l ∈ Tuned.legsFromSheet Scenario.deadEnd
  /\ Leg.rankUnlock l = Some (Tuned.deduceRankFromAircraft (Some "A320")).
Proof.
  intros l.
  assert (Hin : l ∈ Tuned.legsFromSheet Scenario.deadEnd)
    by (vm_compute; apply list_elem_of_here).
  split; [exact Hin|].
  exact (proj2 (primary_legs_get_defaults _ l Hin)).
Defined.

(** ** Duration parser (src/unnamed/part_001) *)

Lemma occurs_append (c : ascii) (a b : string) :
  occurs c (a ++ b)%string = occurs c a || occurs c b.
Proof.
  induction a as [|x a IH]; simpl; [reflexivity|].
  now rewrite IH, orb_assoc.
Qed.

Lemma includes_char (s : string) (c : ascii) :
  Js.includes s (String c EmptyString) = occurs c s.
Proof.
  induction s as [|x s IH]; simpl; [reflexivity|].
  rewrite IH, andb_true_r, (Ascii.eqb_sym c x). reflexivity.
Qed.

Lemma trimStart_occurs (c : ascii) (s : string) :
  occurs c (Js.trimStart s) = true -> occurs c s = true.
Proof.
  induction s as [|x s IH]; simpl; [discriminate|].
  destruct (Js.isWhiteSpace x); [|exact (fun H => H)].
  intros H. rewrite (IH H). apply orb_true_r.
Qed.

Lemma trimEnd_occurs (c : ascii) (s : string) :
  occurs c (Js.trimEnd s) = true -> occurs c s = true.
Proof.
  induction s as [|x s IH]; simpl; [discriminate|].
  destruct (Js.trimEnd s) as [|y t].
  - destruct (Js.isWhiteSpace x); simpl; [discriminate|].
    rewrite orb_false_r. intros ->. reflexivity.
  - simpl. intros H. apply orb_true_iff in H. destruct H as [->|H]; [reflexivity|].
    rewrite IH; [apply orb_true_r|exact H].
Qed.

Lemma trim_occurs (c : ascii) (s : string) :
  occurs c s = false -> occurs c (Js.trim s) = false.
Proof.
  intros H. destruct (occurs c (Js.trim s)) eqn:E; [|reflexivity].
  apply trimEnd_occurs, trimStart_occurs in E. congruence.
Qed.

Lemma spanDigits_append (s : string) :
  s = ((Js.spanDigits s).1 ++ (Js.spanDigits s).2)%string.
Proof.
  induction s as [|x s IH]; simpl; [reflexivity|].
  destruct (Js.isDigit x); [|reflexivity].
  destruct (Js.spanDigits s) as [d r]. simpl in *. rewrite IH at 1. reflexivity.
Qed.

Lemma matchDigitsUnit_occurs (u : ascii) (s d : string) :
  Js.matchDigitsUnit u s = Some d -> occurs u s = true.
Proof.
  induction s as [|x s IH].
  - simpl. discriminate.
  - cbn [Js.matchDigitsUnit].
    destruct (Js.matchDigitsUnitHere u (String x s)) as [d'|] eqn:Hhere.
    + intros _. unfold Js.matchDigitsUnitHere in Hhere.
      rewrite (spanDigits_append (String x s)), occurs_append.
      destruct (Js.spanDigits (String x s)) as [ds r]. simpl.
      destruct ds; [discriminate|].
      destruct (Js.trimStart r) as [|y t] eqn:Ht; [discriminate|].
      destruct (Ascii.eqb y u) eqn:Ey; [|discriminate].
      assert (Hr : occurs u r = true).
      { apply trimStart_occurs. rewrite Ht. simpl. now rewrite Ey. }
      rewrite Hr. apply orb_true_r.
    + intros H. simpl. rewrite (IH H). apply orb_true_r.
Qed.

(** X7.  A duration cell with no colon, no [h] and no [m] anywhere in it
    (a bare number, a word, blanks) parses to [NaN], and so does a missing
    or empty cell; by C9's row lemma such a row yields no leg. *)
Theorem duration_without_colon_or_unit_is_NaN (s : string) :
  Tuned.convertTimeToDecimal None = Js.NaN
  /\ Tuned.convertTimeToDecimal (Some "") = Js.NaN
  /\ (occurs ":" s = false -> occurs "h" s = false -> occurs "m" s = false ->
      Tuned.convertTimeToDecimal (Some s) = Js.NaN).
Proof.
  split; [reflexivity|]. split; [reflexivity|].
  intros Hc Hh Hm. unfold Tuned.convertTimeToDecimal.
  destruct (negb (truthy (Some s))); [reflexivity|]. simpl default.
  unfold Tuned.colonFormat.
  rewrite includes_char, (trim_occurs _ _ Hc).
  destruct (Js.matchDigitsUnit "h" (Js.trim s)) as [d|] eqn:Eh.
  { apply matchDigitsUnit_occurs in Eh. rewrite (trim_occurs _ _ Hh) in Eh. discriminate. }
  destruct (Js.matchDigitsUnit "m" (Js.trim s)) as [d|] eqn:Em.
  { apply matchDigitsUnit_occurs in Em. rewrite (trim_occurs _ _ Hm) in Em. discriminate. }
  reflexivity.
Qed.

Lemma duration_without_colon_or_unit_is_NaN_witness :
  Tuned.convertTimeToDecimal (Some " 1.5 ") = Js.NaN.
Proof.
  apply (proj2 (proj2 (duration_without_colon_or_unit_is_NaN " 1.5 "))); reflexivity.
Defined.

Lemma split_no_separator (sep : ascii) (s : string) :
  occurs sep s = false -> Js.split sep s = [s].
Proof.
  induction s as [|x s IH]; simpl; [reflexivity|].
  intros H. apply orb_false_iff in H. destruct H as [Hx Hs].
  rewrite Hx, (IH Hs). reflexivity.
Qed.

Lemma split_append (sep : ascii) (a rest : string) :
  occurs sep a = false ->
  Js.split sep (a ++ String sep rest)%string = a :: Js.split sep rest.
Proof.
  induction a as [|x a IH]; simpl.
  - intros _. now rewrite Ascii.eqb_refl.
  - intros H. apply orb_false_iff in H. destruct H as [Hx Ha].
    rewrite Hx, (IH Ha). reflexivity.
Qed.

Lemma append_colon_nonempty (a rest : string) :
  String.eqb (a ++ String ":" rest)%string "" = false.
Proof. destruct a; reflexivity. Qed.

(** X8.  In the colon format the value is hours + minutes / 60 for
    whatever integers [parseInt] reads in the first two parts: minutes of
    60 and more are taken as they are, a sign is kept, and a third part
    (seconds) is ignored. *)
Theorem colon_duration_value (a b c : string) (hours minutes : Z) :
  occurs ":" a = false -> occurs ":" b = false -> occurs ":" c = false ->
  Js.parseInt a = Some hours ->
  Js.parseInt b = Some minutes ->
  (Js.trim (a ++ ":" ++ b) = a ++ ":" ++ b ->
   isHours (Tuned.convertTimeToDecimal (Some (a ++ ":" ++ b)))
           (inject_Z hours + inject_Z minutes / 60))%string
  /\ (Js.trim (a ++ ":" ++ b ++ ":" ++ c) = a ++ ":" ++ b ++ ":" ++ c ->
      isHours (Tuned.convertTimeToDecimal (Some (a ++ ":" ++ b ++ ":" ++ c)))
              (inject_Z hours + inject_Z minutes / 60))%string.
Proof.
  intros Ha Hb Hc Hh Hm. split; intros Htrim.
  - change (":" ++ b)%string with (String ":" b) in *.
    unfold Tuned.convertTimeToDecimal, truthy.
    rewrite append_colon_nonempty. simpl negb. cbv iota. simpl default.
    rewrite Htrim. unfold Tuned.colonFormat.
    rewrite includes_char.
    assert (Hocc : occurs ":" (a ++ String ":" b)%string = true)
      by (rewrite occurs_append, Ha; reflexivity).
    rewrite Hocc.
    rewrite (split_append _ _ _ Ha), (split_no_separator _ _ Hb).
    simpl. rewrite Hh, Hm. simpl. reflexivity.
  - change (":" ++ c)%string with (String ":" c) in *.
    change (":" ++ b ++ String ":" c)%string with (String ":" (b ++ String ":" c)) in *.
    unfold Tuned.convertTimeToDecimal, truthy.
    rewrite append_colon_nonempty. simpl negb. cbv iota. simpl default.
    rewrite Htrim. unfold Tuned.colonFormat.
    rewrite includes_char.
    assert (Hocc : occurs ":" (a ++ String ":" (b ++ String ":" c))%string = true)
      by (rewrite occurs_append, Ha; reflexivity).
    rewrite Hocc.
    rewrite (split_append _ _ _ Ha), (split_append _ _ _ Hb), (split_no_separator _ _ Hc).
    simpl. rewrite Hh, Hm. simpl. reflexivity.
Qed.

Lemma colon_duration_value_witness :
  isHours (Tuned.convertTimeToDecimal (Some "1:90")) 2.5
  /\ isHours (Tuned.convertTimeToDecimal (Some "1:30:59")) 1.5.
Proof.
  destruct (colon_duration_value "1" "90" "" 1 90 eq_refl eq_refl eq_refl eq_refl eq_refl)
    as [H2 _].
  destruct (colon_duration_value "1" "30" "59" 1 30 eq_refl eq_refl eq_refl eq_refl eq_refl)
    as [_ H3].
  split.
  - specialize (H2 eq_refl).
    change ("1" ++ ":" ++ "90")%string with "1:90" in H2. unfold isHours in *.
    destruct (Tuned.convertTimeToDecimal (Some "1:90")); [exact H2|].
    rewrite H2. reflexivity.
  - specialize (H3 eq_refl).
    change ("1" ++ ":" ++ "30" ++ ":" ++ "59")%string with "1:30:59" in H3.
    unfold isHours in *.
    destruct (Tuned.convertTimeToDecimal (Some "1:30:59")); [exact H3|].
    rewrite H3. reflexivity.
Defined.

(** ** Grouping by departure (both revisions) *)

Lemma legsFrom_pushLeg (acc : LegsByDeparture) (leg : Leg.t) (airport : string) :
  legsFrom (pushLeg acc leg) airport
  = legsFrom acc airport ++ (if String.eqb (Leg.departure leg) airport then [leg] else []).
Proof.
  induction acc as [|[k ls] rest IH]; simpl; [reflexivity|].
  destruct (String.eqb k (Leg.departure leg)) eqn:Ek; simpl.
  - apply String.eqb_eq in Ek. subst k.
    destruct (String.eqb (Leg.departure leg) airport); [reflexivity|].
    now rewrite app_nil_r.
  - destruct (String.eqb k airport) eqn:Ea; [|exact IH].
    apply String.eqb_eq in Ea. rewrite Ea in Ek. rewrite String.eqb_sym, Ek.
    now rewrite app_nil_r.
Qed.

Lemma pushLeg_keys (acc : LegsByDeparture) (leg : Leg.t) :
  (pushLeg acc leg).*1
  = if decide (Leg.departure leg ∈ acc.*1) then acc.*1 else acc.*1 ++ [Leg.departure leg].
Proof.
  induction acc as [|[k ls] rest IH].
  - destruct (decide (Leg.departure leg ∈ ([] : LegsByDeparture).*1)) as [H|_];
      [inversion H|reflexivity].
  - cbn [pushLeg].
    destruct (String.eqb k (Leg.departure leg)) eqn:Ek.
    + apply String.eqb_eq in Ek. subst k.
      destruct (decide (Leg.departure leg ∈ ((Leg.departure leg, ls) :: rest).*1))
        as [_|H]; [reflexivity|].
      exfalso. apply H. apply list_elem_of_here.
    + apply String.eqb_neq in Ek.
      change (k :: (pushLeg rest leg).*1
              = if decide (Leg.departure leg ∈ k :: rest.*1)
                then k :: rest.*1 else (k :: rest.*1) ++ [Leg.departure leg]).
      rewrite IH.
      destruct (decide (Leg.departure leg ∈ rest.*1)) as [Hin|Hout];
        destruct (decide (Leg.departure leg ∈ k :: rest.*1)) as [Hin'|Hout'].
      * reflexivity.
      * exfalso. apply Hout'. now apply list_elem_of_further.
      * exfalso. apply elem_of_cons in Hin'. destruct Hin' as [E|H]; [congruence|contradiction].
      * reflexivity.
Qed.

Lemma fold_pushLeg (allLegs : list Leg.t) :
  forall acc : LegsByDeparture,
    NoDup acc.*1 ->
    let grouped := fold_left pushLeg allLegs acc in
    NoDup grouped.*1
    /\ (forall airport,
          legsFrom grouped airport
          = legsFrom acc airport ++ filter (fun l => Leg.departure l = airport) allLegs)
    /\ (forall airport,
          airport ∈ grouped.*1
          <-> airport ∈ acc.*1 \/ exists l, l ∈ allLegs /\ Leg.departure l = airport).
Proof.
  induction allLegs as [|leg more IH]; intros acc Hnd; simpl.
  - split; [exact Hnd|]. split; [intros; now rewrite app_nil_r|].
    intros airport. split; [tauto|]. intros [H|(l & Hl & _)]; [exact H|inversion Hl].
  - assert (Hnd' : NoDup (pushLeg acc leg).*1).
    { rewrite pushLeg_keys. destruct (decide _) as [Hin|Hout]; [exact Hnd|].
      apply NoDup_app. split; [exact Hnd|]. split; [|apply NoDup_singleton].
      intros x Hx Hx'. apply list_elem_of_singleton in Hx'. subst x. contradiction. }
    destruct (IH (pushLeg acc leg) Hnd') as (H1 & H2 & H3).
    split; [exact H1|]. split.
    + intros airport. rewrite H2, legsFrom_pushLeg, <- app_assoc. f_equal.
      rewrite filter_cons.
      destruct (String.eqb (Leg.departure leg) airport) eqn:E.
      * apply String.eqb_eq in E. rewrite decide_True by exact E. reflexivity.
      * apply String.eqb_neq in E. rewrite decide_False by exact E. reflexivity.
    + intros airport. rewrite H3, pushLeg_keys.
      destruct (decide (Leg.departure leg ∈ acc.*1)) as [Hin|Hout].
      * split.
        -- intros [H|(l & Hl & Hd)]; [left; exact H|].
           right. exists l. split; [now apply list_elem_of_further|exact Hd].
        -- intros [H|(l & Hl & Hd)]; [left; exact H|].
           apply elem_of_cons in Hl. destruct Hl as [->|Hl].
           ++ left. now rewrite <- Hd.
           ++ right. eauto.
      * rewrite elem_of_app, list_elem_of_singleton. split.
        -- intros [[H | ->] | (l & Hl & Hd)].
           ++ left. exact H.
           ++ right. exists leg. split; [apply list_elem_of_here|reflexivity].
           ++ right. exists l. split; [now apply list_elem_of_further|exact Hd].
        -- intros [H|(l & Hl & Hd)]; [left; left; exact H|].
           apply elem_of_cons in Hl. destruct Hl as [->|Hl].
           ++ left. right. now symmetry.
           ++ right. eauto.
Qed.

(** X9.  Grouping loses and invents nothing: the bucket of an airport is
    exactly the pool's legs that depart from it, in the pool's order (empty
    for an airport no leg leaves), and the keys are the departure codes of
    the pool, each once. *)
Theorem grouping_is_filtering (allLegs : list Leg.t) (airport : string) :
  let legsByDeparture := groupByDeparture allLegs in
  legsFrom legsByDeparture airport = filter (fun l => Leg.departure l = airport) allLegs
  /\ NoDup legsByDeparture.*1
  /\ (airport ∈ legsByDeparture.*1 <-> exists l, l ∈ allLegs /\ Leg.departure l = airport).
Proof.
  destruct (fold_pushLeg allLegs [] ltac:(constructor)) as (H1 & H2 & H3).
  split; [exact (H2 airport)|]. split; [exact H1|].
  unfold groupByDeparture. rewrite H3. split; [|tauto].
  intros [H|H]; [inversion H|exact H].
Qed.

(** ** The roster builders: origin of the legs, sizes, multiplier *)

Lemma Math_random_inv (g : Random) (r : Q) (g' : Random) :
  Math_random g = Some (r, g') -> r = stream g (calls g) /\ stream g' = stream g.
Proof. unfold Math_random. intros H. injection H as <- <-. split; reflexivity. Qed.

Lemma pickLegs_stream (legsByDeparture : LegsByDeparture) (remaining : nat) :
  forall (d : Draft) (g : Random) (d' : Draft) (g' : Random),
    pickLegs legsByDeparture remaining d g = Some (d', g') ->
    stream g' = stream g.
Proof.
  induction remaining as [|n IH]; intros d g d' g' Hrun; simpl in Hrun.
  - gen_inv Hrun. reflexivity.
  - destruct (length _ =? 0)%nat; [gen_inv Hrun; reflexivity|].
    gen_inv Hrun. apply Math_random_inv in Hrun0. destruct Hrun0 as [_ Hs].
    destruct (if (_ <? 0)%Z then None else _) as [nextLeg|]; [|discriminate].
    destruct (Js.gtb _ MAX_DAILY_FLIGHT_HOURS); [gen_inv Hrest; exact Hs|].
    rewrite (IH _ _ _ _ Hrest). exact Hs.
Qed.

Lemma pickLegs_length (legsByDeparture : LegsByDeparture) (remaining : nat) :
  forall (d : Draft) (g : Random) (d' : Draft) (g' : Random),
    pickLegs legsByDeparture remaining d g = Some (d', g') ->
    (length (rosterLegs d') <= length (rosterLegs d) + remaining)%nat.
Proof.
  induction remaining as [|n IH]; intros d g d' g' Hrun; simpl in Hrun.
  - gen_inv Hrun. lia.
  - destruct (length _ =? 0)%nat; [gen_inv Hrun; lia|].
    gen_inv Hrun. clear Hrun0.
    destruct (if (_ <? 0)%Z then None else _) as [nextLeg|]; [|discriminate].
    destruct (Js.gtb _ MAX_DAILY_FLIGHT_HOURS); [gen_inv Hrest; lia|].
    apply IH in Hrest. simpl in Hrest. rewrite length_app in Hrest. simpl in Hrest. lia.
Qed.

Lemma draftFrom_initial (pool : list Leg.t) (airport : string) :
  draftFrom pool airport (mkDraft [] airport 0 ∅).
Proof.
  unfold draftFrom. simpl. split; [constructor|]. split; [|split; [constructor|reflexivity]].
  intros fn. split; intros H; [now apply elem_of_empty in H|inversion H].
Qed.

Lemma pickLegs_from (legsByDeparture : LegsByDeparture) (pool : list Leg.t) (start : string)
    (remaining : nat) :
  wellLabelled legsByDeparture ->
  (forall a l, l ∈ legsFrom legsByDeparture a -> l ∈ pool) ->
  forall (d : Draft) (g : Random) (d' : Draft) (g' : Random),
    draftFrom pool start d ->
    pickLegs legsByDeparture remaining d g = Some (d', g') ->
    draftFrom pool start d'.
Proof.
  intros Hwl Hpool. induction remaining as [|n IH]; intros d g d' g' Hok Hrun; simpl in Hrun.
  - gen_inv Hrun. exact Hok.
  - destruct (length _ =? 0)%nat; [gen_inv Hrun; exact Hok|].
    gen_inv Hrun. clear Hrun0.
    destruct (if (_ <? 0)%Z then None else _) as [nextLeg|] eqn:Hpick; [|discriminate].
    destruct (Js.gtb _ MAX_DAILY_FLIGHT_HOURS); [gen_inv Hrest; exact Hok|].
    refine (IH _ _ _ _ _ Hrest).
    assert (Hnext : (Leg.flightNumber nextLeg ∉ usedFlightNumbers d)
                    /\ nextLeg ∈ legsFrom legsByDeparture (currentAirport d)).
    { destruct (_ <? 0)%Z; [discriminate|].
      apply list_elem_of_lookup_2, list_elem_of_filter in Hpick. exact Hpick. }
    destruct Hnext as [Hnew Hin].
    destruct Hok as (Hnd & Hused & Hall & Hhead).
    unfold draftFrom. simpl. rewrite fmap_app. simpl. split; [|split; [|split]].
    + apply NoDup_app. split; [exact Hnd|]. split; [|apply NoDup_singleton].
      intros fn Hfn Hfn'. apply list_elem_of_singleton in Hfn'. subst fn.
      apply Hnew, Hused, Hfn.
    + intros fn. rewrite elem_of_union, elem_of_singleton, elem_of_app,
        list_elem_of_singleton, Hused. tauto.
    + apply Forall_app. split; [exact Hall|]. constructor; [|constructor].
      exact (Hpool _ _ Hin).
    + destruct (rosterLegs d) as [|l0 ls]; simpl in *; [|exact Hhead].
      rewrite <- Hhead. exact (legsFrom_departure _ _ _ Hwl Hin).
Qed.

Lemma legsFrom_pool (allLegs : list Leg.t) (a : string) (l : Leg.t) :
  l ∈ legsFrom (groupByDeparture allLegs) a -> l ∈ allLegs.
Proof.
  destruct (fold_pushLeg allLegs [] ltac:(constructor)) as (_ & H & _).
  unfold groupByDeparture. rewrite H. simpl.
  intros Hin. apply list_elem_of_filter in Hin. tauto.
Qed.

Lemma buildDraft_from (allLegs : list Leg.t) (airport : string)
    (g : Random) (d : Draft) (g' : Random) :
  buildDraft (groupByDeparture allLegs) airport g = Some (d, g') ->
  draftFrom allLegs airport d /\ stream g' = stream g.
Proof.
  intros Hrun. unfold buildDraft in Hrun. gen_inv Hrun.
  apply Math_random_inv in Hrun0. destruct Hrun0 as [_ Hs]. split.
  - exact (pickLegs_from _ allLegs airport _ (groupByDeparture_wellLabelled allLegs)
             (legsFrom_pool allLegs) _ _ _ _ (draftFrom_initial allLegs airport) Hrest).
  - rewrite (pickLegs_stream _ _ _ _ _ _ Hrest). exact Hs.
Qed.

Lemma legCount_at_most_4 (r : Q) :
  0 <= r -> r < 1 -> (Z.to_nat (Js.floor (r * 3) + 2) <= 4)%nat.
Proof.
  intros H0 H1.
  pose proof (random_index_in_range r 3 H0 H1 ltac:(lia)) as Hk.
  change (inject_Z (Z.of_nat 3)) with 3 in Hk. lia.
Qed.

Lemma buildDraft_length (legsByDeparture : LegsByDeparture) (airport : string)
    (g : Random) (d : Draft) (g' : Random) :
  fair g ->
  buildDraft legsByDeparture airport g = Some (d, g') ->
  (length (rosterLegs d) <= 4)%nat.
Proof.
  intros Hfair Hrun. unfold buildDraft in Hrun. gen_inv Hrun.
  apply Math_random_inv in Hrun0. destruct Hrun0 as [-> _].
  apply pickLegs_length in Hrest. cbn [rosterLegs length Nat.add] in Hrest.
  destruct (Hfair (calls g)) as [H0 H1].
  pose proof (legCount_at_most_4 _ H0 H1). lia.
Qed.

Lemma multiplier_range (r : Q) :
  0 <= r -> r < 1 ->
  1.1 <= Js.toFixed2 (1.1 + r * 0.4) /\ Js.toFixed2 (1.1 + r * 0.4) <= 1.5.
Proof.
  intros H0 H1. unfold Js.toFixed2.
  set (x := (1.1 + r * 0.4) * 100 + (1 # 2)).
  assert (Hlo : (110 <= Qfloor x)%Z).
  { rewrite <- (Qfloor_Z 110). apply Qfloor_resp_le.
    unfold x. change (inject_Z 110) with 110. lra. }
  assert (Hhi : (Qfloor x < 151)%Z).
  { rewrite Zlt_Qlt. eapply Qle_lt_trans; [apply Qfloor_le|].
    unfold x. change (inject_Z 151) with 151. lra. }
  assert (Hlo' : 110 <= inject_Z (Qfloor x)).
  { change 110 with (inject_Z 110). rewrite <- Zle_Qle. exact Hlo. }
  assert (Hhi' : inject_Z (Qfloor x) <= 150).
  { change 150 with (inject_Z 150). rewrite <- Zle_Qle. lia. }
  set (y := inject_Z (Qfloor x)) in *. clearbody y.
  unfold Qdiv. change (/ 100) with (1 # 100). split; lra.
Qed.

Lemma fair_stream (g g' : Random) : stream g' = stream g -> fair g -> fair g'.
Proof. intros E H n. rewrite E. exact (H n). Qed.

Lemma drawnFrom_of_draft (pool : list Leg.t) (airport : string) (d : Draft) (r : Roster.t) :
  draftFrom pool airport d ->
  (2 <= length (rosterLegs d))%nat ->
  Roster.legs r = rosterLegs d ->
  Roster.hub r = airport ->
  drawnFrom pool r.
Proof.
  intros (Hnd & _ & Hall & Hhead) Hlen Hlegs Hhub. unfold drawnFrom.
  rewrite Hlegs, Hhub. split; [exact Hnd|]. split.
  - intros l Hl. rewrite Forall_forall in Hall. exact (Hall l Hl).
  - destruct (rosterLegs d) as [|l0 ls]; [simpl in Hlen; lia|].
    exists l0. split; [reflexivity|exact Hhead].
Qed.

Lemma Tuned_rosterAttempt_facts (allLegs : list Leg.t) (airport : string) (i : nat)
    (g : Random) (o : option Roster.t) (g' : Random) :
  Tuned.rosterAttempt (groupByDeparture allLegs) airport i g = Some (o, g') ->
  stream g' = stream g
  /\ forall r, o = Some r ->
       drawnFrom allLegs r /\ Roster.hub r = airport /\ (fair g -> sized r).
Proof.
  intros Hrun. unfold Tuned.rosterAttempt in Hrun. gen_inv Hrun.
  destruct (buildDraft_from _ _ _ _ _ Hrun0) as [Hfrom Hs].
  destruct (2 <=? length (rosterLegs a))%nat eqn:Hlen.
  - apply Nat.leb_le in Hlen. gen_inv Hrest.
    apply Math_random_inv in Hrun. destruct Hrun as [-> Hs'].
    apply Gen_ret_inv in Hrest0. destruct Hrest0 as [-> ->].
    split; [now rewrite Hs'|].
    intros r E. injection E as <-. split; [|split; [reflexivity|]].
    + now apply (drawnFrom_of_draft allLegs airport a).
    + intros Hfair. unfold sized. simpl. split.
      * exact (buildDraft_length _ _ _ _ _ Hfair Hrun0).
      * pose proof (fair_stream g g0 Hs Hfair (calls g0)) as [H0 H1].
        exact (multiplier_range _ H0 H1).
  - apply Gen_ret_inv in Hrest. destruct Hrest as [-> ->].
    split; [exact Hs|]. intros r E. discriminate E.
Qed.

Lemma ServerJs_rosterAttempt_facts (allLegs : list Leg.t) (hub : string) (i : nat)
    (g : Random) (o : option Roster.t) (g' : Random) :
  ServerJs.rosterAttempt (groupByDeparture allLegs) hub i g = Some (o, g') ->
  stream g' = stream g
  /\ forall r, o = Some r ->
       drawnFrom allLegs r /\ Roster.hub r = hub
       /\ (fair g -> (length (Roster.legs r) <= 4)%nat).
Proof.
  intros Hrun. unfold ServerJs.rosterAttempt in Hrun. gen_inv Hrun.
  destruct (buildDraft_from _ _ _ _ _ Hrun0) as [Hfrom Hs].
  destruct (2 <=? length (rosterLegs a))%nat eqn:Hlen.
  - apply Nat.leb_le in Hlen.
    apply Gen_ret_inv in Hrest. destruct Hrest as [-> ->].
    split; [exact Hs|].
    intros r E. injection E as <-. split; [|split; [reflexivity|]].
    + now apply (drawnFrom_of_draft allLegs hub a).
    + intros Hfair. exact (buildDraft_length _ _ _ _ _ Hfair Hrun0).
  - apply Gen_ret_inv in Hrest. destruct Hrest as [-> ->].
    split; [exact Hs|]. intros r E. discriminate E.
Qed.

Lemma Tuned_attempts_facts (allLegs : list Leg.t) (airport : string) (count : nat) :
  let bound := sized in
  forall (i : nat) (g : Random) (rs : list Roster.t) (g' : Random),
    Tuned.attempts (groupByDeparture allLegs) airport i count g = Some (rs, g') ->
    stream g' = stream g
    /\ (length rs <= count)%nat
    /\ Forall (fun r => drawnFrom allLegs r /\ Roster.hub r = airport /\ (fair g -> bound r)) rs.
Proof.
  intros bound. induction count as [|n IH]; intros i g rs g' Hrun; simpl in Hrun.
  - apply Gen_ret_inv in Hrun. destruct Hrun as [-> ->].
    split; [reflexivity|]. split; [simpl; lia|constructor].
  - gen_inv Hrun. gen_inv Hrest.
    apply Gen_ret_inv in Hrest0. destruct Hrest0 as [-> ->].
    destruct (Tuned_rosterAttempt_facts _ _ _ _ _ _ Hrun0) as [Hs Hr].
    destruct (IH _ _ _ _ Hrun) as (Hs' & Hlen & Hall).
    split; [now rewrite Hs'|].
    assert (Hall' : Forall (fun r => drawnFrom allLegs r /\ Roster.hub r = airport
                                      /\ (fair g -> bound r)) a0).
    { eapply Forall_impl; [exact Hall|]. intros r (H1 & H2 & H3).
      split; [exact H1|]. split; [exact H2|].
      intros Hfair. apply H3. exact (fair_stream g g0 Hs Hfair). }
    destruct a as [r|].
    + split; [simpl; lia|]. constructor; [exact (Hr r eq_refl)|exact Hall'].
    + split; [lia|exact Hall'].
Qed.

Lemma ServerJs_attempts_facts (allLegs : list Leg.t) (airport : string) (count : nat) :
  let bound := fun r => (length (Roster.legs r) <= 4)%nat in
  forall (i : nat) (g : Random) (rs : list Roster.t) (g' : Random),
    ServerJs.attempts (groupByDeparture allLegs) airport i count g = Some (rs, g') ->
    stream g' = stream g
    /\ (length rs <= count)%nat
    /\ Forall (fun r => drawnFrom allLegs r /\ Roster.hub r = airport /\ (fair g -> bound r)) rs.
Proof.
  intros bound. induction count as [|n IH]; intros i g rs g' Hrun; simpl in Hrun.
  - apply Gen_ret_inv in Hrun. destruct Hrun as [-> ->].
    split; [reflexivity|]. split; [simpl; lia|constructor].
  - gen_inv Hrun. gen_inv Hrest.
    apply Gen_ret_inv in Hrest0. destruct Hrest0 as [-> ->].
    destruct (ServerJs_rosterAttempt_facts _ _ _ _ _ _ Hrun0) as [Hs Hr].
    destruct (IH _ _ _ _ Hrun) as (Hs' & Hlen & Hall).
    split; [now rewrite Hs'|].
    assert (Hall' : Forall (fun r => drawnFrom allLegs r /\ Roster.hub r = airport
                                      /\ (fair g -> bound r)) a0).
    { eapply Forall_impl; [exact Hall|]. intros r (H1 & H2 & H3).
      split; [exact H1|]. split; [exact H2|].
      intros Hfair. apply H3. exact (fair_stream g g0 Hs Hfair). }
    destruct a as [r|].
    + split; [simpl; lia|]. constructor; [exact (Hr r eq_refl)|exact Hall'].
    + split; [lia|exact Hall'].
Qed.

Lemma basedAt_app (airport : string) (xs ys : list Roster.t) :
  basedAt airport (xs ++ ys) = basedAt airport xs ++ basedAt airport ys.
Proof. apply filter_app. Qed.

Lemma basedAt_elsewhere (airport : string) (rs : list Roster.t) :
  Forall (fun r => Roster.hub r <> airport) rs -> basedAt airport rs = [].
Proof.
  induction 1 as [|r rs Hr _ IH]; [reflexivity|].
  unfold basedAt. rewrite filter_cons, decide_False by exact Hr. exact IH.
Qed.

Lemma basedAt_length (airport : string) (rs : list Roster.t) :
  (length (basedAt airport rs) <= length rs)%nat.
Proof. apply length_filter. Qed.

Lemma Tuned_forAirports_facts (allLegs : list Leg.t) (airports : list string) :
  forall (g : Random) (rs : list Roster.t) (g' : Random),
    NoDup airports ->
    Tuned.forAirports (groupByDeparture allLegs) airports g = Some (rs, g') ->
    stream g' = stream g
    /\ Forall (fun r => drawnFrom allLegs r /\ Roster.hub r ∈ airports /\ (fair g -> sized r)) rs
    /\ forall airport, (length (basedAt airport rs) <= 3)%nat.
Proof.
  induction airports as [|a more IH]; intros g rs g' Hnd Hrun;
    cbn [Tuned.forAirports] in Hrun.
  - apply Gen_ret_inv in Hrun. destruct Hrun as [-> ->].
    split; [reflexivity|]. split; [constructor|]. intros airport. simpl. lia.
  - gen_inv Hrun. gen_inv Hrest.
    apply Gen_ret_inv in Hrest0. destruct Hrest0 as [-> ->].
    apply NoDup_cons in Hnd. destruct Hnd as [Hfresh Hnd].
    destruct (Tuned_attempts_facts _ _ _ _ _ _ _ Hrun0) as (Hs & Hlen & Hhere).
    destruct (IH _ _ _ Hnd Hrun) as (Hs' & Hrest & Hcount).
    split; [now rewrite Hs'|]. split.
    + apply Forall_app. split.
      * eapply Forall_impl; [exact Hhere|]. intros r (H1 & H2 & H3).
        split; [exact H1|]. split; [rewrite H2; apply list_elem_of_here|exact H3].
      * eapply Forall_impl; [exact Hrest|]. intros r (H1 & H2 & H3).
        split; [exact H1|]. split; [now apply list_elem_of_further|].
        intros Hfair. apply H3. exact (fair_stream g g0 Hs Hfair).
    + intros airport. rewrite basedAt_app, length_app.
      destruct (decide (airport = a)) as [->|Hne].
      * rewrite (basedAt_elsewhere a a1).
        -- pose proof (basedAt_length a a0). unfold Tuned.rosterCountPerAirport in Hlen.
           simpl. lia.
        -- eapply Forall_impl; [exact Hrest|]. intros r (_ & H2 & _) E.
           apply Hfresh. now rewrite <- E.
      * rewrite (basedAt_elsewhere airport a0).
        -- exact (Hcount airport).
        -- eapply Forall_impl; [exact Hhere|]. intros r (_ & H2 & _) E.
           apply Hne. now rewrite <- E, H2.
Qed.

Lemma ServerJs_forHubs_facts (allLegs : list Leg.t) (hubs : list string) :
  forall (g : Random) (rs : list Roster.t) (g' : Random),
    NoDup hubs ->
    ServerJs.forHubs (groupByDeparture allLegs) hubs g = Some (rs, g') ->
    stream g' = stream g
    /\ Forall (fun r => drawnFrom allLegs r /\ Roster.hub r ∈ hubs
                        /\ (fair g -> (length (Roster.legs r) <= 4)%nat)) rs
    /\ forall airport, (length (basedAt airport rs) <= 5)%nat.
Proof.
  induction hubs as [|a more IH]; intros g rs g' Hnd Hrun;
    cbn [ServerJs.forHubs] in Hrun.
  - apply Gen_ret_inv in Hrun. destruct Hrun as [-> ->].
    split; [reflexivity|]. split; [constructor|]. intros airport. simpl. lia.
  - gen_inv Hrun. gen_inv Hrest.
    apply Gen_ret_inv in Hrest0. destruct Hrest0 as [-> ->].
    apply NoDup_cons in Hnd. destruct Hnd as [Hfresh Hnd].
    assert (Hfacts : stream g0 = stream g /\ (length a0 <= 5)%nat
              /\ Forall (fun r => drawnFrom allLegs r /\ Roster.hub r = a
                                  /\ (fair g -> (length (Roster.legs r) <= 4)%nat)) a0).
    { destruct (ServerJs.hasDepartures _ a).
      - exact (ServerJs_attempts_facts _ _ _ _ _ _ _ Hrun0).
      - apply Gen_ret_inv in Hrun0. destruct Hrun0 as [-> ->].
        split; [reflexivity|]. split; [simpl; lia|constructor]. }
    destruct Hfacts as (Hs & Hlen & Hhere).
    destruct (IH _ _ _ Hnd Hrun) as (Hs' & Hrest & Hcount).
    split; [now rewrite Hs'|]. split.
    + apply Forall_app. split.
      * eapply Forall_impl; [exact Hhere|]. intros r (H1 & H2 & H3).
        split; [exact H1|]. split; [rewrite H2; apply list_elem_of_here|exact H3].
      * eapply Forall_impl; [exact Hrest|]. intros r (H1 & H2 & H3).
        split; [exact H1|]. split; [now apply list_elem_of_further|].
        intros Hfair. apply H3. exact (fair_stream g g0 Hs Hfair).
    + intros airport. rewrite basedAt_app, length_app.
      destruct (decide (airport = a)) as [->|Hne].
      * rewrite (basedAt_elsewhere a a1).
        -- pose proof (basedAt_length a a0). simpl. lia.
        -- eapply Forall_impl; [exact Hrest|]. intros r (_ & H2 & _) E.
           apply Hfresh. now rewrite <- E.
      * rewrite (basedAt_elsewhere airport a0).
        -- exact (Hcount airport).
        -- eapply Forall_impl; [exact Hhere|]. intros r (_ & H2 & _) E.
           apply Hne. now rewrite <- E, H2.
Qed.

Lemma groupByDeparture_keys (allLegs : list Leg.t) :
  NoDup (map fst (groupByDeparture allLegs))
  /\ forall airport,
       airport ∈ map fst (groupByDeparture allLegs)
       <-> exists l, l ∈ allLegs /\ Leg.departure l = airport.
Proof.
  destruct (fold_pushLeg allLegs [] ltac:(constructor)) as (H1 & _ & H3).
  split; [exact H1|]. intros airport.
  unfold groupByDeparture. change (map fst ?l) with (fst <$> l). rewrite H3.
  split; [|tauto]. intros [H|H]; [inversion H|exact H].
Qed.

Lemma Tuned_buildRosters_facts (allLegs : list Leg.t) (g : Random)
    (rs : list Roster.t) (g' : Random) :
  Tuned.buildRosters allLegs g = Some (rs, g') ->
  Forall (fun r => drawnFrom allLegs r /\ (fair g -> sized r)) rs
  /\ forall airport, (length (basedAt airport rs) <= 3)%nat.
Proof.
  intros Hrun. unfold Tuned.buildRosters in Hrun.
  destruct (Tuned_forAirports_facts _ _ _ _ _ (proj1 (groupByDeparture_keys allLegs)) Hrun)
    as (_ & Hall & Hcount).
  split; [|exact Hcount].
  eapply Forall_impl; [exact Hall|]. intros r (H1 & _ & H3). split; assumption.
Qed.

Lemma ServerJs_buildRosters_facts (allLegs : list Leg.t) (g : Random)
    (rs : list Roster.t) (g' : Random) :
  ServerJs.buildRosters allLegs g = Some (rs, g') ->
  Forall (fun r => drawnFrom allLegs r /\ Roster.hub r ∈ ServerJs.ROSTER_HUBS
                   /\ (fair g -> (length (Roster.legs r) <= 4)%nat)) rs
  /\ forall airport, (length (basedAt airport rs) <= 5)%nat.
Proof.
  intros Hrun. unfold ServerJs.buildRosters in Hrun.
  assert (Hnd : NoDup ServerJs.ROSTER_HUBS)
    by (apply (bool_decide_unpack _); vm_compute; exact I).
  destruct (ServerJs_forHubs_facts _ _ _ _ _ Hnd Hrun) as (_ & Hall & Hcount).
  split; assumption.
Qed.

(** X10.  A roster of either builder is made of legs of the pool, uses no
    flight number twice, and its first leg leaves from the roster's hub. *)
Theorem generated_roster_is_drawn_from_the_pool (allLegs : list Leg.t) (g : Random)
    (r : Roster.t) :
  producedBy Tuned.buildRosters allLegs g r \/ producedBy ServerJs.buildRosters allLegs g r ->
  NoDup (Leg.flightNumber <$> Roster.legs r)
  /\ (forall l, l ∈ Roster.legs r -> l ∈ allLegs)
  /\ (exists l, head (Roster.legs r) = Some l /\ Leg.departure l = Roster.hub r).
Proof.
  intros [(rs & g' & Hrun & Hin)|(rs & g' & Hrun & Hin)].
  - destruct (Tuned_buildRosters_facts _ _ _ _ Hrun) as [Hall _].
    rewrite Forall_forall in Hall. exact (proj1 (Hall r Hin)).
  - destruct (ServerJs_buildRosters_facts _ _ _ _ Hrun) as [Hall _].
    rewrite Forall_forall in Hall. exact (proj1 (Hall r Hin)).
Qed.

Lemma generated_roster_is_drawn_from_the_pool_witness :
  let r := Scenario.first Scenario.generated in
  producedBy Tuned.buildRosters (Tuned.ingest [Scenario.routes]) Scenario.zeros r
  /\ NoDup (Leg.flightNumber <$> Roster.legs r)
  /\ (forall l, l ∈ Roster.legs r -> l ∈ Tuned.ingest [Scenario.routes]).
Proof.
  intros r.
  assert (Hp : producedBy Tuned.buildRosters (Tuned.ingest [Scenario.routes]) Scenario.zeros r).
  { exists Scenario.generated. eexists. split; [vm_compute; reflexivity|].
    apply list_elem_of_here. }
  split; [exact Hp|].
  destruct (generated_roster_is_drawn_from_the_pool _ _ _ (or_introl Hp)) as (H1 & H2 & _).
  split; assumption.
Defined.

(** X11.  With oracle values in [0, 1), as [Math.random] gives them, a
    roster of either builder has at most four legs, and a roster of the
    tuned builder carries a multiplier between 1.1 and 1.5, which the
    approval's test [multiplier > 1] accepts. *)
Theorem generated_roster_size_and_multiplier (allLegs : list Leg.t) (g : Random)
    (r : Roster.t) :
  fair g ->
  (producedBy Tuned.buildRosters allLegs g r ->
   (length (Roster.legs r) <= 4)%nat
   /\ 1.1 <= Roster.multiplier r /\ Roster.multiplier r <= 1.5
   /\ Js.gtb (Roster.multiplier r) 1 = true)
  /\ (producedBy ServerJs.buildRosters allLegs g r ->
      (length (Roster.legs r) <= 4)%nat).
Proof.
  intros Hfair. split; intros (rs & g' & Hrun & Hin).
  - destruct (Tuned_buildRosters_facts _ _ _ _ Hrun) as [Hall _].
    rewrite Forall_forall in Hall. destruct (Hall r Hin) as [_ Hsized].
    destruct (Hsized Hfair) as (H1 & H2 & H3).
    split; [exact H1|]. split; [exact H2|]. split; [exact H3|].
    apply gtb_true_lt. lra.
  - destruct (ServerJs_buildRosters_facts _ _ _ _ Hrun) as [Hall _].
    rewrite Forall_forall in Hall. destruct (Hall r Hin) as (_ & _ & Hlen).
    exact (Hlen Hfair).
Qed.

Lemma generated_roster_size_and_multiplier_witness :
  let r := Scenario.first Scenario.generated in
  fair Scenario.zeros
  /\ producedBy Tuned.buildRosters (Tuned.ingest [Scenario.routes]) Scenario.zeros r
  /\ (length (Roster.legs r) <= 4)%nat
  /\ Js.gtb (Roster.multiplier r) 1 = true.
Proof.
  intros r.
  assert (Hfair : fair Scenario.zeros).
  { intros n. simpl. split; [apply Qle_refl|reflexivity]. }
  assert (Hp : producedBy Tuned.buildRosters (Tuned.ingest [Scenario.routes]) Scenario.zeros r).
  { exists Scenario.generated. eexists. split; [vm_compute; reflexivity|].
    apply list_elem_of_here. }
  split; [exact Hfair|]. split; [exact Hp|].
  destruct (generated_roster_size_and_multiplier (Tuned.ingest [Scenario.routes])
              Scenario.zeros r Hfair) as [Htuned _].
  destruct (Htuned Hp) as (H1 & _ & _ & H4).
  split; assumption.
Defined.

(** X12.  One run creates at most three rosters per departure airport of
    the pool (tuned builder), at most five per configured hub and none
    elsewhere (earlier revision); every roster's hub is an airport some leg
    of the pool leaves from. *)
Theorem rosters_per_airport_are_bounded (allLegs : list Leg.t) (g : Random)
    (rs : list Roster.t) (g' : Random) :
  (Tuned.buildRosters allLegs g = Some (rs, g') ->
   forall airport, (length (basedAt airport rs) <= 3)%nat)
  /\ (ServerJs.buildRosters allLegs g = Some (rs, g') ->
      (forall airport, (length (basedAt airport rs) <= 5)%nat)
      /\ Forall (fun r => Roster.hub r ∈ ServerJs.ROSTER_HUBS) rs)
  /\ (Tuned.buildRosters allLegs g = Some (rs, g')
      \/ ServerJs.buildRosters allLegs g = Some (rs, g') ->
      Forall (fun r => exists l, l ∈ allLegs /\ Leg.departure l = Roster.hub r) rs).
Proof.
  split; [|split].
  - intros Hrun. exact (proj2 (Tuned_buildRosters_facts _ _ _ _ Hrun)).
  - intros Hrun. destruct (ServerJs_buildRosters_facts _ _ _ _ Hrun) as [Hall Hcount].
    split; [exact Hcount|].
    eapply Forall_impl; [exact Hall|]. intros r (_ & H & _). exact H.
  - assert (Hhub : forall r, drawnFrom allLegs r ->
                     exists l, l ∈ allLegs /\ Leg.departure l = Roster.hub r).
    { intros r (_ & Hpool & l & Hhead & Hdep). exists l. split; [|exact Hdep].
      apply Hpool. destruct (Roster.legs r) as [|l0 ls]; [discriminate|].
      injection Hhead as ->. apply list_elem_of_here. }
    intros [Hrun|Hrun].
    + destruct (Tuned_buildRosters_facts _ _ _ _ Hrun) as [Hall _].
      eapply Forall_impl; [exact Hall|]. intros r [H _]. exact (Hhub r H).
    + destruct (ServerJs_buildRosters_facts _ _ _ _ Hrun) as [Hall _].
      eapply Forall_impl; [exact Hall|]. intros r [H _]. exact (Hhub r H).
Qed.

Lemma rosters_per_airport_are_bounded_witness :
  exists g',
    Tuned.buildRosters (Tuned.ingest [Scenario.routes]) Scenario.zeros
    = Some (Scenario.generated, g')
    /\ (length (basedAt "VIDP" Scenario.generated) <= 3)%nat
    /\ (0 < length (basedAt "VIDP" Scenario.generated))%nat.
Proof.
  eexists. split; [vm_compute; reflexivity|]. split.
  - refine (proj1 (rosters_per_airport_are_bounded (Tuned.ingest [Scenario.routes])
                     Scenario.zeros Scenario.generated _) _ "VIDP").
    vm_compute. reflexivity.
  - vm_compute. lia.
Defined.

(** ** The rank helper depends on the hours only *)

Lemma scanFromTop_forgets (table : list (string * Q)) (highestFirst : list string)
    (hours : Q) (c c' : string) :
  (exists x, x ∈ highestFirst /\ RankEngine.reaches table hours x = true) ->
  RankEngine.scanFromTop table highestFirst hours c
  = RankEngine.scanFromTop table highestFirst hours c'.
Proof.
  induction highestFirst as [|top lower IH]; intros (x & Hin & Hx); [inversion Hin|].
  cbn [RankEngine.scanFromTop].
  destruct (RankEngine.reaches table hours top) eqn:Htop; [reflexivity|].
  apply IH. exists x. split; [|exact Hx].
  apply elem_of_cons in Hin. destruct Hin as [->|Hin]; [congruence|exact Hin].
Qed.

Lemma Tuned_cadet_reached (hours : Q) :
  0 <= hours ->
  exists x, x ∈ rev Tuned.pilotRanks /\ RankEngine.reaches Tuned.rankThresholds hours x = true.
Proof.
  intros H. exists "IndGo Cadet". split.
  - apply list_elem_of_In. simpl. tauto.
  - unfold RankEngine.reaches, Js.geb. simpl. now apply Qle_bool_iff.
Qed.

Lemma Tuned_rank_by_hours (u : User.t) (c : string) :
  0 <= User.flightHours u ->
  User.rank (Tuned.checkAndApplyRankUpdate u).1
  = RankEngine.scanFromTop Tuned.rankThresholds (rev Tuned.pilotRanks) (User.flightHours u) c.
Proof.
  intros H. unfold Tuned.checkAndApplyRankUpdate.
  rewrite checkAndApplyRankUpdate_rank.
  apply scanFromTop_forgets, Tuned_cadet_reached, H.
Qed.

(** X13.  For a pilot with non-negative hours the rank helper leaves the
    highest tier the hours reach, whatever the rank was before: the result
    is a tier of the list whose threshold is met, no reached tier ranks
    above it, a pilot with the same hours gets the same rank, and a second
    call changes nothing and reports no promotion. *)
Theorem rank_helper_yields_highest_reached_tier (u : User.t) :
  0 <= User.flightHours u ->
  let u' := (Tuned.checkAndApplyRankUpdate u).1 in
  rankEarned u'
  /\ (forall x, x ∈ Tuned.pilotRanks ->
        RankEngine.reaches Tuned.rankThresholds (User.flightHours u) x = true ->
        (Tuned.rankIndex x <= Tuned.rankIndex (User.rank u'))%Z)
  /\ (forall v, User.flightHours v = User.flightHours u ->
        User.rank (Tuned.checkAndApplyRankUpdate v).1 = User.rank u')
  /\ Tuned.checkAndApplyRankUpdate u' = (u', None).
Proof.
  intros H u'.
  pose proof (checkAndApplyRankUpdate_rank Tuned.pilotRanks Tuned.rankThresholds u) as Hrank.
  destruct (checkAndApplyRankUpdate_keeps_hours Tuned.pilotRanks Tuned.rankThresholds u)
    as (Hhours & _ & _).
  fold (Tuned.checkAndApplyRankUpdate u) in Hrank, Hhours. fold u' in Hrank, Hhours.
  assert (Hcadet : RankEngine.reaches Tuned.rankThresholds (User.flightHours u)
                     "IndGo Cadet" = true).
  { unfold RankEngine.reaches, Js.geb. simpl. now apply Qle_bool_iff. }
  split; [|split; [|split]].
  - destruct (scanFromTop_highest Tuned.rankThresholds Tuned.pilotRanks (User.flightHours u)
                (User.rank u) 0 "IndGo Cadet" eq_refl Hcadet) as (j & Hj & _ & Hr).
    rewrite <- Hrank in Hj, Hr.
    split; [exact (list_elem_of_lookup_2 _ _ _ Hj)|]. rewrite Hhours. exact Hr.
  - intros x Hin Hx. apply list_elem_of_lookup_1 in Hin. destruct Hin as [i Hi].
    destruct (scanFromTop_highest Tuned.rankThresholds Tuned.pilotRanks (User.flightHours u)
                (User.rank u) i x Hi Hx) as (j & Hj & Hij & _).
    rewrite <- Hrank in Hj.
    rewrite (Tuned_rankIndex_lookup i _ Hi), (Tuned_rankIndex_lookup j _ Hj). lia.
  - intros v Hv. rewrite Hrank.
    rewrite (Tuned_rank_by_hours v (User.rank u)) by (rewrite Hv; exact H).
    now rewrite Hv.
  - assert (Hsame : User.rank (Tuned.checkAndApplyRankUpdate u').1 = User.rank u').
    { rewrite (Tuned_rank_by_hours u' (User.rank u)) by (rewrite Hhours; exact H).
      rewrite Hhours. symmetry. exact Hrank. }
    unfold Tuned.checkAndApplyRankUpdate in *.
    rewrite checkAndApplyRankUpdate_rank in Hsame.
    unfold RankEngine.checkAndApplyRankUpdate at 1.
    rewrite Hsame, String.eqb_refl. reflexivity.
Qed.

Lemma rank_helper_yields_highest_reached_tier_witness :
  let u' := (Tuned.checkAndApplyRankUpdate Scenario.senior).1 in
  0 <= User.flightHours Scenario.senior
  /\ rankEarned u'
  /\ Tuned.checkAndApplyRankUpdate u' = (u', None).
Proof.
  intros u'.
  assert (H : 0 <= User.flightHours Scenario.senior) by (vm_compute; discriminate).
  split; [exact H|].
  destruct (rank_helper_yields_highest_reached_tier Scenario.senior H) as (H1 & _ & _ & H4).
  split; assumption.
Defined.

Lemma awardedHours_rosters (pirep : Pirep.t) (st st' : Store) :
  rosters st' = rosters st -> Tuned.awardedHours pirep st' = Tuned.awardedHours pirep st.
Proof. intros E. unfold Tuned.awardedHours. now rewrite E. Qed.

(** X14.  A rank set by hand through [PUT /api/users/:userId/rank] does
    not outlive the next approval: for a pilot whose hours after the credit
    are not negative, the rank after approving a pending report is the same
    whether or not the rank was edited before. *)
Theorem hand_set_rank_does_not_survive_approval (reviewer pirepId : Id) (now : Z)
    (st st1 : Store) (pirep : Pirep.t) (pilot : User.t) (newRank : string) :
  pireps st !! pirepId = Some pirep ->
  Pirep.status pirep = PENDING ->
  users st !! Pirep.pilot pirep = Some pilot ->
  0 <= User.flightHours pilot + (Tuned.awardedHours pirep st).1 ->
  Admin.updateRank (Pirep.pilot pirep) newRank st = (Admin.RankUpdated, st1) ->
  User.rank <$> users (Tuned.approvePirep reviewer pirepId now st1).2 !! Pirep.pilot pirep
  = User.rank <$> users (Tuned.approvePirep reviewer pirepId now st).2 !! Pirep.pilot pirep.
Proof.
  intros Hp Hs Hu Hh Hset. unfold Admin.updateRank in Hset.
  destruct (_ || _); [discriminate|]. rewrite Hu in Hset. injection Hset as <-.
  unfold Tuned.approvePirep. simpl. rewrite Hp.
  rewrite bool_decide_eq_false_2 by (rewrite Hs; intros H; now apply H).
  rewrite Hu, lookup_insert_eq.
  rewrite (awardedHours_rosters pirep st
             (putUser st (Pirep.pilot pirep) (RankEngine.setRank pilot newRank)) eq_refl).
  destruct (Tuned.awardedHours pirep st) as [hoursToAdd multiplierApplied]. simpl in Hh.
  pose proof (Tuned_rank_by_hours
                (Tuned.creditHours (RankEngine.setRank pilot newRank) hoursToAdd
                   (Pirep.arrival pirep)) (User.rank pilot) Hh) as H1.
  pose proof (Tuned_rank_by_hours
                (Tuned.creditHours pilot hoursToAdd (Pirep.arrival pirep))
                (User.rank pilot) Hh) as H2.
  destruct (Tuned.checkAndApplyRankUpdate (Tuned.creditHours (RankEngine.setRank _ _) _ _))
    as [a pa].
  destruct (Tuned.checkAndApplyRankUpdate (Tuned.creditHours pilot _ _)) as [b pb].
  cbn [fst] in H1, H2. cbn [snd users putPirep putUser].
  rewrite !lookup_insert_eq. cbn [fmap option_fmap option_map].
  rewrite H1, H2. reflexivity.
Qed.

Lemma hand_set_rank_does_not_survive_approval_witness :
  let flown := Scenario.report "6E101" 2 PENDING false None in
  let st := mkStore {[1%positive := Scenario.cadet]} ∅ {[7%positive := flown]} in
  exists st1,
    Admin.updateRank 1%positive "Blue Eagle" st = (Admin.RankUpdated, st1)
    /\ User.rank <$> users st1 !! 1%positive = Some "Blue Eagle"
    /\ User.rank <$> users (Tuned.approvePirep 2%positive 7%positive 1000%Z st1).2 !! 1%positive
       = User.rank <$> users (Tuned.approvePirep 2%positive 7%positive 1000%Z st).2 !! 1%positive.
Proof.
  intros flown st. eexists. split; [vm_compute; reflexivity|]. split; [vm_compute; reflexivity|].
  refine (hand_set_rank_does_not_survive_approval 2%positive 7%positive 1000%Z st _ flown
            Scenario.cadet "Blue Eagle" _ _ _ _ _).
  - vm_compute. reflexivity.
  - reflexivity.
  - vm_compute. reflexivity.
  - vm_compute. discriminate.
  - vm_compute. reflexivity.
Defined.

(** ** Duty lifecycle: rest minutes, record consistency *)

Lemma ceil_minutes (d : Z) :
  Js.ceil (inject_Z d / inject_Z (60 * 1000)) = (- ((- d) / 60000))%Z.
Proof.
  unfold Js.ceil, Qceiling, Qfloor, Qdiv, Qmult, Qinv, Qopp, inject_Z. simpl.
  rewrite Z.mul_1_r. reflexivity.
Qed.

Lemma restDenial_inv (user : User.t) (now minutes : Z) :
  restDenial user now = Some (CrewRestRequired minutes) ->
  exists off,
    User.lastDutyOff user = Some off
    /\ (now - off < MIN_REST_PERIOD)%Z
    /\ (MIN_REST_PERIOD - (now - off) <= minutes * 60000)%Z
    /\ ((minutes - 1) * 60000 < MIN_REST_PERIOD - (now - off))%Z.
Proof.
  unfold restDenial. destruct (User.lastDutyOff user) as [off|]; [|discriminate].
  destruct (now - off <? MIN_REST_PERIOD)%Z eqn:E; [|discriminate].
  apply Z.ltb_lt in E. rewrite ceil_minutes. intros H. injection H as <-.
  exists off. split; [reflexivity|]. split; [exact E|].
  Z.div_mod_to_equations. lia.
Qed.

(** X15.  The minutes a crew-rest denial reports are exact: a request made
    that many minutes later passes the rest test, and one made any whole
    number of minutes sooner is still denied. *)
Theorem rest_minutes_are_exact (user : User.t) (now minutes : Z) :
  restDenial user now = Some (CrewRestRequired minutes) ->
  (0 < minutes)%Z
  /\ restDenial user (now + minutes * 60000) = None
  /\ (forall k, (0 <= k < minutes)%Z -> restDenial user (now + k * 60000) <> None).
Proof.
  intros H. destruct (restDenial_inv _ _ _ H) as (off & Hoff & Hlt & Hup & Hlow).
  split; [lia|]. unfold restDenial. rewrite Hoff. split.
  - rewrite (proj2 (Z.ltb_ge _ _)) by lia. reflexivity.
  - intros k Hk. rewrite (proj2 (Z.ltb_lt _ _)) by lia. discriminate.
Qed.

Lemma rest_minutes_are_exact_witness :
  let tired := User.mk "Asha" None "IndGo Cadet" 0 ON_REST None None (Some 0%Z) 0 0 0%Z
                 "VIDP" None in
  let sevenHours := (7 * 60 * 60 * 1000)%Z in
  restDenial tired sevenHours = Some (CrewRestRequired 60)
  /\ restDenial tired (sevenHours + 60 * 60000) = None.
Proof.
  intros tired sevenHours.
  assert (H : restDenial tired sevenHours = Some (CrewRestRequired 60))
    by (vm_compute; reflexivity).
  split; [exact H|].
  exact (proj1 (proj2 (rest_minutes_are_exact tired sevenHours 60 H))).
Defined.

Lemma dutyConsistent_putUser (st : Store) (id : Id) (u : User.t) :
  dutyConsistent st ->
  (User.dutyStatus u = ON_DUTY <-> is_Some (User.currentRoster u)) ->
  dutyConsistent (putUser st id u).
Proof.
  intros Hst Hu id' u' Hl. simpl in Hl.
  apply lookup_insert_Some in Hl. destruct Hl as [[_ <-]|[_ Hl]]; [exact Hu|].
  exact (Hst id' u' Hl).
Qed.

Lemma dutyConsistent_users (st st' : Store) :
  users st' = users st -> dutyConsistent st -> dutyConsistent st'.
Proof. intros E H id u Hl. rewrite E in Hl. exact (H id u Hl). Qed.

Lemma checkAndApplyRankUpdate_keeps_duty (ranks : list string) (table : list (string * Q))
    (pilot : User.t) :
  let pilot' := (RankEngine.checkAndApplyRankUpdate ranks table pilot).1 in
  User.dutyStatus pilot' = User.dutyStatus pilot
  /\ User.currentRoster pilot' = User.currentRoster pilot.
Proof.
  unfold RankEngine.checkAndApplyRankUpdate.
  destruct (negb _); simpl; split; reflexivity.
Qed.

Lemma startDuty_consistent (userId rosterId : Id) (now oneMonthAgo : Z) (st : Store) :
  dutyConsistent st ->
  dutyConsistent (Tuned.startDuty userId rosterId now oneMonthAgo st).2
  /\ dutyConsistent (ServerJs.startDuty userId rosterId now oneMonthAgo st).2.
Proof.
  intros H. unfold Tuned.startDuty, ServerJs.startDuty.
  destruct (rosters st !! rosterId) as [roster|]; [|split; exact H].
  destruct (users st !! userId) as [user|]; [|split; exact H].
  destruct (bool_decide _); [split; exact H|].
  destruct (restDenial user now); [split; exact H|].
  destruct (quotaDenial _ roster); [split; exact H|].
  assert (Hon : dutyConsistent
                  (putUser st userId (goOnDuty (monthlyReset user now oneMonthAgo) rosterId now))).
  { apply dutyConsistent_putUser; [exact H|]. simpl. split; [eauto|reflexivity]. }
  split; [|exact Hon].
  destruct (List.find _ _); [exact H|exact Hon].
Qed.

Lemma endDuty_consistent (userId : Id) (now : Z) (st : Store) :
  dutyConsistent st -> dutyConsistent (endDuty userId now st).2.
Proof.
  intros H. unfold endDuty.
  destruct (users st !! userId) as [user|]; [|exact H].
  destruct (bool_decide _); [exact H|].
  destruct (User.currentRoster user) as [rosterId|]; [|exact H].
  destruct (rosters st !! rosterId) as [roster|]; [|exact H].
  destruct (_ <? _)%nat; [exact H|].
  apply dutyConsistent_putUser; [exact H|]. simpl.
  split; [discriminate|]. intros [x Hx]. discriminate Hx.
Qed.

Lemma filePirep_users (userId : Id) (req : PirepRequest) (st : Store) :
  users (Tuned.filePirep userId req st).2 = users st
  /\ users (ServerJs.filePirep userId req st).2 = users st
  /\ rosters (Tuned.filePirep userId req st).2 = rosters st
  /\ rosters (ServerJs.filePirep userId req st).2 = rosters st.
Proof.
  unfold Tuned.filePirep, ServerJs.filePirep, savePirep.
  repeat split; repeat (case_match; try reflexivity).
Qed.

Lemma approve_consistent (reviewer pirepId : Id) (now : Z) (st : Store) :
  dutyConsistent st ->
  dutyConsistent (Tuned.approvePirep reviewer pirepId now st).2
  /\ dutyConsistent (ServerJs.approvePirep reviewer pirepId now st).2.
Proof.
  intros H. unfold Tuned.approvePirep, ServerJs.approvePirep.
  destruct (pireps st !! pirepId) as [pirep|]; [|split; exact H].
  destruct (bool_decide _); [split; exact H|].
  destruct (users st !! Pirep.pilot pirep) as [pilot|] eqn:Hu; [|split; exact H].
  pose proof (H _ _ Hu) as Hpilot.
  destruct (Tuned.awardedHours pirep st) as [hoursToAdd multiplierApplied].
  pose proof (checkAndApplyRankUpdate_keeps_duty Tuned.pilotRanks Tuned.rankThresholds
                (Tuned.creditHours pilot hoursToAdd (Pirep.arrival pirep))) as [H1 H2].
  pose proof (checkAndApplyRankUpdate_keeps_duty ServerJs.pilotRanks ServerJs.rankThresholds
                (ServerJs.creditHours pilot (Pirep.flightTime pirep) (Pirep.arrival pirep)))
    as [H3 H4].
  unfold Tuned.checkAndApplyRankUpdate, ServerJs.checkAndApplyRankUpdate.
  destruct (RankEngine.checkAndApplyRankUpdate Tuned.pilotRanks _ _) as [a pa].
  destruct (RankEngine.checkAndApplyRankUpdate ServerJs.pilotRanks _ _) as [b pb].
  simpl in H1, H2, H3, H4. split.
  - apply (dutyConsistent_users (putUser st (Pirep.pilot pirep) a)); [reflexivity|].
    apply dutyConsistent_putUser; [exact H|]. now rewrite H1, H2.
  - apply (dutyConsistent_users (putUser st (Pirep.pilot pirep) b)); [reflexivity|].
    apply dutyConsistent_putUser; [exact H|]. now rewrite H3, H4.
Qed.

Lemma reject_users (reviewer pirepId : Id) (reason : string) (now : Z) (st : Store) :
  users (Tuned.rejectPirep reviewer pirepId reason now st).2 = users st
  /\ users (ServerJs.rejectPirep reviewer pirepId reason now st).2 = users st.
Proof.
  unfold Tuned.rejectPirep, ServerJs.rejectPirep.
  split; repeat (case_match; try reflexivity).
Qed.

Lemma admin_consistent (admin userId rosterId : Id) (newRank : string) (st : Store) :
  dutyConsistent st ->
  dutyConsistent (Admin.updateRank userId newRank st).2
  /\ dutyConsistent (Admin.deleteRoster rosterId st).1.2
  /\ dutyConsistent (Admin.deleteUser admin userId st).1.2.
Proof.
  intros H. split; [|split].
  - unfold Admin.updateRank. destruct (_ || _); [exact H|].
    destruct (users st !! userId) as [user|] eqn:Hu; [|exact H].
    apply dutyConsistent_putUser; [exact H|]. exact (H _ _ Hu).
  - unfold Admin.deleteRoster. destruct (rosters st !! rosterId); exact H.
  - unfold Admin.deleteUser. destruct (bool_decide _); [exact H|].
    destruct (users st !! userId); [|exact H].
    intros id u Hl. simpl in Hl. apply lookup_delete_Some in Hl. exact (H id u (proj2 Hl)).
Qed.

(** X16.  Every handler of the embedding keeps the pilot records
    consistent: if each pilot is on duty exactly when the record names a
    current roster, the same holds after starting or ending a duty, filing,
    approving or rejecting a report, editing a rank, and deleting a roster
    or a user. *)
Theorem handlers_keep_duty_records_consistent (st : Store) (userId rosterId pirepId admin : Id)
    (now oneMonthAgo : Z) (req : PirepRequest) (reason newRank : string) :
  dutyConsistent st ->
  dutyConsistent (Tuned.startDuty userId rosterId now oneMonthAgo st).2
  /\ dutyConsistent (ServerJs.startDuty userId rosterId now oneMonthAgo st).2
  /\ dutyConsistent (endDuty userId now st).2
  /\ dutyConsistent (Tuned.filePirep userId req st).2
  /\ dutyConsistent (ServerJs.filePirep userId req st).2
  /\ dutyConsistent (Tuned.approvePirep admin pirepId now st).2
  /\ dutyConsistent (ServerJs.approvePirep admin pirepId now st).2
  /\ dutyConsistent (Tuned.rejectPirep admin pirepId reason now st).2
  /\ dutyConsistent (ServerJs.rejectPirep admin pirepId reason now st).2
  /\ dutyConsistent (Admin.updateRank userId newRank st).2
  /\ dutyConsistent (Admin.deleteRoster rosterId st).1.2
  /\ dutyConsistent (Admin.deleteUser admin userId st).1.2.
Proof.
  intros H.
  destruct (startDuty_consistent userId rosterId now oneMonthAgo st H) as [H1 H2].
  destruct (filePirep_users userId req st) as (H4 & H5 & _).
  destruct (approve_consistent admin pirepId now st H) as [H6 H7].
  destruct (reject_users admin pirepId reason now st) as [H8 H9].
  destruct (admin_consistent admin userId rosterId newRank st H) as (H10 & H11 & H12).
  split; [exact H1|]. split; [exact H2|].
  split; [exact (endDuty_consistent userId now st H)|].
  split; [exact (dutyConsistent_users _ _ H4 H)|].
  split; [exact (dutyConsistent_users _ _ H5 H)|].
  split; [exact H6|]. split; [exact H7|].
  split; [exact (dutyConsistent_users _ _ H8 H)|].
  split; [exact (dutyConsistent_users _ _ H9 H)|].
  split; [exact H10|]. split; [exact H11|exact H12].
Qed.

Lemma handlers_keep_duty_records_consistent_witness :
  let st := mkStore {[1%positive := Scenario.rested]} {[5%positive := Scenario.duty]} ∅ in
  dutyConsistent st
  /\ accepted (Tuned.startDuty 1%positive 5%positive 100000000%Z 0%Z st).1 = true
  /\ dutyConsistent (Tuned.startDuty 1%positive 5%positive 100000000%Z 0%Z st).2.
Proof.
  intros st.
  assert (H : dutyConsistent st).
  { intros id u Hl. unfold st in Hl. cbn [users] in Hl.
    apply lookup_singleton_Some in Hl. destruct Hl as [_ <-].
    simpl. split; [discriminate|]. intros [x Hx]. discriminate Hx. }
  split; [exact H|]. split; [vm_compute; reflexivity|].
  exact (proj1 (handlers_keep_duty_records_consistent st 1%positive 5%positive 1%positive
                  1%positive 100000000%Z 0%Z
                  (mkPirepRequest "" "" "" "" 0 None None) "" "" H)).
Defined.

(** X17.  After a duty is completed at [now], the same pilot's start-duty
    request for any existing roster is refused with the crew-rest answer,
    between 1 and 480 minutes, at every instant of the following eight
    hours, in both revisions, and the store is left as it is. *)
Theorem rest_is_enforced_after_duty (userId rosterId : Id) (now later oneMonthAgo : Z)
    (st st1 : Store) :
  endDuty userId now st = (DutyCompleted, st1) ->
  is_Some (rosters st !! rosterId) ->
  (now <= later < now + MIN_REST_PERIOD)%Z ->
  exists minutes,
    (0 < minutes <= 480)%Z
    /\ Tuned.startDuty userId rosterId later oneMonthAgo st1 = (CrewRestRequired minutes, st1)
    /\ ServerJs.startDuty userId rosterId later oneMonthAgo st1
       = (CrewRestRequired minutes, st1).
Proof.
  intros Hend [roster Hroster] Hlater. unfold endDuty in Hend.
  destruct (users st !! userId) as [user|]; [|discriminate].
  destruct (bool_decide _); [discriminate|].
  destruct (User.currentRoster user) as [rid|]; [|discriminate].
  destruct (rosters st !! rid) as [r|]; [|discriminate].
  destruct (_ <? _)%nat; [discriminate|]. injection Hend as <-.
  set (user' := goOffDuty user r now).
  destruct (restDenial user' later) as [denial|] eqn:Hrest.
  - assert (Hm : exists minutes, denial = CrewRestRequired minutes).
    { unfold restDenial in Hrest. simpl in Hrest.
      destruct (later - now <? MIN_REST_PERIOD)%Z; [|discriminate].
      injection Hrest as <-. eauto. }
    destruct Hm as [minutes ->]. exists minutes.
    destruct (restDenial_inv _ _ _ Hrest) as (off & Hoff & _ & Hup & Hlow).
    simpl in Hoff. injection Hoff as <-.
    split; [unfold MIN_REST_PERIOD in *; lia|].
    unfold Tuned.startDuty, ServerJs.startDuty. simpl. rewrite Hroster, lookup_insert_eq.
    fold user'. rewrite Hrest. split; reflexivity.
  - exfalso. unfold restDenial in Hrest. simpl in Hrest.
    rewrite (proj2 (Z.ltb_lt _ _)) in Hrest by lia. discriminate.
Qed.

Lemma rest_is_enforced_after_duty_witness :
  let flown := Scenario.report "6E101" 2 APPROVED false (Some (5%positive, "6E101")) in
  let back := Scenario.report "6E102" 3 PENDING true (Some (5%positive, "6E102")) in
  let st := mkStore {[1%positive := Scenario.onDuty]} {[5%positive := Scenario.duty]}
                    {[7%positive := flown; 8%positive := back]} in
  exists st1 minutes,
    endDuty 1%positive 1000%Z st = (DutyCompleted, st1)
    /\ Tuned.startDuty 1%positive 5%positive 2000%Z 0%Z st1 = (CrewRestRequired minutes, st1).
Proof.
  intros flown back st.
  assert (Hend : endDuty 1%positive 1000%Z st
                 = (DutyCompleted, (endDuty 1%positive 1000%Z st).2))
    by (vm_compute; reflexivity).
  destruct (rest_is_enforced_after_duty 1%positive 5%positive 1000%Z 2000%Z 0%Z st _ Hend)
    as (minutes & _ & H & _).
  - exists Scenario.duty. vm_compute. reflexivity.
  - unfold MIN_REST_PERIOD. lia.
  - exists (endDuty 1%positive 1000%Z st).2, minutes. split; [exact Hend|exact H].
Defined.

(** ** Reports and the end-duty count *)

Lemma count_insert {A : Type} (P : Id * A -> Prop) `{!forall kv, Decision (P kv)}
    (m : gmap Id A) (i : Id) (x : A) :
  size (filter P (<[i := x]> m))
  = (if decide (P (i, x)) then S else id) (size (filter P (delete i m))).
Proof.
  destruct (decide (P (i, x))) as [Hp|Hp].
  - rewrite <- insert_delete_eq, map_filter_insert_True by exact Hp.
    apply map_size_insert_None. apply map_lookup_filter_None_2. left. apply lookup_delete_eq.
  - rewrite map_filter_insert_False by exact Hp. reflexivity.
Qed.

Lemma count_lookup {A : Type} (P : Id * A -> Prop) `{!forall kv, Decision (P kv)}
    (m : gmap Id A) (i : Id) (x : A) :
  m !! i = Some x ->
  size (filter P m) = (if decide (P (i, x)) then S else id) (size (filter P (delete i m))).
Proof. intros Hm. rewrite <- (insert_id m i x Hm) at 1. apply count_insert. Qed.

Lemma filedPireps_new (st : Store) (pid : Id) (p : Pirep.t) (userId rosterId : Id) :
  pireps st !! pid = None ->
  filedPireps (putPirep st pid p) userId rosterId
  = (if countsTowards userId rosterId p then S else id) (filedPireps st userId rosterId).
Proof.
  intros Hnew. unfold filedPireps. simpl. rewrite count_insert, (delete_id _ _ Hnew). simpl.
  destruct (countsTowards userId rosterId p).
  - rewrite decide_True by reflexivity. reflexivity.
  - rewrite decide_False by discriminate. reflexivity.
Qed.

Lemma filedPireps_changed (st : Store) (pid : Id) (p p' : Pirep.t) (userId rosterId : Id) :
  pireps st !! pid = Some p ->
  countsTowards userId rosterId p = true ->
  countsTowards userId rosterId p' = false ->
  S (filedPireps (putPirep st pid p') userId rosterId) = filedPireps st userId rosterId.
Proof.
  intros Hp Hc Hc'. unfold filedPireps. simpl.
  rewrite count_insert, (count_lookup _ (pireps st) pid p Hp).
  destruct (decide _) as [H'|_]; [simpl in H'; congruence|].
  destruct (decide _) as [_|H]; [reflexivity|]. simpl in H. contradiction.
Qed.

Lemma fresh_pirep (st : Store) : pireps st !! fresh (dom (pireps st)) = None.
Proof. apply not_elem_of_dom, is_fresh. Qed.

Lemma savePirep_submitted (st st' : Store) (data : Pirep.t) (meta : bool) (pid : Id) :
  savePirep st data meta = (PirepSubmitted pid, st') ->
  meta = true
  /\ validPirep (castPirep data) = true
  /\ pireps st !! pid = None
  /\ st' = putPirep st pid (castPirep data).
Proof.
  unfold savePirep. destruct (validPirep (castPirep data)); [|discriminate].
  destruct meta; [|discriminate]. simpl. intros H. injection H as <- <-.
  split; [reflexivity|]. split; [reflexivity|]. split; [apply fresh_pirep|reflexivity].
Qed.

Lemma savePirep_denied (st : Store) (data : Pirep.t) :
  denied st (savePirep st data false).
Proof. unfold denied, savePirep. rewrite andb_false_r. split; reflexivity. Qed.

(** In part_001 every branch of a filing on duty ends in a denial: the
    last one in [save], which misses the two fields the schema requires. *)
Lemma Tuned_filePirep_on_duty (userId : Id) (req : PirepRequest) (st : Store)
    (pilot : User.t) :
  users st !! userId = Some pilot ->
  User.dutyStatus pilot = ON_DUTY ->
  denied st (Tuned.filePirep userId req st).
Proof.
  intros Hu Hd. unfold Tuned.filePirep.
  destruct (req_file req); [|split; reflexivity].
  destruct (detailsMissing req); [split; reflexivity|].
  rewrite Hu, bool_decide_eq_true_2 by exact Hd.
  destruct (User.currentRoster pilot) as [rosterId|]; [|split; reflexivity].
  destruct (rosters st !! rosterId) as [roster|]; [|split; reflexivity].
  destruct (List.find _ _); [|split; reflexivity].
  destruct (negb _); [split; reflexivity|].
  destruct (existingPirep _ _ _ _); [split; reflexivity|].
  destruct (last _); [|split; reflexivity].
  apply savePirep_denied.
Qed.

Lemma validPirep_hours (p : Pirep.t) : validPirep p = true -> 0.1 <= Pirep.flightTime p.
Proof.
  unfold validPirep. rewrite !andb_true_iff. intros [_ H]. now apply Qle_bool_iff.
Qed.

Lemma filePirep_submitted (userId : Id) (req : PirepRequest) (st st' : Store) (pid : Id)
    (pilot : User.t) :
  users st !! userId = Some pilot ->
  Tuned.filePirep userId req st = (PirepSubmitted pid, st')
  \/ ServerJs.filePirep userId req st = (PirepSubmitted pid, st') ->
  exists p,
    pireps st !! pid = None
    /\ st' = putPirep st pid p
    /\ Pirep.pilot p = userId
    /\ Pirep.status p = PENDING
    /\ Pirep.flightTime p = req_flightTime req
    /\ 0.1 <= Pirep.flightTime p
    /\ Pirep.departure p = Js.toUpperCase (Js.trim (req_departure req))
    /\ Pirep.arrival p = Js.toUpperCase (Js.trim (req_arrival req))
    /\ Pirep.isMultiplierEligible p = false
    /\ ((User.dutyStatus pilot = ON_DUTY
         /\ ServerJs.filePirep userId req st = (PirepSubmitted pid, st')
         /\ exists rosterId, User.currentRoster pilot = Some rosterId
              /\ Pirep.rosterLeg p = Some (rosterId, req_flightNumber req))
        \/ (User.dutyStatus pilot <> ON_DUTY /\ Pirep.rosterLeg p = None)).
Proof.
  intros Hu [H|H].
  - destruct (decide (User.dutyStatus pilot = ON_DUTY)) as [Hd|Hd].
    { destruct (Tuned_filePirep_on_duty userId req st pilot Hu Hd) as [Hacc _].
      rewrite H in Hacc. discriminate Hacc. }
    unfold Tuned.filePirep in H.
    destruct (req_file req); [|discriminate].
    destruct (detailsMissing req); [discriminate|]. rewrite Hu in H.
    rewrite bool_decide_eq_false_2 in H by exact Hd.
    destruct (negb _); [discriminate|].
    apply savePirep_submitted in H. destruct H as (_ & Hv & Hnew & ->).
    eexists. split; [exact Hnew|]. split; [reflexivity|].
    split; [reflexivity|]. split; [reflexivity|]. split; [reflexivity|].
    split; [exact (validPirep_hours _ Hv)|].
    split; [reflexivity|]. split; [reflexivity|]. split; [reflexivity|].
    right. split; [exact Hd|reflexivity].
  - pose proof H as Hrun. unfold ServerJs.filePirep in H.
    destruct (detailsMissing req); [discriminate|]. rewrite Hu in H.
    destruct (bool_decide (User.dutyStatus pilot = ON_DUTY)) eqn:Hd.
    + apply bool_decide_eq_true in Hd.
      destruct (User.currentRoster pilot) as [rosterId|]; [|discriminate].
      destruct (rosters st !! rosterId) as [roster|]; [|discriminate].
      destruct (List.find _ _); [|discriminate].
      destruct (existingPirep _ _ _ _); [discriminate|].
      apply savePirep_submitted in H. destruct H as (_ & Hv & Hnew & ->).
      eexists. split; [exact Hnew|]. split; [reflexivity|].
      split; [reflexivity|]. split; [reflexivity|]. split; [reflexivity|].
      split; [exact (validPirep_hours _ Hv)|].
      split; [reflexivity|]. split; [reflexivity|]. split; [reflexivity|].
      left. split; [exact Hd|]. split; [exact Hrun|]. eauto.
    + apply bool_decide_eq_false in Hd.
      apply savePirep_submitted in H. destruct H as (_ & Hv & Hnew & ->).
      eexists. split; [exact Hnew|]. split; [reflexivity|].
      split; [reflexivity|]. split; [reflexivity|]. split; [reflexivity|].
      split; [exact (validPirep_hours _ Hv)|].
      split; [reflexivity|]. split; [reflexivity|]. split; [reflexivity|].
      right. split; [exact Hd|reflexivity].
Qed.

(** X18.  An accepted filing adds one pending report under a new id, with
    the airport codes trimmed and in capitals and at least 0.1 h claimed,
    not multiplier-eligible, and touches no other report, no user and no
    roster.  In server.js a filing accepted on duty is linked to the
    current roster and raises by one the count end-duty compares with the
    roster's legs.  In part_001 no filing on duty is accepted at all: the
    report lacks the [rankUnlock] and [operator] its schema requires, so
    [save] throws and nothing is stored.  A report filed off duty carries
    no roster link and counts towards no roster. *)
Theorem filed_leg_counts_towards_duty (userId : Id) (req : PirepRequest) (st : Store)
    (pilot : User.t) :
  users st !! userId = Some pilot ->
  (User.dutyStatus pilot = ON_DUTY -> denied st (Tuned.filePirep userId req st))
  /\ forall (pid : Id) (st' : Store),
       Tuned.filePirep userId req st = (PirepSubmitted pid, st')
       \/ ServerJs.filePirep userId req st = (PirepSubmitted pid, st') ->
       pireps st !! pid = None
       /\ users st' = users st /\ rosters st' = rosters st
       /\ (exists p, pireps st' = <[pid := p]> (pireps st)
                     /\ Pirep.pilot p = userId /\ Pirep.status p = PENDING
                     /\ 0.1 <= Pirep.flightTime p
                     /\ Pirep.departure p = Js.toUpperCase (Js.trim (req_departure req))
                     /\ Pirep.arrival p = Js.toUpperCase (Js.trim (req_arrival req))
                     /\ Pirep.isMultiplierEligible p = false
                     /\ (User.dutyStatus pilot <> ON_DUTY -> Pirep.rosterLeg p = None))
       /\ (User.dutyStatus pilot = ON_DUTY ->
           ServerJs.filePirep userId req st = (PirepSubmitted pid, st')
           /\ exists rosterId,
                User.currentRoster pilot = Some rosterId
                /\ filedPireps st' userId rosterId = S (filedPireps st userId rosterId))
       /\ (User.dutyStatus pilot <> ON_DUTY ->
           forall rosterId, filedPireps st' userId rosterId = filedPireps st userId rosterId).
Proof.
  intros Hu. split; [exact (Tuned_filePirep_on_duty userId req st pilot Hu)|].
  intros pid st' H.
  destruct (filePirep_submitted _ _ _ _ _ _ Hu H)
    as (p & Hnew & -> & Hpilot & Hstatus & _ & Hmin & Hdep & Harr & Hel & Hlink).
  split; [exact Hnew|]. split; [reflexivity|]. split; [reflexivity|].
  split; [|split].
  - exists p. split; [reflexivity|]. split; [exact Hpilot|]. split; [exact Hstatus|].
    split; [exact Hmin|]. split; [exact Hdep|]. split; [exact Harr|]. split; [exact Hel|].
    intros Hd. destruct Hlink as [[Hon _]|[_ Hl]]; [contradiction|exact Hl].
  - intros Hd. destruct Hlink as [(_ & Hrun & rosterId & Hc & Hl)|[Hn _]]; [|contradiction].
    split; [exact Hrun|]. exists rosterId. split; [exact Hc|].
    rewrite (filedPireps_new st pid p userId rosterId Hnew).
    unfold countsTowards. rewrite Hl, Hstatus, Hpilot. simpl.
    rewrite !bool_decide_eq_true_2 by reflexivity. reflexivity.
  - intros Hd rosterId. destruct Hlink as [[Hon _]|[_ Hl]]; [contradiction|].
    rewrite (filedPireps_new st pid p userId rosterId Hnew).
    unfold countsTowards. rewrite Hl. cbn [fmap option_fmap option_map].
    rewrite (bool_decide_eq_false_2 (None = Some rosterId)) by discriminate.
    rewrite andb_false_r. reflexivity.
Qed.

Lemma filed_leg_counts_towards_duty_witness :
  let st := mkStore {[1%positive := Scenario.onDuty]} {[5%positive := Scenario.duty]} ∅ in
  let req := mkPirepRequest "6E101" "VIDP" "VABB" "A320" 2 None (Some "s3://proof.png") in
  denied st (Tuned.filePirep 1%positive req st)
  /\ exists pid st',
       ServerJs.filePirep 1%positive req st = (PirepSubmitted pid, st')
       /\ filedPireps st 1%positive 5%positive = 0%nat
       /\ filedPireps st' 1%positive 5%positive = 1%nat.
Proof.
  intros st req.
  destruct (filed_leg_counts_towards_duty 1%positive req st Scenario.onDuty
              ltac:(vm_compute; reflexivity)) as [Hden Hacc].
  split; [exact (Hden eq_refl)|].
  assert (H : ServerJs.filePirep 1%positive req st
              = (PirepSubmitted 1%positive, (ServerJs.filePirep 1%positive req st).2))
    by (vm_compute; reflexivity).
  exists 1%positive, (ServerJs.filePirep 1%positive req st).2.
  split; [exact H|]. split; [vm_compute; reflexivity|].
  destruct (Hacc _ _ (or_intror H)) as (_ & _ & _ & _ & Hon & _).
  destruct (Hon eq_refl) as (_ & rosterId & Hc & Hcount).
  injection Hc as <-. rewrite Hcount. vm_compute. reflexivity.
Defined.

(** X19.  In the tuned revision a review is final: once a report has been
    approved or rejected, every later approval or rejection of it is
    refused and changes nothing, so a report's hours are credited at most
    once. *)
Theorem review_is_final (reviewer pirepId : Id) (reason : string) (now : Z) (st st1 : Store)
    (answer : Response) :
  (Tuned.approvePirep reviewer pirepId now st = (answer, st1)
   \/ Tuned.rejectPirep reviewer pirepId reason now st = (answer, st1)) ->
  accepted answer = true ->
  forall (reviewer' : Id) (reason' : string) (later : Z),
    (exists was, Tuned.approvePirep reviewer' pirepId later st1 = (AlreadyReviewed was, st1))
    /\ (Tuned.rejectPirep reviewer' pirepId reason' later st1).2 = st1
    /\ accepted (Tuned.rejectPirep reviewer' pirepId reason' later st1).1 = false.
Proof.
  intros Hfirst Hacc reviewer' reason' later.
  assert (Hdone : exists p, pireps st1 !! pirepId = Some p /\ Pirep.status p <> PENDING).
  { destruct Hfirst as [H|H].
    - unfold Tuned.approvePirep in H.
      destruct (pireps st !! pirepId) as [pirep|]; [|injection H as <- <-; discriminate].
      destruct (bool_decide _); [injection H as <- <-; discriminate|].
      destruct (users st !! Pirep.pilot pirep); [|injection H as <- <-; discriminate].
      destruct (Tuned.awardedHours pirep st) as [h m].
      destruct (Tuned.checkAndApplyRankUpdate _) as [a pa].
      injection H as <- <-. eexists. split; [apply lookup_insert_eq|]. simpl. discriminate.
    - unfold Tuned.rejectPirep in H.
      destruct (String.eqb reason ""); [injection H as <- <-; discriminate|].
      destruct (pireps st !! pirepId) as [pirep|]; [|injection H as <- <-; discriminate].
      destruct (bool_decide _); [injection H as <- <-; discriminate|].
      injection H as <- <-. eexists. split; [apply lookup_insert_eq|]. simpl. discriminate. }
  destruct Hdone as (p & Hp & Hs). split.
  - exists (Pirep.status p). exact (Tuned_approve_reviewed_is_inert _ _ _ _ _ Hp Hs).
  - exact (Tuned_reject_reviewed_is_inert _ _ _ _ _ _ Hp Hs).
Qed.

Lemma review_is_final_witness :
  let flown := Scenario.report "6E101" 2 PENDING false None in
  let st := mkStore {[1%positive := Scenario.cadet]} ∅ {[7%positive := flown]} in
  let st1 := (Tuned.approvePirep 2%positive 7%positive 1000%Z st).2 in
  accepted (Tuned.approvePirep 2%positive 7%positive 1000%Z st).1 = true
  /\ exists was, Tuned.approvePirep 3%positive 7%positive 2000%Z st1 = (AlreadyReviewed was, st1).
Proof.
  intros flown st st1.
  assert (Hacc : accepted (Tuned.approvePirep 2%positive 7%positive 1000%Z st).1 = true)
    by (vm_compute; reflexivity).
  split; [exact Hacc|].
  exact (proj1 (review_is_final 2%positive 7%positive "" 1000%Z st st1
                  (Tuned.approvePirep 2%positive 7%positive 1000%Z st).1
                  (or_introl (surjective_pairing _)) Hacc 3%positive "" 2000%Z)).
Defined.

(** X20.  Rejecting a pending report filed against a roster leg takes it
    out of the end-duty count, yet the duplicate guard still finds it: the
    pilot, still on that duty, cannot file the leg again under the same
    flight number.  Both revisions. *)
Theorem rejected_leg_cannot_be_refiled (reviewer pirepId userId rosterId : Id)
    (reason : string) (now : Z) (st st2 : Store) (p : Pirep.t) (pilot : User.t)
    (req : PirepRequest) :
  pireps st !! pirepId = Some p ->
  Pirep.status p = PENDING ->
  Pirep.pilot p = userId ->
  Pirep.rosterLeg p = Some (rosterId, req_flightNumber req) ->
  users st !! userId = Some pilot ->
  User.dutyStatus pilot = ON_DUTY ->
  User.currentRoster pilot = Some rosterId ->
  Tuned.rejectPirep reviewer pirepId reason now st = (PirepRejected, st2)
  \/ ServerJs.rejectPirep reviewer pirepId reason now st = (PirepRejected, st2) ->
  S (filedPireps st2 userId rosterId) = filedPireps st userId rosterId
  /\ denied st2 (Tuned.filePirep userId req st2)
  /\ denied st2 (ServerJs.filePirep userId req st2).
Proof.
  intros Hp Hs Hpu Hl Hu Hd Hc Hrej.
  assert (Hst2 : exists p', st2 = putPirep st pirepId p'
                   /\ Pirep.status p' = REJECTED /\ Pirep.pilot p' = userId
                   /\ Pirep.rosterLeg p' = Some (rosterId, req_flightNumber req)).
  { destruct Hrej as [H|H].
    - unfold Tuned.rejectPirep in H. destruct (String.eqb reason ""); [discriminate|].
      rewrite Hp in H. destruct (bool_decide _); [discriminate|].
      injection H as <-. eexists. split; [reflexivity|]. simpl. repeat split; assumption.
    - unfold ServerJs.rejectPirep in H. destruct (String.eqb reason ""); [discriminate|].
      rewrite Hp in H. destruct (bool_decide _); [discriminate|].
      injection H as <-. eexists. split; [reflexivity|]. simpl. repeat split; assumption. }
  destruct Hst2 as (p' & -> & Hs' & Hpu' & Hl'). split.
  - apply (filedPireps_changed st pirepId p p' userId rosterId Hp).
    + unfold countsTowards. rewrite Hl, Hs, Hpu. simpl.
      rewrite !bool_decide_eq_true_2 by reflexivity. reflexivity.
    + unfold countsTowards. rewrite Hs'.
      rewrite (bool_decide_eq_false_2 (REJECTED = APPROVED)) by discriminate.
      rewrite (bool_decide_eq_false_2 (REJECTED = PENDING)) by discriminate.
      apply andb_false_r.
  - assert (H : denied (putPirep st pirepId p') (ServerJs.filePirep userId req (putPirep st pirepId p'))
                /\ denied (putPirep st pirepId p') (Tuned.filePirep userId req (putPirep st pirepId p'))).
    { apply (duplicate_same_spelling_rejected userId rosterId pirepId req _ pilot p');
        try assumption. simpl. apply lookup_insert_eq. }
    split; tauto.
Qed.

Lemma rejected_leg_cannot_be_refiled_witness :
  let filed := Scenario.report "6E101" 2 PENDING false (Some (5%positive, "6E101")) in
  let st := mkStore {[1%positive := Scenario.onDuty]} {[5%positive := Scenario.duty]}
                    {[7%positive := filed]} in
  let req := mkPirepRequest "6E101" "VIDP" "VABB" "A320" 2 None (Some "s3://proof.png") in
  let st2 := (Tuned.rejectPirep 2%positive 7%positive "no image" 1000%Z st).2 in
  filedPireps st 1%positive 5%positive = 1%nat
  /\ filedPireps st2 1%positive 5%positive = 0%nat
  /\ denied st2 (Tuned.filePirep 1%positive req st2).
Proof.
  intros filed st req st2.
  assert (H1 : filedPireps st 1%positive 5%positive = 1%nat) by (vm_compute; reflexivity).
  destruct (rejected_leg_cannot_be_refiled 2%positive 7%positive 1%positive 5%positive
              "no image" 1000%Z st st2 filed Scenario.onDuty req) as (Hcount & Hden & _).
  - vm_compute. reflexivity.
  - reflexivity.
  - reflexivity.
  - reflexivity.
  - vm_compute. reflexivity.
  - reflexivity.
  - reflexivity.
  - left. vm_compute. reflexivity.
  - split; [exact H1|]. split; [|exact Hden]. rewrite H1 in Hcount. lia.
Defined.

(** ** Roster and user administration *)

Lemma reduceFlightTime_sum (legs : list Leg.t) :
  Admin.reduceFlightTime legs == sumFlightTime legs.
Proof.
  unfold Admin.reduceFlightTime.
  assert (H : forall acc, fold_left (fun s L => s + Leg.flightTime L) legs acc
                          == acc + sumFlightTime legs).
  { induction legs as [|l legs IH]; intros acc; simpl.
    - ring.
    - rewrite IH. ring. }
  rewrite H. ring.
Qed.

Lemma createRoster_created (admin : Id) (req : Admin.RosterRequest) (st st1 : Store)
    (g g1 : Random) (rosterId : Id) (log : list Admin.LogAction) :
  Admin.createRoster admin req st g = Some ((Admin.RosterCreated rosterId, st1, log), g1) ->
  exists r,
    rosters st !! rosterId = None
    /\ st1 = mkStore (users st) (<[rosterId := r]> (rosters st)) (pireps st)
    /\ Roster.isGenerated r = false
    /\ Roster.createdBy r = Some admin
    /\ validRoster r = true
    /\ Roster.legs r = map castLeg (map Admin.finishLeg (Admin.new_legs req))
    /\ Roster.totalFlightTime r
       = match Admin.new_totalFlightTime req with
         | Some t => if Js.gtb t 0 then t
                     else Admin.reduceFlightTime (map Admin.finishLeg (Admin.new_legs req))
         | None => Admin.reduceFlightTime (map Admin.finishLeg (Admin.new_legs req))
         end
    /\ Roster.multiplier r = Js.toFixed2 (1.1 + stream g (calls g) * 0.4).
Proof.
  unfold Admin.createRoster. destruct (_ || _).
  - intros H. apply Gen_ret_inv in H. destruct H as [H _]. discriminate H.
  - intros H. gen_inv H. apply Math_random_inv in Hrun. destruct Hrun as [-> _].
    destruct (validRoster _) eqn:Hv.
    + apply Gen_ret_inv in Hrest. destruct Hrest as [E _]. injection E as -> -> ->.
      eexists. split; [apply not_elem_of_dom, is_fresh|].
      split; [reflexivity|]. split; [reflexivity|]. split; [reflexivity|].
      split; [exact Hv|]. repeat split; reflexivity.
    + apply Gen_ret_inv in Hrest. destruct Hrest as [E _]. discriminate E.
Qed.

Lemma sumFlightTime_cast (legs : list Leg.t) :
  sumFlightTime (map castLeg legs) = sumFlightTime legs.
Proof. induction legs as [|l legs IH]; simpl; [reflexivity|]. now rewrite IH. Qed.

Lemma generation_keeps_manual (sheets : list Sheet) (allLegs : list Leg.t) (g : Random)
    (st : Store) :
  manualUntouched (rosters st) (rosters (Tuned.generateRostersFromGoogleSheet sheets g st).2)
  /\ manualUntouched (rosters st) (rosters (ServerJs.generateRostersFromLegs allLegs g st).2).
Proof.
  split.
  - rewrite Tuned_generate_unfold.
    refine (proj1 (proj2 (proj2 (generation_contract Tuned.buildRosters (Tuned.ingest sheets)
                                   g st _ _)))).
    + apply Tuned_buildRosters_built.
    + intros ->. reflexivity.
  - rewrite ServerJs_generate_unfold.
    refine (proj1 (proj2 (proj2 (generation_contract ServerJs.buildRosters allLegs g st _ _)))).
    + apply ServerJs_buildRosters_built.
    + intros ->. reflexivity.
Qed.

(** X21.  [POST /api/rosters] stores the roster under a new id, not
    generated, owned by the caller.  The stored legs carry neither operator
    nor rank unlock (the roster schema declares neither, so what the
    handler fills in is dropped) and each is at least 0.1 h long; the total
    is the sum of the stored legs' times when the request gives none; the
    multiplier is within the schema's 1 to 2, and between 1.1 and 1.5 for a
    [Math.random] value in [0, 1); and any later generation run, of either
    revision, leaves the roster in the store as it is. *)
Theorem manual_roster_survives_generation (admin : Id) (req : Admin.RosterRequest)
    (st st1 : Store) (g g1 : Random) (rosterId : Id) (log : list Admin.LogAction) :
  Admin.createRoster admin req st g = Some ((Admin.RosterCreated rosterId, st1, log), g1) ->
  exists r,
    rosters st !! rosterId = None
    /\ rosters st1 !! rosterId = Some r
    /\ Roster.isGenerated r = false /\ Roster.createdBy r = Some admin
    /\ Forall (fun l => Leg.operator l = None /\ Leg.rankUnlock l = None
                        /\ 0.1 <= Leg.flightTime l) (Roster.legs r)
    /\ (Admin.new_totalFlightTime req = None ->
        Roster.totalFlightTime r == sumFlightTime (Roster.legs r))
    /\ (1 <= Roster.multiplier r /\ Roster.multiplier r <= 2)
    /\ (fair g -> 1.1 <= Roster.multiplier r /\ Roster.multiplier r <= 1.5)
    /\ (forall sheets g',
          rosters (Tuned.generateRostersFromGoogleSheet sheets g' st1).2 !! rosterId = Some r)
    /\ (forall allLegs g',
          rosters (ServerJs.generateRostersFromLegs allLegs g' st1).2 !! rosterId = Some r).
Proof.
  intros H.
  destruct (createRoster_created _ _ _ _ _ _ _ _ H)
    as (r & Hnew & -> & Hgen & Hby & Hvalid & Hlegs & Htotal & Hmult).
  assert (Hr : rosters (mkStore (users st) (<[rosterId := r]> (rosters st)) (pireps st))
               !! rosterId = Some r) by apply lookup_insert_eq.
  unfold validRoster in Hvalid. rewrite !andb_true_iff in Hvalid.
  destruct Hvalid as [[[[_ Hall] _] Hlo] Hhi].
  exists r. split; [exact Hnew|]. split; [exact Hr|].
  split; [exact Hgen|]. split; [exact Hby|].
  split; [|split; [|split; [|split; [|split]]]].
  - apply Forall_forall. intros l Hl.
    rewrite forallb_forall in Hall. pose proof (Hall l (proj1 (list_elem_of_In _ _) Hl)) as Hv.
    rewrite Hlegs in Hl. apply list_elem_of_In, in_map_iff in Hl.
    destruct Hl as (l0 & <- & _). split; [reflexivity|]. split; [reflexivity|].
    unfold validLeg in Hv. rewrite !andb_true_iff in Hv. destruct Hv as [_ Hv].
    now apply Qle_bool_iff.
  - intros Hnone. rewrite Htotal, Hnone, Hlegs, sumFlightTime_cast.
    apply reduceFlightTime_sum.
  - split; now apply Qle_bool_iff.
  - intros Hfair. rewrite Hmult. destruct (Hfair (calls g)) as [H0 H1].
    exact (multiplier_range _ H0 H1).
  - intros sheets g'.
    apply (proj1 (generation_keeps_manual sheets [] g' _) rosterId r Hgen). exact Hr.
  - intros allLegs g'.
    apply (proj2 (generation_keeps_manual [] allLegs g' _) rosterId r Hgen). exact Hr.
Qed.

Lemma manual_roster_survives_generation_witness :
  let req := Admin.mkRosterRequest "Charter" "VIDP" [Scenario.leg1; Scenario.leg2] None in
  exists rosterId st1 g1 r,
    Admin.createRoster 9%positive req Scenario.hangar Scenario.zeros
    = Some ((Admin.RosterCreated rosterId, st1, [Admin.ROSTER_CREATE]), g1)
    /\ rosters st1 !! rosterId = Some r
    /\ rosters (Tuned.generateRostersFromGoogleSheet [Scenario.routes] Scenario.zeros st1).2
       !! rosterId = Some r.
Proof.
  intros req.
  assert (Hrun : exists rosterId st1 g1,
             Admin.createRoster 9%positive req Scenario.hangar Scenario.zeros
             = Some ((Admin.RosterCreated rosterId, st1, [Admin.ROSTER_CREATE]), g1))
    by (eexists _, _, _; vm_compute; reflexivity).
  destruct Hrun as (rosterId & st1 & g1 & Hrun).
  destruct (manual_roster_survives_generation _ _ _ _ _ _ _ _ Hrun)
    as (r & _ & Hr & _ & _ & _ & _ & _ & _ & Hkeep & _).
  exists rosterId, st1, g1, r. split; [exact Hrun|]. split; [exact Hr|apply Hkeep].
Defined.

(** X22.  [POST /api/rosters] does not hold the declared total against
    the daily ceiling: a roster declared above ten hours is stored, and
    from then on start-duty refuses it to every pilot whose daily hours are
    not negative, in both revisions. *)
Theorem roster_above_ceiling_is_stored_but_unflyable (admin : Id) (req : Admin.RosterRequest)
    (st st1 : Store) (g g1 : Random) (rosterId : Id) (log : list Admin.LogAction) (t : Q) :
  Admin.createRoster admin req st g = Some ((Admin.RosterCreated rosterId, st1, log), g1) ->
  Admin.new_totalFlightTime req = Some t ->
  MAX_DAILY_FLIGHT_HOURS < t ->
  forall (userId : Id) (user : User.t) (now oneMonthAgo : Z),
    users st1 !! userId = Some user ->
    0 <= User.dailyFlightHours user ->
    denied st1 (Tuned.startDuty userId rosterId now oneMonthAgo st1)
    /\ denied st1 (ServerJs.startDuty userId rosterId now oneMonthAgo st1).
Proof.
  intros H Ht Hover userId user now oneMonthAgo Hu Hdaily.
  destruct (createRoster_created _ _ _ _ _ _ _ _ H)
    as (r & _ & -> & _ & _ & _ & _ & Htotal & _).
  rewrite Ht in Htotal.
  assert (Hpos : Js.gtb t 0 = true).
  { apply gtb_true_lt. apply Qlt_trans with MAX_DAILY_FLIGHT_HOURS; [reflexivity|exact Hover]. }
  rewrite Hpos in Htotal.
  apply (startDuty_denied_by_tests userId rosterId now oneMonthAgo _ user r Hu).
  - apply lookup_insert_eq.
  - right. apply quotaDenial_some. right.
    rewrite (proj1 (monthlyReset_daily user now oneMonthAgo)), Htotal.
    apply Qlt_le_trans with (0 + t); [now rewrite Qplus_0_l|].
    apply Qplus_le_l. exact Hdaily.
Qed.

Lemma roster_above_ceiling_is_stored_but_unflyable_witness :
  let req := Admin.mkRosterRequest "Long haul" "VIDP" [Scenario.leg1; Scenario.leg2]
               (Some 12) in
  let st := mkStore {[1%positive := Scenario.cadet]} ∅ ∅ in
  exists rosterId st1 g1,
    Admin.createRoster 9%positive req st Scenario.zeros
    = Some ((Admin.RosterCreated rosterId, st1, [Admin.ROSTER_CREATE]), g1)
    /\ denied st1 (Tuned.startDuty 1%positive rosterId 0%Z 0%Z st1).
Proof.
  intros req st.
  assert (Hrun : exists rosterId st1 g1,
             Admin.createRoster 9%positive req st Scenario.zeros
             = Some ((Admin.RosterCreated rosterId, st1, [Admin.ROSTER_CREATE]), g1)
             /\ users st1 !! 1%positive = Some Scenario.cadet)
    by (eexists _, _, _; split; vm_compute; reflexivity).
  destruct Hrun as (rosterId & st1 & g1 & Hrun & Hu).
  exists rosterId, st1, g1. split; [exact Hrun|].
  refine (proj1 (roster_above_ceiling_is_stored_but_unflyable _ _ _ _ _ _ _ _ 12 Hrun eq_refl _
                   1%positive Scenario.cadet 0%Z 0%Z Hu _)).
  - reflexivity.
  - vm_compute. discriminate.
Defined.

Lemma withinRank_all (rank : string) (r : Roster.t) :
  Admin.withinRank rank r = true ->
  List.find (fun l => negb (Tuned.canFlyLeg rank (Tuned.getLegRequiredRank l))) (Roster.legs r)
  = None.
Proof.
  unfold Admin.withinRank. rewrite andb_true_iff, forallb_forall. intros [_ H].
  apply find_none_of_all. intros l Hl. apply list_elem_of_In in Hl.
  rewrite (H l Hl). reflexivity.
Qed.

(** X23.  Both roster listings agree with the start-duty gate: a roster
    listed for a pilot is in the store, is available, has a first leg, has
    no leg above the pilot's rank, and a start-duty request for it is never
    refused for rank (it can still be refused for rest or hours). *)
Theorem listed_rosters_pass_the_rank_gate (userId rosterId : Id) (st : Store)
    (listed : gmap Id Roster.t) (user : User.t) (r : Roster.t) :
  Admin.availableRosters userId st = Some listed
  \/ Admin.myRosters userId st = Some listed ->
  users st !! userId = Some user ->
  listed !! rosterId = Some r ->
  rosters st !! rosterId = Some r
  /\ Roster.isAvailable r = true
  /\ is_Some (head (Roster.legs r))
  /\ Forall (fun l => Tuned.canFlyLeg (User.rank user) (Tuned.getLegRequiredRank l) = true)
            (Roster.legs r)
  /\ forall (now oneMonthAgo : Z) (leg : Leg.t) (required : string),
       (Tuned.startDuty userId rosterId now oneMonthAgo st).1 <> RosterAboveRank leg required.
Proof.
  intros Hlist Hu Hl.
  assert (H : rosters st !! rosterId = Some r
              /\ (exists locations, Admin.departsFrom locations r = true)
              /\ Admin.withinRank (User.rank user) r = true).
  { unfold Admin.availableRosters, Admin.myRosters in Hlist. rewrite Hu in Hlist.
    destruct Hlist as [E|E]; injection E as <-;
      apply map_lookup_filter_Some in Hl; destruct Hl as [Hr [Hd Hw]]; simpl in Hd, Hw;
      (split; [exact Hr|split; [eauto|exact Hw]]). }
  destruct H as (Hr & (locations & Hd) & Hw).
  unfold Admin.departsFrom in Hd. apply andb_true_iff in Hd. destruct Hd as [Hav Hhead].
  split; [exact Hr|]. split; [exact Hav|]. split; [|split].
  - destruct (head (Roster.legs r)); [eauto|discriminate].
  - unfold Admin.withinRank in Hw. apply andb_true_iff in Hw. destruct Hw as [_ Hw].
    rewrite forallb_forall in Hw. apply Forall_forall. intros l Hin.
    apply Hw. now apply list_elem_of_In.
  - intros now oneMonthAgo leg required. unfold Tuned.startDuty. rewrite Hr, Hu.
    destruct (bool_decide _); [discriminate|].
    destruct (restDenial user now) as [d|] eqn:Hrest.
    + unfold restDenial in Hrest. destruct (User.lastDutyOff user); [|discriminate].
      destruct (_ <? _)%Z; [|discriminate]. injection Hrest as <-. discriminate.
    + destruct (quotaDenial _ r) as [d|] eqn:Hq.
      * unfold quotaDenial in Hq. destruct (Js.gtb _ _); [injection Hq as <-; discriminate|].
        destruct (Js.gtb _ _); [injection Hq as <-; discriminate|discriminate].
      * rewrite (proj2 (monthlyReset_daily user now oneMonthAgo)).
        rewrite (withinRank_all _ _ Hw). discriminate.
Qed.

Lemma listed_rosters_pass_the_rank_gate_witness :
  let st := mkStore {[1%positive := Scenario.cadet]}
                    {[5%positive := Scenario.duty; 6%positive := Scenario.oddDuty]} ∅ in
  exists listed,
    Admin.availableRosters 1%positive st = Some listed
    /\ listed !! 5%positive = Some Scenario.duty
    /\ listed !! 6%positive = None
    /\ Roster.isAvailable Scenario.duty = true.
Proof.
  intros st.
  assert (Hl : exists listed, Admin.availableRosters 1%positive st = Some listed
                              /\ listed !! 5%positive = Some Scenario.duty
                              /\ listed !! 6%positive = None)
    by (eexists; split; [reflexivity|]; split; vm_compute; reflexivity).
  destruct Hl as (listed & Hl & H5 & H6).
  exists listed. split; [exact Hl|]. split; [exact H5|]. split; [exact H6|].
  exact (proj1 (proj2 (listed_rosters_pass_the_rank_gate 1%positive 5%positive st listed
                         Scenario.cadet Scenario.duty (or_introl Hl)
                         ltac:(vm_compute; reflexivity) H5))).
Defined.

(** X24.  [DELETE /api/users/:userId] refuses the caller's own id and an
    unknown id without touching the store; otherwise it removes that user
    and exactly that user's reports, leaves every other user, every other
    report and all rosters as they are, and leaves every other pilot's
    end-duty count unchanged. *)
Theorem deleting_a_user_removes_exactly_their_reports (admin userId : Id) (st : Store) :
  let '(reply, st', log) := Admin.deleteUser admin userId st in
  (reply <> Admin.UserDeleted -> st' = st /\ log = [])
  /\ (reply = Admin.UserDeleted ->
      admin <> userId
      /\ users st' !! userId = None
      /\ (forall id, id <> userId -> users st' !! id = users st !! id)
      /\ (forall pid p, pireps st' !! pid = Some p
                        <-> pireps st !! pid = Some p /\ Pirep.pilot p <> userId)
      /\ rosters st' = rosters st
      /\ (forall other rosterId, other <> userId ->
            filedPireps st' other rosterId = filedPireps st other rosterId)).
Proof.
  unfold Admin.deleteUser.
  destruct (bool_decide (admin = userId)) eqn:Hown.
  - split; [intros _; split; reflexivity|discriminate].
  - apply bool_decide_eq_false in Hown.
    destruct (users st !! userId) as [u|]; [|split; [intros _; split; reflexivity|discriminate]].
    split; [intros H; now contradiction H|]. intros _.
    split; [exact Hown|]. split; [apply lookup_delete_eq|].
    split; [intros id Hid; now apply lookup_delete_ne|]. split; [|split; [reflexivity|]].
    + intros pid p. simpl. rewrite map_lookup_filter_Some. simpl. tauto.
    + intros other rosterId Hother. unfold filedPireps. simpl. f_equal.
      apply map_filter_filter_l. intros i p _ Hc. simpl in *.
      unfold countsTowards in Hc. rewrite !andb_true_iff, bool_decide_eq_true in Hc.
      destruct Hc as [[Hp _] _]. congruence.
Qed.

(** X25.  Deleting the roster a pilot is on duty with leaves the pilot
    stranded: end-duty answers that no roster is assigned, start-duty that
    the pilot is already on duty, and no flight report is accepted, each
    time without any change to the store, in both revisions. *)
Theorem deleting_the_roster_strands_the_pilot (userId rosterId : Id) (st st' : Store)
    (user : User.t) (log : list Admin.LogAction) :
  users st !! userId = Some user ->
  User.dutyStatus user = ON_DUTY ->
  User.currentRoster user = Some rosterId ->
  Admin.deleteRoster rosterId st = (Admin.RosterDeleted, st', log) ->
  (forall now, endDuty userId now st' = (NoRosterAssigned, st'))
  /\ (forall other now oneMonthAgo,
        denied st' (Tuned.startDuty userId other now oneMonthAgo st')
        /\ denied st' (ServerJs.startDuty userId other now oneMonthAgo st'))
  /\ (forall req,
        denied st' (Tuned.filePirep userId req st')
        /\ denied st' (ServerJs.filePirep userId req st')).
Proof.
  intros Hu Hd Hc Hdel. unfold Admin.deleteRoster in Hdel.
  destruct (rosters st !! rosterId); [|discriminate]. injection Hdel as <- _.
  assert (Hgone : delete rosterId (rosters st) !! rosterId = None) by apply lookup_delete_eq.
  split; [|split].
  - intros now. unfold endDuty. simpl. rewrite Hu.
    rewrite bool_decide_eq_false_2 by (intros H; now apply H).
    rewrite Hc, Hgone. reflexivity.
  - intros other now oneMonthAgo. unfold denied, Tuned.startDuty, ServerJs.startDuty. simpl.
    destruct (delete rosterId (rosters st) !! other); [|repeat split; reflexivity].
    rewrite Hu, bool_decide_eq_true_2 by exact Hd. repeat split; reflexivity.
  - intros req. unfold denied, Tuned.filePirep, ServerJs.filePirep. simpl.
    destruct (req_file req); destruct (detailsMissing req); try (repeat split; reflexivity);
      rewrite Hu, bool_decide_eq_true_2 by exact Hd; rewrite Hc, Hgone;
      repeat split; reflexivity.
Qed.

Lemma deleting_the_roster_strands_the_pilot_witness :
  let st := mkStore {[1%positive := Scenario.onDuty]} {[5%positive := Scenario.duty]} ∅ in
  let st' := (Admin.deleteRoster 5%positive st).1.2 in
  endDuty 1%positive 1000%Z st' = (NoRosterAssigned, st')
  /\ rosters st' !! 5%positive = None.
Proof.
  intros st st'.
  split; [|vm_compute; reflexivity].
  refine (proj1 (deleting_the_roster_strands_the_pilot 1%positive 5%positive st st'
                   Scenario.onDuty [Admin.ROSTER_DELETE] _ _ _ _) 1000%Z).
  - vm_compute. reflexivity.
  - reflexivity.
  - reflexivity.
  - vm_compute. reflexivity.
Defined.

Lemma deleting_a_user_removes_exactly_their_reports_witness :
  let mine := Scenario.report "6E101" 2 PENDING false None in
  let st := mkStore {[1%positive := Scenario.cadet; 2%positive := Scenario.senior]} ∅
                    {[7%positive := mine]} in
  let '(reply, st', log) := Admin.deleteUser 2%positive 1%positive st in
  reply = Admin.UserDeleted
  /\ users st' !! 1%positive = None
  /\ users st' !! 2%positive = Some Scenario.senior.
Proof.
  intros mine st.
  pose proof (deleting_a_user_removes_exactly_their_reports 2%positive 1%positive st) as H.
  destruct (Admin.deleteUser 2%positive 1%positive st) as [[reply st'] log] eqn:E.
  assert (Hreply : reply = Admin.UserDeleted).
  { vm_compute in E. injection E as <- _ _. reflexivity. }
  destruct H as [_ H]. destruct (H Hreply) as (_ & Hgone & Hothers & _).
  split; [exact Hreply|]. split; [exact Hgone|].
  etrans; [apply (Hothers 2%positive); discriminate|]. vm_compute. reflexivity.
Defined.

Lemma arrayIncludes_In (xs : list string) (x : string) :
  Js.arrayIncludes xs x = true -> x ∈ xs.
Proof.
  unfold Js.arrayIncludes. rewrite existsb_exists. intros (y & Hy & E).
  apply String.eqb_eq in E. subst y. now apply list_elem_of_In.
Qed.

(** X26.  A completed duty moves the pilot: after end-duty, every roster
    the personal listing offers leaves from the arrival airport of the
    completed roster's final leg, or from the airport of the pilot's last
    approved report. *)
Theorem completed_duty_moves_the_listing (userId rosterId : Id) (now : Z) (st st1 : Store)
    (user : User.t) (roster : Roster.t) (final : Leg.t) (listed : gmap Id Roster.t)
    (offeredId : Id) (offered : Roster.t) :
  users st !! userId = Some user ->
  User.currentRoster user = Some rosterId ->
  rosters st !! rosterId = Some roster ->
  last (Roster.legs roster) = Some final ->
  Leg.arrival final <> "" ->
  endDuty userId now st = (DutyCompleted, st1) ->
  Admin.myRosters userId st1 = Some listed ->
  listed !! offeredId = Some offered ->
  exists l,
    head (Roster.legs offered) = Some l
    /\ (Leg.departure l = Leg.arrival final
        \/ Leg.departure l = User.lastKnownAirport user).
Proof.
  intros Hu Hc Hr Hlast Harr Hend Hlist Hoff.
  unfold endDuty in Hend. rewrite Hu in Hend.
  destruct (bool_decide _); [discriminate|]. rewrite Hc, Hr in Hend.
  destruct (_ <? _)%nat; [discriminate|]. injection Hend as <-.
  unfold Admin.myRosters in Hlist. simpl in Hlist. rewrite lookup_insert_eq in Hlist.
  injection Hlist as <-. apply map_lookup_filter_Some in Hoff.
  destruct Hoff as [_ [Hd _]]. simpl in Hd.
  unfold Admin.departsFrom in Hd. apply andb_true_iff in Hd. destruct Hd as [_ Hd].
  destruct (head (Roster.legs offered)) as [l|]; [|discriminate].
  exists l. split; [reflexivity|]. apply arrayIncludes_In in Hd.
  unfold Admin.searchLocations, goOffDuty in Hd. cbn [User.lastDutyAirport User.lastKnownAirport] in Hd.
  rewrite Hlast in Hd. apply String.eqb_neq in Harr. rewrite Harr in Hd.
  destruct (String.eqb (User.lastKnownAirport user) ""); simpl in Hd.
  - apply list_elem_of_singleton in Hd. now left.
  - apply elem_of_cons in Hd. destruct Hd as [Hd|Hd]; [now left|].
    apply list_elem_of_singleton in Hd. now right.
Qed.

Lemma completed_duty_moves_the_listing_witness :
  let flown := Scenario.report "6E101" 2 APPROVED false (Some (5%positive, "6E101")) in
  let back := Scenario.report "6E102" 3 PENDING true (Some (5%positive, "6E102")) in
  let st := mkStore {[1%positive := Scenario.onDuty]} {[5%positive := Scenario.duty]}
                    {[7%positive := flown; 8%positive := back]} in
  exists st1 listed l,
    endDuty 1%positive 1000%Z st = (DutyCompleted, st1)
    /\ Admin.myRosters 1%positive st1 = Some listed
    /\ listed !! 5%positive = Some Scenario.duty
    /\ head (Roster.legs Scenario.duty) = Some l
    /\ (Leg.departure l = "VIDP" \/ Leg.departure l = "VIDP").
Proof.
  intros flown back st.
  assert (H : exists st1 listed,
             endDuty 1%positive 1000%Z st = (DutyCompleted, st1)
             /\ Admin.myRosters 1%positive st1 = Some listed
             /\ listed !! 5%positive = Some Scenario.duty)
    by (eexists _, _; split; [vm_compute; reflexivity|]; split;
        [reflexivity|vm_compute; reflexivity]).
  destruct H as (st1 & listed & Hend & Hlist & H5).
  destruct (completed_duty_moves_the_listing 1%positive 5%positive 1000%Z st st1
              Scenario.onDuty Scenario.duty Scenario.leg2 listed 5%positive Scenario.duty)
    as (l & Hl & Hdep); try assumption.
  - vm_compute. reflexivity.
  - reflexivity.
  - vm_compute. reflexivity.
  - reflexivity.
  - discriminate.
  - exists st1, listed, l. split; [exact Hend|]. split; [exact Hlist|].
    split; [exact H5|]. split; [exact Hl|exact Hdep].
Defined.

(** ** The letter format of the duration parser *)

Lemma digit_facts (c : ascii) :
  Js.isDigit c = true ->
  Js.isWhiteSpace c = false /\ c <> ":"%char /\ c <> "-"%char /\ c <> "+"%char.
Proof.
  destruct c as [[] [] [] [] [] [] [] []]; intros H; try discriminate H;
    (split; [reflexivity|repeat split; discriminate]).
Qed.

Lemma blank_facts (c : ascii) :
  Js.isWhiteSpace c = true -> Js.isDigit c = false /\ c <> ":"%char.
Proof.
  destruct c as [[] [] [] [] [] [] [] []]; intros H; try discriminate H;
    (split; [reflexivity|discriminate]).
Qed.

Lemma spanDigits_self_inv (c : ascii) (d : string) :
  (Js.spanDigits (String c d)).1 = String c d ->
  Js.isDigit c = true /\ (Js.spanDigits d).1 = d.
Proof.
  simpl. destruct (Js.isDigit c); [|discriminate].
  destruct (Js.spanDigits d) as [ds r]. simpl. intros H. injection H as ->.
  split; reflexivity.
Qed.

Lemma isDigits_inv (d : string) :
  isDigits d = true ->
  (Js.spanDigits d).1 = d /\ exists c d', d = String c d' /\ Js.isDigit c = true.
Proof.
  unfold isDigits. rewrite andb_true_iff. intros [Hne Hs].
  apply String.eqb_eq in Hs. split; [exact Hs|].
  destruct d as [|c d']; [discriminate Hne|].
  exists c, d'. split; [reflexivity|]. exact (proj1 (spanDigits_self_inv c d' Hs)).
Qed.

Lemma spanDigits_run (d : string) (v : ascii) (t : string) :
  (Js.spanDigits d).1 = d -> Js.isDigit v = false ->
  Js.spanDigits (d ++ String v t) = (d, String v t).
Proof.
  induction d as [|c d IH]; intros Hd Hv.
  - simpl. now rewrite Hv.
  - destruct (spanDigits_self_inv c d Hd) as [Hc Hd'].
    change (String c d ++ String v t)%string with (String c (d ++ String v t)).
    cbn [Js.spanDigits]. rewrite Hc, (IH Hd' Hv). reflexivity.
Qed.

Lemma digits_no_colon (d : string) :
  (Js.spanDigits d).1 = d -> occurs ":" d = false.
Proof.
  induction d as [|c d IH]; intros Hd; [reflexivity|].
  destruct (spanDigits_self_inv c d Hd) as [Hc Hd'].
  simpl. rewrite (IH Hd'), orb_false_r.
  apply Ascii.eqb_neq. exact (proj1 (proj2 (digit_facts c Hc))).
Qed.

Lemma blanks_no_colon (gap : string) :
  Js.trimStart gap = "" -> occurs ":" gap = false.
Proof.
  induction gap as [|c gap IH]; intros Hg; [reflexivity|].
  simpl in Hg. destruct (Js.isWhiteSpace c) eqn:Hc; [|discriminate].
  simpl. rewrite (IH Hg), orb_false_r.
  apply Ascii.eqb_neq. exact (proj2 (blank_facts c Hc)).
Qed.

Lemma trimEnd_snoc (t : string) (u : ascii) :
  Js.isWhiteSpace u = false ->
  Js.trimEnd (t ++ String u "") = (t ++ String u "")%string.
Proof.
  intros Hu. induction t as [|x t IH].
  - simpl. now rewrite Hu.
  - change (String x t ++ String u "")%string with (String x (t ++ String u "")).
    cbn [Js.trimEnd]. rewrite IH.
    destruct t; reflexivity.
Qed.

Lemma append_assoc' (a b c : string) : ((a ++ b) ++ c = a ++ b ++ c)%string.
Proof.
  induction a as [|x a IH]; [reflexivity|].
  change (String x ((a ++ b) ++ c) = String x (a ++ b ++ c))%string. now rewrite IH.
Qed.

(** A text that starts with a digit and ends with a unit letter is its own
    trimmed form. *)
Lemma trim_digits_unit (c : ascii) (body : string) (u : ascii) :
  Js.isDigit c = true -> Js.isWhiteSpace u = false ->
  Js.trim (String c body ++ String u "") = (String c body ++ String u "")%string.
Proof.
  intros Hc Hu. unfold Js.trim.
  change (String c body ++ String u "")%string with (String c (body ++ String u "")).
  cbn [Js.trimStart]. rewrite (proj1 (digit_facts c Hc)).
  change (String c (body ++ String u "")) with (String c body ++ String u "")%string.
  now apply trimEnd_snoc.
Qed.

Lemma matchDigitsUnit_here (u : ascii) (s d : string) :
  Js.matchDigitsUnitHere u s = Some d -> Js.matchDigitsUnit u s = Some d.
Proof. intros H. destruct s; cbn [Js.matchDigitsUnit]; now rewrite H. Qed.

Lemma matchDigitsUnit_found (u : ascii) (d t : string) :
  isDigits d = true -> Js.isDigit u = false -> Js.isWhiteSpace u = false ->
  Js.matchDigitsUnit u (d ++ String u t) = Some d.
Proof.
  intros Hd Hu Hb. destruct (isDigits_inv d Hd) as (Hs & c & d' & -> & Hc).
  apply matchDigitsUnit_here. unfold Js.matchDigitsUnitHere.
  rewrite (spanDigits_run _ u t Hs Hu). cbn [Js.trimStart]. rewrite Hb.
  now rewrite Ascii.eqb_refl.
Qed.

Lemma matchDigitsUnit_skip_char (u v : ascii) (t : string) :
  Js.isDigit v = false ->
  Js.matchDigitsUnit u (String v t) = Js.matchDigitsUnit u t.
Proof.
  intros Hv. cbn [Js.matchDigitsUnit]. unfold Js.matchDigitsUnitHere at 1.
  cbn [Js.spanDigits]. rewrite Hv. reflexivity.
Qed.

Lemma matchDigitsUnit_skip_blanks (u : ascii) (gap t : string) :
  Js.trimStart gap = "" ->
  Js.matchDigitsUnit u (gap ++ t) = Js.matchDigitsUnit u t.
Proof.
  induction gap as [|c gap IH]; intros Hg; [reflexivity|].
  simpl in Hg. destruct (Js.isWhiteSpace c) eqn:Hc; [|discriminate].
  change (String c gap ++ t)%string with (String c (gap ++ t)).
  rewrite (matchDigitsUnit_skip_char u c _ (proj1 (blank_facts c Hc))).
  exact (IH Hg).
Qed.

Lemma matchDigitsUnit_skip_run (u v : ascii) (d t : string) :
  (Js.spanDigits d).1 = d ->
  Js.isDigit v = false -> Js.isWhiteSpace v = false -> v <> u ->
  Js.matchDigitsUnit u (d ++ String v t) = Js.matchDigitsUnit u (String v t).
Proof.
  intros Hd Hv Hb Hne. induction d as [|c d IH]; [reflexivity|].
  destruct (spanDigits_self_inv c d Hd) as [Hc Hd'].
  change (String c d ++ String v t)%string with (String c (d ++ String v t)).
  cbn [Js.matchDigitsUnit]. unfold Js.matchDigitsUnitHere at 1.
  change (String c (d ++ String v t)) with (String c d ++ String v t)%string.
  rewrite (spanDigits_run _ v t Hd Hv). cbn [Js.trimStart]. rewrite Hb.
  rewrite (proj2 (Ascii.eqb_neq v u) Hne). exact (IH Hd').
Qed.

Lemma parseInt_digits (d : string) :
  isDigits d = true -> Js.parseInt d = Some (Js.decimalValue 0 d).
Proof.
  intros Hd. destruct (isDigits_inv d Hd) as (Hs & c & d' & -> & Hc).
  destruct (digit_facts c Hc) as (Hb & _ & Hminus & Hplus).
  unfold Js.parseInt. cbn [Js.trimStart]. rewrite Hb.
  assert (Hbody : match String c d' with
                  | String "-"%char r => (true, r)
                  | String "+"%char r => (false, r)
                  | _ => (false, String c d')
                  end = (false, String c d')).
  { destruct c as [[] [] [] [] [] [] [] []]; try reflexivity;
      [now contradiction Hplus|now contradiction Hminus]. }
  rewrite Hbody, Hs. reflexivity.
Qed.

(** X27.  In the letter format a run of digits directly before [h] counts
    as hours and one directly before [m] as minutes: [XhYm] (blanks allowed
    between the two parts) is worth X + Y/60, [Xh] alone X, and [Ym] alone
    Y/60; minutes above 59 are not rejected. *)
Theorem letter_duration_value (dh dm gap : string) :
  isDigits dh = true -> isDigits dm = true -> Js.trimStart gap = "" ->
  (isHours (Tuned.convertTimeToDecimal (Some (dh ++ "h" ++ gap ++ dm ++ "m")))
           (inject_Z (Js.decimalValue 0 dh) + inject_Z (Js.decimalValue 0 dm) / 60)
   /\ isHours (Tuned.convertTimeToDecimal (Some (dh ++ "h")))
              (inject_Z (Js.decimalValue 0 dh))
   /\ isHours (Tuned.convertTimeToDecimal (Some (dm ++ "m")))
              (inject_Z (Js.decimalValue 0 dm) / 60))%string.
Proof.
  intros Hh Hm Hg.
  destruct (isDigits_inv dh Hh) as (Hsh & ch & dh' & Eh & Hch).
  destruct (isDigits_inv dm Hm) as (Hsm & cm & dm' & Em & Hcm).
  assert (Hshape : forall (d : string) (u : ascii) (body : string) (c : ascii) (d' : string)
                          (hourMatch minMatch : option string) (q : Q),
             d = String c d' -> Js.isDigit c = true ->
             Js.isWhiteSpace u = false ->
             occurs ":" (d ++ body ++ String u "")%string = false ->
             Js.matchDigitsUnit "h" (d ++ body ++ String u "")%string = hourMatch ->
             Js.matchDigitsUnit "m" (d ++ body ++ String u "")%string = minMatch ->
             is_Some hourMatch \/ is_Some minMatch ->
             (match hourMatch with
              | Some h => inject_Z (default 0%Z (Js.parseInt h))
              | None => 0
              end)
             + match minMatch with
               | Some m => inject_Z (default 0%Z (Js.parseInt m)) / 60
               | None => 0
               end == q ->
             isHours (Tuned.convertTimeToDecimal (Some (d ++ body ++ String u "")%string)) q).
  { intros d u body c d' hourMatch minMatch q -> Hc Hu Hcolon Hhm Hmm Hsome Hq.
    unfold Tuned.convertTimeToDecimal.
    change (truthy (Some (String c d' ++ body ++ String u "")%string)) with true.
    cbn [negb].
    change (default "" (Some (String c d' ++ body ++ String u "")%string))
      with (String c d' ++ body ++ String u "")%string.
    assert (Htrim : Js.trim (String c d' ++ body ++ String u "")
                    = (String c d' ++ body ++ String u "")%string).
    { rewrite <- append_assoc'. exact (trim_digits_unit c (d' ++ body) u Hc Hu). }
    rewrite Htrim. unfold Tuned.colonFormat. rewrite includes_char, Hcolon, Hhm, Hmm.
    destruct hourMatch as [h|], minMatch as [m|]; unfold isHours; cbv beta iota in Hq |- *.
    - rewrite <- Hq. ring.
    - rewrite <- Hq. ring.
    - rewrite <- Hq. ring.
    - destruct Hsome as [[x Hx]|[x Hx]]; discriminate. }
  split; [|split].
  - assert (Es : (dh ++ "h" ++ gap ++ dm ++ "m"
                  = dh ++ String "h" (gap ++ dm) ++ String "m" "")%string).
    { change (dh ++ String "h" (gap ++ dm ++ "m")
              = dh ++ String "h" ((gap ++ dm) ++ "m"))%string.
      now rewrite append_assoc'. }
    rewrite Es.
    apply (Hshape dh "m"%char (String "h" (gap ++ dm)) ch dh' (Some dh) (Some dm) _
             Eh Hch eq_refl).
    + rewrite occurs_append, (digits_no_colon dh Hsh).
      change (String "h" (gap ++ dm) ++ String "m" "")%string
        with (String "h" ((gap ++ dm) ++ String "m" "")).
      cbn [occurs]. rewrite !occurs_append, (blanks_no_colon gap Hg), (digits_no_colon dm Hsm).
      reflexivity.
    + change (dh ++ String "h" (gap ++ dm) ++ String "m" "")%string
        with (dh ++ String "h" ((gap ++ dm) ++ String "m" ""))%string.
      exact (matchDigitsUnit_found "h" dh _ Hh eq_refl eq_refl).
    + change (dh ++ String "h" (gap ++ dm) ++ String "m" "")%string
        with (dh ++ String "h" ((gap ++ dm) ++ String "m" ""))%string.
      rewrite (matchDigitsUnit_skip_run "m" "h" dh _ Hsh eq_refl eq_refl ltac:(discriminate)).
      rewrite (matchDigitsUnit_skip_char "m" "h" _ eq_refl).
      rewrite append_assoc', (matchDigitsUnit_skip_blanks "m" gap _ Hg).
      exact (matchDigitsUnit_found "m" dm "" Hm eq_refl eq_refl).
    + left. eauto.
    + rewrite (parseInt_digits dh Hh), (parseInt_digits dm Hm). reflexivity.
  - change (dh ++ "h")%string with (dh ++ "" ++ String "h" "")%string.
    apply (Hshape dh "h"%char "" ch dh' (Some dh) None _ Eh Hch eq_refl).
    + rewrite occurs_append, (digits_no_colon dh Hsh). reflexivity.
    + exact (matchDigitsUnit_found "h" dh "" Hh eq_refl eq_refl).
    + change (dh ++ "" ++ String "h" "")%string with (dh ++ String "h" "")%string.
      rewrite (matchDigitsUnit_skip_run "m" "h" dh "" Hsh eq_refl eq_refl ltac:(discriminate)).
      reflexivity.
    + left. eauto.
    + rewrite (parseInt_digits dh Hh). simpl. ring.
  - change (dm ++ "m")%string with (dm ++ "" ++ String "m" "")%string.
    apply (Hshape dm "m"%char "" cm dm' None (Some dm) _ Em Hcm eq_refl).
    + rewrite occurs_append, (digits_no_colon dm Hsm). reflexivity.
    + change (dm ++ "" ++ String "m" "")%string with (dm ++ String "m" "")%string.
      rewrite (matchDigitsUnit_skip_run "h" "m" dm "" Hsm eq_refl eq_refl ltac:(discriminate)).
      reflexivity.
    + exact (matchDigitsUnit_found "m" dm "" Hm eq_refl eq_refl).
    + right. eauto.
    + rewrite (parseInt_digits dm Hm). simpl. ring.
Qed.

Lemma letter_duration_value_witness :
  isHours (Tuned.convertTimeToDecimal (Some "1h 90m")) (5 # 2)
  /\ isHours (Tuned.convertTimeToDecimal (Some "2h")) 2
  /\ isHours (Tuned.convertTimeToDecimal (Some "45m")) (3 # 4).
Proof.
  destruct (letter_duration_value "1" "90" " " eq_refl eq_refl eq_refl) as (H1 & _ & _).
  destruct (letter_duration_value "2" "45" "" eq_refl eq_refl eq_refl) as (_ & H2 & H3).
  split; [|split].
  - change ("1" ++ "h" ++ " " ++ "90" ++ "m")%string with "1h 90m" in H1.
    unfold isHours in *. destruct (Tuned.convertTimeToDecimal (Some "1h 90m")); [exact H1|].
    rewrite H1. reflexivity.
  - change ("2" ++ "h")%string with "2h" in H2.
    unfold isHours in *. destruct (Tuned.convertTimeToDecimal (Some "2h")); [exact H2|].
    rewrite H2. reflexivity.
  - change ("45" ++ "m")%string with "45m" in H3.
    unfold isHours in *. destruct (Tuned.convertTimeToDecimal (Some "45m")); [exact H3|].
    rewrite H3. reflexivity.
Defined.

(** ** Durations above the daily ceiling (src/unnamed/part_001) *)

Lemma sumFlightTime_bounds (legs : list Leg.t) (l : Leg.t) :
  Forall (fun x => 0 < Leg.flightTime x) legs ->
  l ∈ legs ->
  Leg.flightTime l <= sumFlightTime legs.
Proof.
  induction 1 as [|x rest Hx Hrest IH]; intros Hin; [inversion Hin|].
  assert (Hsum : 0 <= sumFlightTime rest).
  { clear IH Hin. induction Hrest as [|y more Hy _ IHm]; simpl; [apply Qle_refl|].
    apply Qlt_le_weak in Hy. lra. }
  apply elem_of_cons in Hin. simpl. destruct Hin as [->|Hin].
  - lra.
  - specialize (IH Hin). apply Qlt_le_weak in Hx. lra.
Qed.

(** X28.  A leg of a roster the tuned builder makes from ingested sheets
    lasts more than zero hours and no more than the daily ceiling.  A leg
    whose duration is above the ceiling, the value of an overlong run of
    digits included, stays in the pool and enters no roster, so no total
    contains it. *)
Theorem rostered_legs_fit_the_day (sheets : list Sheet) (g : Random) (r : Roster.t)
    (l : Leg.t) :
  producedBy Tuned.buildRosters (Tuned.ingest sheets) g r ->
  l ∈ Roster.legs r ->
  0 < Leg.flightTime l /\ Leg.flightTime l <= MAX_DAILY_FLIGHT_HOURS.
Proof.
  intros (rs & g' & Hrun & Hr) Hl.
  destruct (Tuned_buildRosters_facts _ _ _ _ Hrun) as [Hall _].
  rewrite Forall_forall in Hall. destruct (Hall r Hr) as [(_ & Hpool & _) _].
  pose proof (Tuned_buildRosters_built _ _ _ _ Hrun) as Hbuilt.
  rewrite Forall_forall in Hbuilt. destruct (Hbuilt r Hr) as [(_ & _ & Hsum & Hmax) _].
  assert (Hpos : Forall (fun x => 0 < Leg.flightTime x) (Roster.legs r)).
  { rewrite Forall_forall. intros x Hx.
    destruct (ingest_origin sheets x (Hpool x Hx)) as (sheet & m & row & _ & Hrow).
    exact (proj1 (legOfRow_ok _ _ _ _ Hrow)). }
  split.
  - rewrite Forall_forall in Hpos. exact (Hpos l Hl).
  - pose proof (sumFlightTime_bounds _ l Hpos Hl) as Hle.
    rewrite <- Hsum in Hle. eapply Qle_trans; [exact Hle|exact Hmax].
Qed.

Lemma rostered_legs_fit_the_day_witness :
  let r := Scenario.first Scenario.generated in
  producedBy Tuned.buildRosters (Tuned.ingest [Scenario.routes]) Scenario.zeros r
  /\ Forall (fun l => 0 < Leg.flightTime l /\ Leg.flightTime l <= MAX_DAILY_FLIGHT_HOURS)
            (Roster.legs r).
Proof.
  intros r.
  assert (Hp : producedBy Tuned.buildRosters (Tuned.ingest [Scenario.routes]) Scenario.zeros r).
  { exists Scenario.generated. eexists. split; [vm_compute; reflexivity|].
    apply list_elem_of_here. }
  split; [exact Hp|].
  rewrite Forall_forall. intros l Hl.
  exact (rostered_legs_fit_the_day [Scenario.routes] Scenario.zeros r l Hp Hl).
Defined.
